(** * Verification of the MD/IPYNB synchronisation tool

    A shallow embedding of the synchronisation core of [.synctool/src]
    ([utils.py], [consistency_checker.py], [file_watcher.py],
    [converter.py], [sync_engine.py]) and the properties its specification
    states about it.

    Conventions of the embedding.
    - Time: every timestamp ([st_mtime], [st_atime], [time.time()]) and every
      duration ([time_threshold], [debounce_delay]) is an integer number of
      microseconds, the resolution of the [datetime] values the code
      compares; [datetime.fromtimestamp] is the identity.  One second is
      [second = 1000000].
    - Paths: [pathlib.Path] values are records of an absolute flag and the
      list of components (POSIX flavour); [str] and [Path(...)] convert from
      and to strings as pathlib does for paths without [..] components.
    - File system: a finite map from path strings to nodes, part of the
      [world] the stateful functions thread through.  Reading a file leaves
      its access time.
    - Effects: a function that reads or changes the world is a computation
      [M world A]; the methods of the engine, which also keep the set of
      recently synchronised paths, are computations [M state A].  Both
      return a result or raise.
    - Dictionaries are finite maps; a loop over a dictionary visits its
      entries in the order of [map_to_list].
    - Logging: the calls at INFO level and above are recorded in the log
      of the world where the engine, the converter or the scan make them.
    - [fnmatch.fnmatch], [json.loads] and the two content transformations
      of the converter are the fields of the class [Externals].
    - The functions of the converter that cut a Markdown text into cells
      are embedded on their own, over texts as lists of code points. *)

From Stdlib Require Import ZArith String Ascii List Bool Lia.
From stdpp Require Import gmap strings list fin_maps.

Close Scope string_scope.
Open Scope string_scope.
Close Scope list_scope.
Open Scope list_scope.
Open Scope Z_scope.

(** ** Exceptions *)

Inductive exn : Type :=
| TypeError
| ValueError
| FileNotFoundError
| IsADirectoryError
| PermissionError
| JSONDecodeError (msg : string)
| ConversionError (msg : string).

Inductive result (A : Type) : Type :=
| Ok (a : A)
| Raise (e : exn).
Arguments Ok {A} a.
Arguments Raise {A} e.

(** ** Strings and paths ([os.path], [pathlib]) *)

Module PyStr.

Definition dot : ascii := "."%char.
Definition slash : ascii := "/"%char.

(** [s.split(sep)] for a one-character separator. *)
Fixpoint split (sep : ascii) (s : string) : list string :=
  match s with
  | EmptyString => [EmptyString]
  | String c s' =>
      if Ascii.eqb c sep then EmptyString :: split sep s'
      else match split sep s' with
           | [] => [String c EmptyString]
           | w :: ws => String c w :: ws
           end
  end.

(** [sep.join(l)]. *)
Fixpoint join (sep : string) (l : list string) : string :=
  match l with
  | [] => ""
  | [w] => w
  | w :: ws => w +:+ sep +:+ join sep ws
  end.

(** Splits [s] at its last dot: [Some (s[:i], s[i:])] for
    [i = s.rfind('.')], [None] when [s] has no dot. *)
Fixpoint rpartition_dot (s : string) : option (string * string) :=
  match s with
  | EmptyString => None
  | String c s' =>
      match rpartition_dot s' with
      | Some (pre, suf) => Some (String c pre, suf)
      | None => if Ascii.eqb c dot then Some (EmptyString, s) else None
      end
  end.

Fixpoint all_dots (s : string) : bool :=
  match s with
  | EmptyString => true
  | String c s' => Ascii.eqb c dot && all_dots s'
  end.

(** [c.lower()] on ASCII letters; other bytes are unchanged. *)
Definition lower_ascii (c : ascii) : ascii :=
  let n := nat_of_ascii c in
  if (65 <=? n)%nat && (n <=? 90)%nat then ascii_of_nat (n + 32) else c.

Fixpoint lower (s : string) : string :=
  match s with
  | EmptyString => EmptyString
  | String c s' => String (lower_ascii c) (lower s')
  end.

(** [s[1:]]. *)
Definition tail (s : string) : string :=
  match s with
  | EmptyString => EmptyString
  | String _ s' => s'
  end.

(** ASCII white space, as removed by [str.strip()]. *)
Definition is_space (c : ascii) : bool :=
  let n := nat_of_ascii c in
  ((9 <=? n)%nat && (n <=? 13)%nat) || ((28 <=? n)%nat && (n <=? 32)%nat).

(** [s.lstrip()], [s.strip()]. *)
Fixpoint lstrip (s : string) : string :=
  match s with
  | EmptyString => EmptyString
  | String c s' => if is_space c then lstrip s' else s
  end.

Definition strip (s : string) : string :=
  String.rev (lstrip (String.rev (lstrip s))).

Definition newline : string := String (ascii_of_nat 10) EmptyString.

Fixpoint starts_with (pre s : string) : bool :=
  match pre, s with
  | EmptyString, _ => true
  | String a pre', String b s' => Ascii.eqb a b && starts_with pre' s'
  | String _ _, EmptyString => false
  end.

End PyStr.

Module OsPath.
Import PyStr.

(** [os.path.basename(p)]. *)
Definition basename (p : string) : string :=
  List.last (split slash p) "".

(** The extension part of [os.path.splitext(p)]: the text from the last
    dot of the base name on, unless only dots precede it. *)
Definition splitext_ext (p : string) : string :=
  match rpartition_dot (basename p) with
  | Some (pre, suf) => if all_dots pre then "" else suf
  | None => ""
  end.

End OsPath.

(** [pathlib.PurePosixPath]. *)
Record Path : Type := mkPath { is_abs : bool; parts : list string }.

Global Instance Path_eq_dec : EqDecision Path.
Proof. solve_decision. Defined.

Module PathLib.
Import PyStr.

Definition keep_part (s : string) : bool :=
  negb (String.eqb s "") && negb (String.eqb s ".").

(** [Path(s)]. *)
Definition of_str (s : string) : Path :=
  mkPath (starts_with "/" s) (List.filter keep_part (split slash s)).

(** [str(p)]. *)
Definition str (p : Path) : string :=
  if is_abs p then "/" +:+ join "/" (parts p)
  else match parts p with
       | [] => "."
       | _ => join "/" (parts p)
       end.

(** [p.name]. *)
Definition name (p : Path) : string := List.last (parts p) "".

(** [p.parent]. *)
Definition parent (p : Path) : Path :=
  mkPath (is_abs p) (List.removelast (parts p)).

(** [p.suffix]: the text from the last dot of the name on, when that dot
    is neither the first nor the last character of the name. *)
Definition suffix (p : Path) : string :=
  match rpartition_dot (name p) with
  | Some (pre, suf) =>
      if String.eqb pre "" || String.eqb suf "." then "" else suf
  | None => ""
  end.

(** [p.stem]. *)
Definition stem (p : Path) : string :=
  match rpartition_dot (name p) with
  | Some (pre, suf) =>
      if String.eqb pre "" || String.eqb suf "." then name p else pre
  | None => name p
  end.

(** [p / q] for a path [q]. *)
Definition joinpath (p q : Path) : Path :=
  if is_abs q then q else mkPath (is_abs p) (parts p ++ parts q).

(** [p / s] for a string [s]. *)
Definition div (p : Path) (s : string) : Path := joinpath p (of_str s).

(** [p.with_suffix(suf)]; pathlib raises [ValueError] on an empty name. *)
Definition with_suffix (p : Path) (suf : string) : result Path :=
  if String.eqb (name p) "" then Raise ValueError
  else Ok (mkPath (is_abs p) (List.removelast (parts p) ++ [stem p +:+ suf])).

Fixpoint strip_prefix (pre l : list string) : option (list string) :=
  match pre, l with
  | [], _ => Some l
  | a :: pre', b :: l' =>
      if String.eqb a b then strip_prefix pre' l' else None
  | _ :: _, [] => None
  end.

(** [p.relative_to(base)]; [ValueError] when [p] is not under [base]. *)
Definition relative_to (p base : Path) : result Path :=
  if Bool.eqb (is_abs p) (is_abs base) then
    match strip_prefix (parts base) (parts p) with
    | Some rest => Ok (mkPath false rest)
    | None => Raise ValueError
    end
  else Raise ValueError.

(** [d in p.parents]: [d] is a proper ancestor of [p]. *)
Definition in_parents (d p : Path) : bool :=
  Bool.eqb (is_abs d) (is_abs p) &&
  match strip_prefix (parts d) (parts p) with
  | Some (_ :: _) => true
  | _ => false
  end.

Fixpoint common_prefix_drop (a b : list string) : list string * list string :=
  match a, b with
  | x :: a', y :: b' =>
      if String.eqb x y then common_prefix_drop a' b' else (a, b)
  | _, _ => (a, b)
  end.

(** [os.path.relpath(path, start)] for two paths that are both absolute
    (or both relative to the working directory): one [..] for every
    component of [start] below the common prefix, then the rest of
    [path]; ["."] when nothing is left. *)
Definition relpath (path start : Path) : string :=
  let '(s_rest, p_rest) := common_prefix_drop (parts start) (parts path) in
  match List.app (List.map (fun _ => "..") s_rest) p_rest with
  | [] => "."
  | l => join "/" l
  end.

End PathLib.

(** ** [config_manager.py]: the configuration as [ConfigManager.get] reads it *)

Definition second : Z := 1000000.

Record Config : Type := mkConfig {
  md_dir : Path;                  (* get_md_dir() *)
  ipynb_dir : Path;               (* get_ipynb_dir() *)
  ignore_patterns : list string;  (* get('ignore_patterns', []) *)
  conflict_resolution : string;   (* 'newer', 'md' or 'ipynb' *)
  time_threshold : option Z;      (* in microseconds; None when unset *)
  delete_orphaned : bool;         (* get('delete_orphaned', False) *)
  debounce_delay : Z;             (* get('debounce_delay', 0.8), in microseconds *)
  sync_on_start : bool            (* get('sync_on_start', True) *)
}.

(** [config.get('time_threshold', default)]. *)
Definition get_time_threshold (cfg : Config) (default : Z) : Z :=
  match time_threshold cfg with
  | Some t => t
  | None => default
  end.

(** ** Functions outside the synchronisation core

    [fnmatch.fnmatch], [json.loads] and the two content transformations of
    the converter ([parse_md_to_cells] followed by [json.dump], and
    [convert_notebook_to_md]).  The core only passes their results on. *)

Class Externals : Type := mkExternals {
  fnmatch : string -> string -> bool;
  notebook : Type;
  render_notebook : string -> string;
  json_loads : string -> notebook + string;   (* inr: JSONDecodeError text *)
  convert_notebook_to_md : notebook -> string + string  (* inr: exception text *)
}.

(** ** The world: file system, clock and log *)

Record stat_result : Type := mkStat { st_atime : Z; st_mtime : Z }.

Inductive node : Type :=
| File (content : string) (st : stat_result)
| Dir (st : stat_result)
| Dangling.                       (* a symbolic link whose target is missing *)

Inductive level : Type := DEBUG | INFO | WARNING | ERROR.

(** One [logger] call: level, the bracketed label of the message, and the
    paths it mentions.  Calls at DEBUG level are not recorded. *)
Record log_record : Type := mkLog {
  levelname : level;
  tag : string;
  args : list string
}.

Record world : Type := mkWorld {
  fs : gmap string node;
  now : Z;                        (* time.time() *)
  log : list log_record           (* oldest first *)
}.

Definition set_fs (w : world) (m : gmap string node) : world :=
  mkWorld m (now w) (log w).

Definition logger (l : level) (t : string) (a : list string) (w : world) : world :=
  mkWorld (fs w) (now w) (log w ++ [mkLog l t a]).

Module FS.

(** [path.exists()]: follows links, so a dangling link does not exist. *)
Definition exists_ (m : gmap string node) (p : Path) : bool :=
  match parts p with
  | [] => true
  | _ => match m !! PathLib.str p with
         | Some (File _ _) | Some (Dir _) => true
         | _ => false
         end
  end.

Definition is_dir (m : gmap string node) (p : Path) : bool :=
  match parts p with
  | [] => true
  | _ => match m !! PathLib.str p with
         | Some (Dir _) => true
         | _ => false
         end
  end.

(** [os.stat(path)]. *)
Definition stat (m : gmap string node) (p : Path) : result stat_result :=
  match m !! PathLib.str p with
  | Some (File _ st) | Some (Dir st) => Ok st
  | _ => Raise FileNotFoundError
  end.

(** [st_size] of a regular file: the length of its content. *)
Definition st_size (m : gmap string node) (p : Path) : result Z :=
  match m !! PathLib.str p with
  | Some (File c _) => Ok (Z.of_nat (String.length c))
  | Some (Dir _) => Ok 4096
  | _ => Raise FileNotFoundError
  end.

(** [open(path, 'r').read()]; the access time stays as it is. *)
Definition read (m : gmap string node) (p : Path) : result string :=
  match m !! PathLib.str p with
  | Some (File c _) => Ok c
  | Some (Dir _) => Raise IsADirectoryError
  | _ => Raise FileNotFoundError
  end.

(** [open(path, 'w').write(c)] at time [t]: the parent must be a
    directory and the path itself must not be one. *)
Definition write (m : gmap string node) (t : Z) (p : Path) (c : string)
  : result (gmap string node) :=
  if negb (is_dir m (PathLib.parent p)) then Raise FileNotFoundError
  else match m !! PathLib.str p with
       | Some (Dir _) => Raise IsADirectoryError
       | _ => Ok (<[PathLib.str p := File c (mkStat t t)]> m)
       end.

(** [os.utime(path, (atime, mtime))]. *)
Definition utime (m : gmap string node) (p : Path) (a mt : Z)
  : result (gmap string node) :=
  match m !! PathLib.str p with
  | Some (File c _) => Ok (<[PathLib.str p := File c (mkStat a mt)]> m)
  | Some (Dir _) => Ok (<[PathLib.str p := Dir (mkStat a mt)]> m)
  | _ => Raise FileNotFoundError
  end.

(** [path.unlink()]. *)
Definition unlink (m : gmap string node) (p : Path) : result (gmap string node) :=
  match m !! PathLib.str p with
  | Some (File _ _) | Some Dangling => Ok (delete (PathLib.str p) m)
  | Some (Dir _) => Raise IsADirectoryError
  | None => Raise FileNotFoundError
  end.

(** The ancestors of [p] from the outermost on, [p] itself last. *)
Definition prefixes (p : Path) : list Path :=
  List.map (fun n => mkPath (is_abs p) (List.firstn n (parts p)))
           (List.seq 1 (List.length (parts p))).

(** [os.makedirs(d, exist_ok=True)] at time [t]: creates the missing
    ancestors in turn and fails where a non-directory is in the way; the
    directories created before the failure stay. *)
Fixpoint makedirs_go (m : gmap string node) (t : Z) (ds : list Path)
  : gmap string node * result unit :=
  match ds with
  | [] => (m, Ok tt)
  | d :: ds' =>
      match m !! PathLib.str d with
      | Some (Dir _) => makedirs_go m t ds'
      | None => makedirs_go (<[PathLib.str d := Dir (mkStat t t)]> m) t ds'
      | Some _ => (m, Raise FileNotFoundError)
      end
  end.

Definition makedirs (m : gmap string node) (t : Z) (d : Path)
  : gmap string node * result unit :=
  makedirs_go m t (prefixes d).

(** The entries of directory [d]: name and node of every path whose
    parent is [d]. *)
Definition listdir (m : gmap string node) (d : Path) : list (string * node) :=
  omap (fun kn : string * node =>
          let p := PathLib.of_str kn.1 in
          if decide (parts p <> [] /\ PathLib.parent p = d)
          then Some (PathLib.name p, kn.2) else None)
       (map_to_list m).

Definition is_dir_node (n : node) : bool :=
  match n with Dir _ => true | _ => false end.

(** [os.walk(top)] with the caller's in-place pruning of [dirs]:
    [(root, dirs, files)] top-down, descending only into the
    directories that [keep root] retains.  Links are not followed; the
    depth of a finite tree is bounded by [fuel]. *)
Fixpoint os_walk (fuel : nat) (keep : Path -> string -> bool)
    (m : gmap string node) (top : Path)
  : list (Path * list string * list string) :=
  match fuel with
  | O => []
  | S n =>
      let entries := listdir m top in
      let dirs := List.filter (keep top)
                    (List.map fst (List.filter (fun e => is_dir_node e.2) entries)) in
      let files := List.map fst (List.filter (fun e => negb (is_dir_node e.2)) entries) in
      (top, dirs, files)
        :: List.flat_map (fun d => os_walk n keep m (PathLib.div top d)) dirs
  end.

End FS.

(** ** State and exceptions

    A computation reads and updates a state and either returns or raises;
    what it did to the state before raising stays done. *)

Definition M (St A : Type) : Type := St -> St * result A.

Definition ret {St A : Type} (a : A) : M St A := fun s => (s, Ok a).

Definition raise {St A : Type} (e : exn) : M St A := fun s => (s, Raise e).

Definition bind {St A B : Type} (c : M St A) (k : A -> M St B) : M St B :=
  fun s =>
    match c s with
    | (s', Ok a) => k a s'
    | (s', Raise e) => (s', Raise e)
    end.

(** [try: c  except Exception as e: h e]. *)
Definition try_except {St A : Type} (c : M St A) (h : exn -> M St A) : M St A :=
  fun s =>
    match c s with
    | (s', Raise e) => h e s'
    | r => r
    end.

Definition gets {St A : Type} (f : St -> A) : M St A := fun s => (s, Ok (f s)).

Definition modify {St : Type} (f : St -> St) : M St unit := fun s => (f s, Ok tt).

(** Lifts a function of the state that may raise and leaves the state. *)
Definition read_result {St A : Type} (f : St -> result A) : M St A :=
  fun s => (s, f s).

Notation "'let*' x ':=' c 'in' k" := (bind c (fun x => k))
  (at level 10, x name, c at level 100, k at level 200).
Notation "c ;;; k" := (bind c (fun _ => k))
  (at level 100, k at level 200, right associativity).

(** The file-system calls as computations over the world. *)
Module Os.

Definition info (t : string) (a : list string) : M world unit :=
  modify (logger INFO t a).
Definition warning (t : string) (a : list string) : M world unit :=
  modify (logger WARNING t a).
Definition error (t : string) (a : list string) : M world unit :=
  modify (logger ERROR t a).

Definition exists_ (p : Path) : M world bool :=
  gets (fun w => FS.exists_ (fs w) p).

Definition stat (p : Path) : M world stat_result :=
  read_result (fun w => FS.stat (fs w) p).

Definition st_size (p : Path) : M world Z :=
  read_result (fun w => FS.st_size (fs w) p).

Definition read (p : Path) : M world string :=
  read_result (fun w => FS.read (fs w) p).

Definition update (f : world -> result (gmap string node)) : M world unit :=
  fun w =>
    match f w with
    | Ok m => (set_fs w m, Ok tt)
    | Raise e => (w, Raise e)
    end.

Definition write (p : Path) (c : string) : M world unit :=
  update (fun w => FS.write (fs w) (now w) p c).

Definition utime (p : Path) (a mt : Z) : M world unit :=
  update (fun w => FS.utime (fs w) p a mt).

Definition unlink (p : Path) : M world unit :=
  update (fun w => FS.unlink (fs w) p).

Definition makedirs (p : Path) : M world unit :=
  fun w => let '(m, r) := FS.makedirs (fs w) (now w) p in (set_fs w m, r).

End Os.

(** ** [utils.py] *)

Module Utils.

Definition get_file_extension (file_path : string) : string :=
  PyStr.lower (PyStr.tail (OsPath.splitext_ext file_path)).

Definition is_markdown_file (file_path : string) : bool :=
  String.eqb (get_file_extension file_path) "md".

Definition is_notebook_file (file_path : string) : bool :=
  String.eqb (get_file_extension file_path) "ipynb".

Definition get_relative_path (path base_path : Path) : string :=
  PathLib.relpath path base_path.

Definition ensure_dir_exists (directory : Path) : M world unit :=
  let* e := Os.exists_ directory in
  if negb e then
    Os.makedirs directory ;;;
    Os.info "创建目录" [PathLib.str directory]
  else ret tt.

End Utils.

(** ** [consistency_checker.py] *)

Record FileInfo : Type := mkFileInfo {
  path : Path;
  rel_path : Path;
  mtime : option Z;               (* None when the file vanished during the scan *)
  info_size : Z;                  (* the 'size' key *)
  extension : string
}.

(** [float('inf')] or a finite number of microseconds. *)
Inductive time_diff_t : Type :=
| Finite (d : Z)
| Inf.

Record action : Type := mkAction {
  source : Path;
  target : Path;
  a_rel_path : string;            (* the 'rel_path' key *)
  time_diff : time_diff_t
}.

Record sync_actions : Type := mkSyncActions {
  md_to_ipynb : list action;
  ipynb_to_md : list action;
  conflict : list action;
  orphaned_md : list Path;
  orphaned_ipynb : list Path
}.

Module ConsistencyChecker.

Section Checker.

Context `{!Externals}.
Variable cfg : Config.

Definition is_ignored (path : string) : bool :=
  let filename := OsPath.basename path in
  List.existsb (fun pattern => fnmatch filename pattern) (ignore_patterns cfg).

Definition get_corresponding_path (path source_dir target_dir : Path)
    (target_ext : string) : result Path :=
  match PathLib.relative_to path source_dir with
  | Raise e => Raise e
  | Ok rel =>
      Ok (PathLib.div (PathLib.joinpath target_dir (PathLib.parent rel))
                      (PathLib.stem rel +:+ target_ext))
  end.

(** The entry [scan_directory] records for one walked file. *)
Definition file_info (m : gmap string node) (base_dir file_path : Path)
  : result (string * FileInfo) :=
  match PathLib.relative_to file_path base_dir with
  | Raise e => Raise e
  | Ok rel =>
      let '(mt, sz) :=
        if FS.exists_ m file_path then
          match FS.stat m file_path, FS.st_size m file_path with
          | Ok st, Ok n => (Some (st_mtime st), n)
          | _, _ => (None, 0)
          end
        else (None, 0) in
      Ok (PathLib.str rel,
          mkFileInfo file_path rel mt sz (PathLib.suffix file_path))
  end.

Fixpoint scan_files (m : gmap string node) (base_dir root : Path)
    (files : list string) (files_info : gmap string FileInfo)
  : result (gmap string FileInfo) :=
  match files with
  | [] => Ok files_info
  | file :: rest =>
      let file_path := PathLib.div root file in
      if is_ignored (PathLib.str file_path) then
        scan_files m base_dir root rest files_info
      else
        match file_info m base_dir file_path with
        | Raise e => Raise e
        | Ok (k, info) =>
            scan_files m base_dir root rest (<[k := info]> files_info)
        end
  end.

Fixpoint scan_walk (m : gmap string node) (base_dir : Path)
    (walk : list (Path * list string * list string))
    (files_info : gmap string FileInfo) : result (gmap string FileInfo) :=
  match walk with
  | [] => Ok files_info
  | (root, _, files) :: rest =>
      match scan_files m base_dir root files files_info with
      | Raise e => Raise e
      | Ok files_info' => scan_walk m base_dir rest files_info'
      end
  end.

Definition scan_directory (w : world) (directory : Path)
    (base_dir : option Path) : world * result (gmap string FileInfo) :=
  let base_dir := match base_dir with Some b => b | None => directory end in
  if negb (FS.exists_ (fs w) directory) then
    (logger WARNING "目录不存在" [PathLib.str directory] w,
     Ok ∅)
  else
    let keep := fun (root : Path) (d : string) =>
                  negb (is_ignored (PathLib.str (PathLib.div root d))) in
    (w, scan_walk (fs w) base_dir
          (FS.os_walk (S (size (fs w))) keep (fs w) directory) ∅).

(** A loop whose body may raise. *)
Fixpoint foldM {A B : Type} (f : B -> A -> result B) (l : list A) (b : B)
  : result B :=
  match l with
  | [] => Ok b
  | a :: l' =>
      match f b a with
      | Raise e => Raise e
      | Ok b' => foldM f l' b'
      end
  end.

(** [str(Path(rel_path).parent / (Path(rel_path).stem + ext))]. *)
Definition mirror_rel (rel_path ext : string) : string :=
  let p := PathLib.of_str rel_path in
  PathLib.str (PathLib.div (PathLib.parent p) (PathLib.stem p +:+ ext)).

Definition add_md_to_ipynb (a : action) (s : sync_actions) : sync_actions :=
  mkSyncActions (md_to_ipynb s ++ [a]) (ipynb_to_md s) (conflict s)
                (orphaned_md s) (orphaned_ipynb s).

Definition add_ipynb_to_md (a : action) (s : sync_actions) : sync_actions :=
  mkSyncActions (md_to_ipynb s) (ipynb_to_md s ++ [a]) (conflict s)
                (orphaned_md s) (orphaned_ipynb s).

Definition add_orphaned_md (p : Path) (s : sync_actions) : sync_actions :=
  mkSyncActions (md_to_ipynb s) (ipynb_to_md s) (conflict s)
                (orphaned_md s ++ [p]) (orphaned_ipynb s).

Definition add_orphaned_ipynb (p : Path) (s : sync_actions) : sync_actions :=
  mkSyncActions (md_to_ipynb s) (ipynb_to_md s) (conflict s)
                (orphaned_md s) (orphaned_ipynb s ++ [p]).

(** [abs((a - b).total_seconds())]; subtracting from or by [None] is a
    [TypeError]. *)
Definition abs_diff (a b : option Z) : result Z :=
  match a, b with
  | Some x, Some y => Ok (Z.abs (x - y))
  | _, _ => Raise TypeError
  end.

(** [a > b] on two datetimes known not to be [None]. *)
Definition newer (a b : option Z) : bool :=
  match a, b with
  | Some x, Some y => y <? x
  | _, _ => false
  end.

(** Body of the first loop: one MD file against the IPYNB tree. *)
Definition check_md_file (ipynb_files : gmap string FileInfo)
    (s : sync_actions) (entry : string * FileInfo) : result sync_actions :=
  let '(rel_path, md_info) := entry in
  if negb (Utils.is_markdown_file (PathLib.str (path md_info))) then Ok s
  else
    let rel_ipynb_path := mirror_rel rel_path ".ipynb" in
    match ipynb_files !! rel_ipynb_path with
    | Some ipynb_info =>
        let md_mtime := mtime md_info in
        let ipynb_mtime := mtime ipynb_info in
        match abs_diff md_mtime ipynb_mtime with
        | Raise e => Raise e
        | Ok time_diff =>
            let time_threshold := get_time_threshold cfg (5 * second) in
            if time_diff <? time_threshold then Ok s
            else if newer md_mtime ipynb_mtime
                    || String.eqb (conflict_resolution cfg) "md" then
              Ok (add_md_to_ipynb
                    (mkAction (path md_info) (path ipynb_info) rel_path
                              (Finite time_diff)) s)
            else if newer ipynb_mtime md_mtime
                    || String.eqb (conflict_resolution cfg) "ipynb" then
              Ok (add_ipynb_to_md
                    (mkAction (path ipynb_info) (path md_info) rel_ipynb_path
                              (Finite time_diff)) s)
            else Ok s
        end
    | None =>
        match get_corresponding_path (path md_info) (md_dir cfg)
                                     (ipynb_dir cfg) ".ipynb" with
        | Raise e => Raise e
        | Ok ipynb_path =>
            Ok (add_md_to_ipynb
                  (mkAction (path md_info) ipynb_path rel_path Inf) s)
        end
    end.

(** Body of the second loop: one IPYNB file without an MD mirror. *)
Definition check_ipynb_file (md_files : gmap string FileInfo)
    (s : sync_actions) (entry : string * FileInfo) : result sync_actions :=
  let '(rel_path, ipynb_info) := entry in
  if negb (Utils.is_notebook_file (PathLib.str (path ipynb_info))) then Ok s
  else
    let rel_md_path := mirror_rel rel_path ".md" in
    match md_files !! rel_md_path with
    | Some _ => Ok s
    | None =>
        match get_corresponding_path (path ipynb_info) (ipynb_dir cfg)
                                     (md_dir cfg) ".md" with
        | Raise e => Raise e
        | Ok md_path =>
            Ok (add_ipynb_to_md
                  (mkAction (path ipynb_info) md_path rel_path Inf) s)
        end
    end.

(** [any(action['rel_path'] == rel_path for action in actions)]. *)
Definition scheduled (rel_path : string) (actions : list action) : bool :=
  List.existsb (fun a => String.eqb (a_rel_path a) rel_path) actions.

Definition mark_orphaned_md (ipynb_files : gmap string FileInfo)
    (s : sync_actions) (entry : string * FileInfo) : sync_actions :=
  let '(rel_path, md_info) := entry in
  if negb (Utils.is_markdown_file (PathLib.str (path md_info))) then s
  else
    let rel_ipynb_path := mirror_rel rel_path ".ipynb" in
    if negb (bool_decide (is_Some (ipynb_files !! rel_ipynb_path)))
       && negb (scheduled rel_path (md_to_ipynb s))
    then add_orphaned_md (path md_info) s
    else s.

Definition mark_orphaned_ipynb (md_files : gmap string FileInfo)
    (s : sync_actions) (entry : string * FileInfo) : sync_actions :=
  let '(rel_path, ipynb_info) := entry in
  if negb (Utils.is_notebook_file (PathLib.str (path ipynb_info))) then s
  else
    let rel_md_path := mirror_rel rel_path ".md" in
    if negb (bool_decide (is_Some (md_files !! rel_md_path)))
       && negb (scheduled rel_path (ipynb_to_md s))
    then add_orphaned_ipynb (path ipynb_info) s
    else s.

Definition empty_actions : sync_actions := mkSyncActions [] [] [] [] [].

(** [check_consistency] from the two scanned dictionaries on: the two
    propagation loops, then the orphan marking when [delete_orphaned]
    is set.  The dictionaries are iterated in the order of
    [map_to_list]; the informational log lines are not recorded. *)
Definition build_sync_actions (md_files ipynb_files : gmap string FileInfo)
  : result sync_actions :=
  match foldM (check_md_file ipynb_files) (map_to_list md_files)
              empty_actions with
  | Raise e => Raise e
  | Ok s1 =>
      match foldM (check_ipynb_file md_files) (map_to_list ipynb_files) s1 with
      | Raise e => Raise e
      | Ok s2 =>
          if delete_orphaned cfg then
            let s3 := List.fold_left (mark_orphaned_md ipynb_files)
                                     (map_to_list md_files) s2 in
            Ok (List.fold_left (mark_orphaned_ipynb md_files)
                               (map_to_list ipynb_files) s3)
          else Ok s2
      end
  end.

Definition check_consistency (w : world) : world * result sync_actions :=
  let '(w1, md_files) := scan_directory w (md_dir cfg) None in
  match md_files with
  | Raise e => (w1, Raise e)
  | Ok md_files =>
      let '(w2, ipynb_files) := scan_directory w1 (ipynb_dir cfg) None in
      match ipynb_files with
      | Raise e => (w2, Raise e)
      | Ok ipynb_files => (w2, build_sync_actions md_files ipynb_files)
      end
  end.

End Checker.

End ConsistencyChecker.

(** ** [converter.py] *)

Module Converter.

Section Converter.

Context `{!Externals}.

(** The note written in place of a notebook that is not valid JSON. *)
Definition error_note (ipynb_path : Path) (je : string) : string :=
  "# 注意：原IPYNB文件格式有误" +:+ PyStr.newline +:+ PyStr.newline
  +:+ "原文件路径：" +:+ PathLib.str ipynb_path
  +:+ PyStr.newline +:+ PyStr.newline +:+ "错误信息：" +:+ je.

(** The output path: the one given, or the input with the suffix
    replaced. *)
Definition output_path (input : Path) (output : option Path)
    (suffix : string) : M world Path :=
  match output with
  | Some p => ret p
  | None => fun w => (w, PathLib.with_suffix input suffix)
  end.

Definition md_to_ipynb (md_path : Path) (ipynb_path : option Path)
  : M world Path :=
  let* ipynb_path := output_path md_path ipynb_path ".ipynb" in
  Os.info "转换 MD → IPYNB" [PathLib.str md_path; PathLib.str ipynb_path] ;;;
  Utils.ensure_dir_exists (PathLib.parent ipynb_path) ;;;
  try_except
    (let* md_content := Os.read md_path in
     let* source_stat := Os.stat md_path in
     let access_time := st_atime source_stat in
     let modify_time := st_mtime source_stat in
     Os.write ipynb_path (render_notebook md_content) ;;;
     Os.utime ipynb_path access_time modify_time ;;;
     Os.info "转换成功" [PathLib.str ipynb_path] ;;;
     ret ipynb_path)
    (fun e =>
       Os.error "转换失败 MD → IPYNB"
                [PathLib.str md_path; PathLib.str ipynb_path] ;;;
       raise e).

(** Writes [text] to [md_path] and gives it the source's timestamps. *)
Definition write_md (md_path : Path) (text : string)
    (access_time modify_time : Z) : M world unit :=
  Os.write md_path text ;;;
  Os.utime md_path access_time modify_time.

Definition ipynb_to_md (ipynb_path : Path) (md_path : option Path)
  : M world Path :=
  let* md_path := output_path ipynb_path md_path ".md" in
  Os.info "转换 IPYNB → MD" [PathLib.str ipynb_path; PathLib.str md_path] ;;;
  Utils.ensure_dir_exists (PathLib.parent md_path) ;;;
  try_except
    (let* source_stat := Os.stat ipynb_path in
     let access_time := st_atime source_stat in
     let modify_time := st_mtime source_stat in
     let* sz := Os.st_size ipynb_path in
     if sz =? 0 then
       Os.warning "IPYNB文件为空" [PathLib.str ipynb_path] ;;;
       write_md md_path "" access_time modify_time ;;;
       Os.info "已创建空的MD文件" [PathLib.str md_path] ;;;
       ret md_path
     else
       let* raw := Os.read ipynb_path in
       let content := PyStr.strip raw in
       if String.eqb content "" then
         Os.warning "IPYNB文件内容为空" [PathLib.str ipynb_path] ;;;
         write_md md_path "" access_time modify_time ;;;
         Os.info "已创建空的MD文件" [PathLib.str md_path] ;;;
         ret md_path
       else
         match json_loads content with
         | inr je =>
             Os.error "IPYNB文件不是有效的JSON格式" [PathLib.str ipynb_path] ;;;
             write_md md_path (error_note ipynb_path je)
                      access_time modify_time ;;;
             Os.info "已创建包含错误信息的MD文件" [PathLib.str md_path] ;;;
             ret md_path
         | inl nb =>
             match convert_notebook_to_md nb with
             | inr msg => raise (ConversionError msg)
             | inl md_content =>
                 write_md md_path md_content access_time modify_time ;;;
                 Os.info "转换成功" [PathLib.str md_path] ;;;
                 ret md_path
             end
         end)
    (fun e =>
       Os.error "转换失败 IPYNB → MD"
                [PathLib.str ipynb_path; PathLib.str md_path] ;;;
       raise e).

End Converter.

End Converter.

(** ** [sync_engine.py] *)

Record state : Type := mkState {
  st_world : world;
  recently_synced : gset string;
  sync_timeout : Z                (* set to 5 seconds by __init__ *)
}.

Definition set_world (s : state) (w : world) : state :=
  mkState w (recently_synced s) (sync_timeout s).

Definition set_recently_synced (s : state) (r : gset string) : state :=
  mkState (st_world s) r (sync_timeout s).

(** The state at another reading of the clock, and with another value of
    the timeout field. *)
Definition at_time (s : state) (t : Z) : state :=
  set_world s (mkWorld (fs (st_world s)) t (log (st_world s))).

Definition with_timeout (s : state) (timeout : Z) : state :=
  mkState (st_world s) (recently_synced s) timeout.

(** Runs a computation over the world inside the engine. *)
Definition lift {A : Type} (c : M world A) : M state A :=
  fun s => let '(w, r) := c (st_world s) in (set_world s w, r).

Module SyncEngine.

Section Engine.

Context `{!Externals}.
Variable cfg : Config.

Definition info (t : string) (a : list string) : M state unit :=
  lift (Os.info t a).
Definition warning (t : string) (a : list string) : M state unit :=
  lift (Os.warning t a).
Definition error (t : string) (a : list string) : M state unit :=
  lift (Os.error t a).

Definition of_result {A : Type} (r : result A) : M state A :=
  fun s => (s, r).

(** [base / Path(rel_path).with_suffix(suffix)]. *)
Definition mirror_path (file_path source_dir target_dir : Path)
    (suffix : string) : result Path :=
  let rel_path := Utils.get_relative_path file_path source_dir in
  match PathLib.with_suffix (PathLib.of_str rel_path) suffix with
  | Ok p => Ok (PathLib.joinpath target_dir p)
  | Raise e => Raise e
  end.

(** The mirror of a file of a recognised type: an MD file maps into
    the IPYNB tree, any other into the MD tree. *)
Definition mirror_of (file_path : Path) : result Path :=
  if Utils.is_markdown_file (PathLib.str file_path)
  then mirror_path file_path (md_dir cfg) (ipynb_dir cfg) ".ipynb"
  else mirror_path file_path (ipynb_dir cfg) (md_dir cfg) ".md".

Definition handle_file_deletion (file_path : Path) : M state unit :=
  try_except
    (let is_md := Utils.is_markdown_file (PathLib.str file_path) in
     let is_ipynb := Utils.is_notebook_file (PathLib.str file_path) in
     if negb (is_md || is_ipynb) then ret tt
     else
       let* target_path := of_result (mirror_of file_path) in
       let* present := lift (Os.exists_ target_path) in
       if present && delete_orphaned cfg then
         info "[删除] 删除对应的目标文件" [PathLib.str target_path] ;;;
         try_except
           (lift (Os.unlink target_path))
           (fun e =>
              match e with
              | FileNotFoundError =>
                  warning "[注意] 文件已不存在" [PathLib.str target_path]
              | PermissionError =>
                  error "[错误] 没有权限删除文件" [PathLib.str target_path]
              | _ =>
                  error "[错误] 删除文件时出错" [PathLib.str target_path]
              end)
       else
         info "[保留] 目标文件未删除" [PathLib.str target_path])
    (fun e => error "[错误] 处理删除事件出错" [PathLib.str file_path]).

(** The mtimes of both files and the checks of the 'newer' policy:
    [true] when the propagation is to be skipped. *)
Definition newer_skips (src dst : Path) (skip_near skip_newer : string)
  : M state bool :=
  let* src_stat := lift (Os.stat src) in
  let* dst_stat := lift (Os.stat dst) in
  let src_mtime := st_mtime src_stat in
  let dst_mtime := st_mtime dst_stat in
  let time_diff := Z.abs (src_mtime - dst_mtime) in
  let time_threshold := get_time_threshold cfg (3 * second) in
  if time_diff <? time_threshold then
    info skip_near [PathLib.str src; PathLib.str dst] ;;; ret true
  else if src_mtime <? dst_mtime then
    info skip_newer [PathLib.str dst] ;;; ret true
  else ret false.

(** The conversion step of the two propagations: record the target,
    convert, and log the outcome; a failure is logged, not raised. *)
Definition convert_md_to_ipynb (md_path ipynb_path : Path) : M state unit :=
  try_except
    (modify (fun s => set_recently_synced s
                        ({[PathLib.str ipynb_path]} ∪ recently_synced s)) ;;;
     lift (Converter.md_to_ipynb md_path (Some ipynb_path)) ;;;
     info "[完成] MD → IPYNB" [PathLib.str md_path; PathLib.str ipynb_path])
    (fun e =>
       error "[失败] MD → IPYNB转换错误"
             [PathLib.str md_path; PathLib.str ipynb_path]).

Definition convert_ipynb_to_md (ipynb_path md_path : Path) : M state unit :=
  try_except
    (modify (fun s => set_recently_synced s
                        ({[PathLib.str md_path]} ∪ recently_synced s)) ;;;
     lift (Converter.ipynb_to_md ipynb_path (Some md_path)) ;;;
     info "[完成] IPYNB → MD" [PathLib.str ipynb_path; PathLib.str md_path])
    (fun e =>
       error "[失败] IPYNB → MD转换错误"
             [PathLib.str ipynb_path; PathLib.str md_path]).

Definition sync_md_to_ipynb (md_path ipynb_path : Path) : M state unit :=
  info "[同步] MD → IPYNB" [PathLib.str md_path; PathLib.str ipynb_path] ;;;
  lift (Utils.ensure_dir_exists (PathLib.parent ipynb_path)) ;;;
  let* present := lift (Os.exists_ ipynb_path) in
  let* skip :=
    if present then
      let conflict_resolution := conflict_resolution cfg in
      if String.eqb conflict_resolution "md" then ret false
      else if String.eqb conflict_resolution "ipynb" then
        info "[跳过] 配置优先使用IPYNB" [PathLib.str ipynb_path] ;;; ret true
      else if String.eqb conflict_resolution "newer" then
        newer_skips md_path ipynb_path
                    "[跳过] 文件时间戳相近" "[跳过] IPYNB文件较新"
      else ret false
    else ret false in
  if skip then ret tt else convert_md_to_ipynb md_path ipynb_path.

Definition sync_ipynb_to_md (ipynb_path md_path : Path) : M state unit :=
  info "[同步] IPYNB → MD" [PathLib.str ipynb_path; PathLib.str md_path] ;;;
  lift (Utils.ensure_dir_exists (PathLib.parent md_path)) ;;;
  let* present := lift (Os.exists_ md_path) in
  let* skip :=
    if present then
      let conflict_resolution := conflict_resolution cfg in
      if String.eqb conflict_resolution "ipynb" then ret false
      else if String.eqb conflict_resolution "md" then
        info "[跳过] 配置优先使用MD" [PathLib.str md_path] ;;; ret true
      else if String.eqb conflict_resolution "newer" then
        newer_skips ipynb_path md_path
                    "[跳过] 文件时间戳相近" "[跳过] MD文件较新"
      else ret false
    else ret false in
  if skip then ret tt else convert_ipynb_to_md ipynb_path md_path.

(** [d in p.parents or d == p.parent]. *)
Definition inside (d p : Path) : bool :=
  PathLib.in_parents d p || bool_decide (d = PathLib.parent p).

(** The part of [sync_file_if_needed] after the echo guard: the type
    check and the propagation in the direction the type gives. *)
Definition sync_by_type (file_path : Path) : M state unit :=
  let path_str := PathLib.str file_path in
  let is_md := Utils.is_markdown_file path_str in
  let is_ipynb := Utils.is_notebook_file path_str in
  if negb (is_md || is_ipynb) then ret tt
  else
    try_except
      (if is_md then
         if inside (md_dir cfg) file_path then
           let* target_path :=
             of_result (mirror_path file_path (md_dir cfg)
                                    (ipynb_dir cfg) ".ipynb") in
           sync_md_to_ipynb file_path target_path
         else ret tt
       else
         if inside (ipynb_dir cfg) file_path then
           let* target_path :=
             of_result (mirror_path file_path (ipynb_dir cfg)
                                    (md_dir cfg) ".md") in
           sync_ipynb_to_md file_path target_path
         else ret tt)
      (fun e => error "[错误] 同步失败" [PathLib.str file_path]).

Definition sync_file_if_needed (file_path : Path) : M state unit :=
  let path_str := PathLib.str file_path in
  let* present := lift (Os.exists_ file_path) in
  if negb present then ret tt
  else
    let* recent := gets (fun s => bool_decide (path_str ∈ recently_synced s)) in
    if recent then
      let* current_time := gets (fun s => now (st_world s)) in
      modify (fun s => set_recently_synced s (recently_synced s ∖ {[path_str]}))
    else sync_by_type file_path.

(** [for x in l: f x], stopping at the first exception. *)
Fixpoint for_each {A : Type} (f : A -> M state unit) (l : list A)
  : M state unit :=
  match l with
  | [] => ret tt
  | a :: l' => f a ;;; for_each f l'
  end.

(** [Path(path).unlink(missing_ok=True)]. *)
Definition unlink_missing_ok (p : Path) : M state unit :=
  try_except (lift (Os.unlink p))
    (fun e => match e with
              | FileNotFoundError => ret tt
              | _ => raise e
              end).

Definition perform_initial_sync : M state unit :=
  if negb (sync_on_start cfg) then
    info "[跳过] 初始同步已在配置中禁用" []
  else
    info "[初始化] 执行初始同步..." [] ;;;
    let* sync_actions := lift (ConsistencyChecker.check_consistency cfg) in
    for_each (fun a => sync_md_to_ipynb (source a) (target a))
             (md_to_ipynb sync_actions) ;;;
    for_each (fun a => sync_ipynb_to_md (source a) (target a))
             (ipynb_to_md sync_actions) ;;;
    (if delete_orphaned cfg then
       for_each (fun p => info "[删除] 孤立的MD文件" [PathLib.str p] ;;;
                          unlink_missing_ok p)
                (orphaned_md sync_actions) ;;;
       for_each (fun p => info "[删除] 孤立的IPYNB文件" [PathLib.str p] ;;;
                          unlink_missing_ok p)
                (orphaned_ipynb sync_actions)
     else ret tt) ;;;
    info "[完成] 初始同步已完成" [].

End Engine.

End SyncEngine.

(** ** [file_watcher.py]: the debounce queue *)

Inductive event_type : Type := created | modified | moved | deleted.

Global Instance event_type_eq_dec : EqDecision event_type.
Proof. solve_decision. Defined.

Record event_info : Type := mkEvent {
  timestamp : Z;
  type : event_type;
  ev_path : Path                  (* the 'path' key *)
}.

Record FileWatcher : Type := mkWatcher {
  pending_events : gmap string event_info;
  processed_deletes : gset string (* of the SyncFileHandler *)
}.

Module FileWatcher.

Section Watcher.

Context `{!Externals}.
Variable cfg : Config.

(** The head start of a deletion: [0.1] seconds. *)
Definition delete_head_start : Z := second / 10.

Definition set_pending (self : FileWatcher) (q : gmap string event_info)
  : FileWatcher :=
  mkWatcher q (processed_deletes self).

(** [add_pending_event] at [current_time = time.time()]. *)
Definition add_pending_event (self : FileWatcher) (current_time : Z)
    (file_path : Path) (event_type : event_type) : FileWatcher :=
  let path_str := PathLib.str file_path in
  let is_md := Utils.is_markdown_file path_str in
  let is_ipynb := Utils.is_notebook_file path_str in
  if negb (is_md || is_ipynb) then self
  else if bool_decide (event_type = deleted) then
    set_pending self
      (<[path_str := mkEvent (current_time - debounce_delay cfg + delete_head_start)
                             event_type file_path]> (pending_events self))
  else
    set_pending self
      (<[path_str := mkEvent current_time event_type file_path]>
         (pending_events self)).

(** [SyncEngine.handle_file_event] with the watcher attached, as
    [main] always does: the event goes to the queue. *)
Definition handle_file_event (self : FileWatcher) (file_path : Path)
    (event_type : event_type) : M state FileWatcher :=
  SyncEngine.info "[事件]" [PathLib.str file_path] ;;;
  let* current_time := gets (fun s => now (st_world s)) in
  ret (add_pending_event self current_time file_path event_type).

(** [SyncFileHandler.on_deleted] for a file: the first deletion of a
    path goes straight into the queue. *)
Definition on_deleted (self : FileWatcher) (current_time : Z) (path : Path)
  : FileWatcher :=
  let path_str := PathLib.str path in
  if bool_decide (path_str ∈ processed_deletes self) then self
  else
    mkWatcher
      (<[path_str := mkEvent (current_time - debounce_delay cfg + delete_head_start)
                             deleted path]> (pending_events self))
      ({[path_str]} ∪ processed_deletes self).

(** An entry is due once it has waited for the debounce delay. *)
Definition is_due (current_time : Z) (e : string * event_info) : bool :=
  debounce_delay cfg <=? current_time - timestamp e.2.

(** The entries the drain at [current_time] hands to the engine. *)
Definition due_events (self : FileWatcher) (current_time : Z)
  : list (string * event_info) :=
  List.filter (is_due current_time) (map_to_list (pending_events self)).

Definition dispatch (e : string * event_info) : M state unit :=
  let path := ev_path e.2 in
  try_except
    (if bool_decide (type e.2 = deleted) then
       SyncEngine.info "[处理删除] 处理文件删除" [PathLib.str path] ;;;
       SyncEngine.handle_file_deletion cfg path
     else
       SyncEngine.info "[处理变更] 处理文件变更" [PathLib.str path] ;;;
       SyncEngine.sync_file_if_needed cfg path)
    (fun _ => SyncEngine.error "[事件处理错误]" [PathLib.str path]).

Definition remove_processed (q : gmap string event_info)
    (processed_paths : list string) : gmap string event_info :=
  List.fold_left (fun q path_str => delete path_str q) processed_paths q.

(** [process_pending_events] on the queue as the polling pass left it:
    every due entry is dispatched and then removed. *)
Definition process_pending_events (self : FileWatcher) : M state FileWatcher :=
  let* current_time := gets (fun s => now (st_world s)) in
  let due := due_events self current_time in
  SyncEngine.for_each dispatch due ;;;
  ret (set_pending self
         (remove_processed (pending_events self) (List.map fst due))).

End Watcher.

End FileWatcher.

(** ** Vocabulary of the properties *)

(** A sample environment for evaluating the model on concrete inputs:
    [fnmatch] for patterns built from literals, [*] and [?]; [json_loads]
    rejects a text whose first character cannot begin a JSON value and
    keeps any other text unparsed; the two renderings wrap the text. *)
Module Sample.

Fixpoint glob (p : list ascii) : list ascii -> bool :=
  match p with
  | [] => fun s => match s with [] => true | _ => false end
  | c :: p' =>
      if Ascii.eqb c "*" then
        fix star (s : list ascii) : bool :=
          glob p' s || match s with [] => false | _ :: s' => star s' end
      else if Ascii.eqb c "?" then
        fun s => match s with [] => false | _ :: s' => glob p' s' end
      else
        fun s => match s with
                 | [] => false
                 | d :: s' => Ascii.eqb c d && glob p' s'
                 end
  end.

Definition begins_json_value (s : string) : bool :=
  match s with
  | EmptyString => false
  | String c _ =>
      List.existsb (Ascii.eqb c)
        (list_ascii_of_string "{[-0123456789tfn" ++ [ascii_of_nat 34])
  end.

Definition externals : Externals :=
  mkExternals
    (fun filename pattern =>
       glob (list_ascii_of_string pattern) (list_ascii_of_string filename))
    string
    (fun md_content => "{cells: " +:+ md_content +:+ "}")
    (fun content =>
       if begins_json_value content then inl content
       else inr "Expecting value: line 1 column 1 (char 0)")
    (fun nb => inl nb).

(** Two trees [/r/md] and [/r/nb] holding [notes.md] and [notes.ipynb]
    with the given mtimes, at a clock of 100 seconds. *)
Definition stamp (t : Z) : stat_result := mkStat t t.

Definition tree (t_md t_ipynb : Z) : gmap string node :=
  <["/r" := Dir (stamp 0)]>
    (<["/r/md" := Dir (stamp 0)]>
       (<["/r/nb" := Dir (stamp 0)]>
          (<["/r/md/notes.md" := File "hello" (stamp t_md)]>
             (<["/r/nb/notes.ipynb" := File "{}" (stamp t_ipynb)]> ∅)))).

Definition world_of (m : gmap string node) : world :=
  mkWorld m (100 * second) [].

Definition config (resolution : string) (threshold : option Z) : Config :=
  mkConfig (PathLib.of_str "/r/md") (PathLib.of_str "/r/nb") [".*"]
           resolution threshold true (8 * second / 10) true.

(** The engine as [__init__] leaves it, over a world. *)
Definition engine_over (w : world) : state := mkState w ∅ (5 * second).

(** The MD tree alone, with [notes.md]. *)
Definition md_only : gmap string node :=
  <["/r" := Dir (stamp 0)]>
    (<["/r/md" := Dir (stamp 0)]>
       (<["/r/md/notes.md" := File "hello" (stamp 7)]> ∅)).

(** Both trees, the IPYNB tree with a [notes.ipynb] of the given content
    and the MD tree empty. *)
Definition ipynb_only (content : string) : gmap string node :=
  <["/r" := Dir (stamp 0)]>
    (<["/r/md" := Dir (stamp 0)]>
       (<["/r/nb" := Dir (stamp 0)]>
          (<["/r/nb/notes.ipynb" := File content (stamp 7)]> ∅))).

Definition notes_md : Path := PathLib.of_str "/r/md/notes.md".
Definition notes_ipynb : Path := PathLib.of_str "/r/nb/notes.ipynb".

(** The entries a scan records for the two files. *)
Definition md_file (t : Z) : FileInfo :=
  mkFileInfo notes_md (PathLib.of_str "notes.md") (Some t) 5 ".md".

Definition ipynb_file (t : Z) : FileInfo :=
  mkFileInfo notes_ipynb (PathLib.of_str "notes.ipynb") (Some t) 2 ".ipynb".

(** The state after the engine has propagated [notes.md] to a new
    [notes.ipynb]. *)
Definition after_propagation (resolution : string) : state :=
  (@SyncEngine.sync_md_to_ipynb externals (config resolution None)
     notes_md notes_ipynb (engine_over (world_of md_only))).1.


(** The dictionary a scan returns, empty when the scan raises. *)
Definition scanned (cfg : Config) (w : world) (directory : Path)
  : gmap string FileInfo :=
  match (@ConsistencyChecker.scan_directory externals cfg w directory None).2 with
  | Ok files => files
  | Raise _ => ∅
  end.

End Sample.

(** The actions of a plan between the two files [a] and [b], in either
    direction. *)
Definition concerns (a b : Path) (act : action) : bool :=
  (bool_decide (source act = a) && bool_decide (target act = b))
  || (bool_decide (source act = b) && bool_decide (target act = a)).

Definition pair_actions (plan : sync_actions) (a b : Path) : list action :=
  List.filter (concerns a b) (md_to_ipynb plan ++ ipynb_to_md plan).

(** What [scan_directory directory] records under key [k]: the file
    [directory / rel], with [k] the text of [rel]. *)
Definition scan_entry (directory : Path) (k : string) (i : FileInfo) : Prop :=
  is_abs (rel_path i) = false
  /\ path i = PathLib.joinpath directory (rel_path i)
  /\ k = PathLib.str (rel_path i).

Definition scan_of (directory : Path) (files : gmap string FileInfo) : Prop :=
  map_Forall (scan_entry directory) files.

(** A mirrored pair of the two scans: the MD file under key [p] and the
    IPYNB file under key [q], each key the mirror of the other. *)
Definition mirrored_pair (md_files ipynb_files : gmap string FileInfo)
    (p q : string) (mi ni : FileInfo) : Prop :=
  md_files !! p = Some mi
  /\ ipynb_files !! q = Some ni
  /\ Utils.is_markdown_file (PathLib.str (path mi)) = true
  /\ Utils.is_notebook_file (PathLib.str (path ni)) = true
  /\ ConsistencyChecker.mirror_rel p ".ipynb" = q
  /\ ConsistencyChecker.mirror_rel q ".md" = p.

(** The plan [s] with [a] and [b] appended to its two propagation lists. *)
Definition extend (s : sync_actions) (a b : list action) : sync_actions :=
  mkSyncActions (md_to_ipynb s ++ a) (ipynb_to_md s ++ b) (conflict s)
                (orphaned_md s) (orphaned_ipynb s).

(** A loop body is uniform when it only appends to the two propagation
    lists, and what it appends does not depend on the plan so far. *)
Definition uniform {A : Type} (f : sync_actions -> A -> result sync_actions)
  : Prop :=
  forall s e,
    f s e = match f ConsistencyChecker.empty_actions e with
            | Ok c => Ok (extend s (md_to_ipynb c) (ipynb_to_md c))
            | Raise x => Raise x
            end.

(** The files [src] and [tgt] carry the same access and modification
    times. *)
Definition equal_times (m : gmap string node) (src tgt : Path) : Prop :=
  exists st, FS.stat m src = Ok st /\ FS.stat m tgt = Ok st.

(** A path of one of the two recognised file types. *)
Definition recognised (file_path : Path) : Prop :=
  Utils.is_markdown_file (PathLib.str file_path)
  || Utils.is_notebook_file (PathLib.str file_path) = true.


(** The timestamp [add_pending_event] stores for an event of kind [k]
    enqueued at time [t]. *)
Definition stored_timestamp (cfg : Config) (t : Z) (k : event_type) : Z :=
  if bool_decide (k = deleted)
  then t - debounce_delay cfg + FileWatcher.delete_head_start
  else t.


(** The queue side of [process_pending_events] at time [now]: the queue
    without its due entries, and the due entries handed to the engine. *)
Definition drain (cfg : Config) (self : FileWatcher) (now : Z)
  : FileWatcher * list (string * event_info) :=
  let due := FileWatcher.due_events cfg self now in
  (FileWatcher.set_pending self
     (FileWatcher.remove_processed (pending_events self) (List.map fst due)),
   due).




(** [perform_initial_sync] without its last block, the deletion of the
    files reported as orphans. *)
Definition initial_sync_without_deletion `{!Externals} (cfg : Config)
  : M state unit :=
  if negb (sync_on_start cfg) then
    SyncEngine.info "[跳过] 初始同步已在配置中禁用" []
  else
    SyncEngine.info "[初始化] 执行初始同步..." [] ;;;
    let* sync_actions := lift (ConsistencyChecker.check_consistency cfg) in
    SyncEngine.for_each
      (fun a => SyncEngine.sync_md_to_ipynb cfg (source a) (target a))
      (md_to_ipynb sync_actions) ;;;
    SyncEngine.for_each
      (fun a => SyncEngine.sync_ipynb_to_md cfg (source a) (target a))
      (ipynb_to_md sync_actions) ;;;
    SyncEngine.info "[完成] 初始同步已完成" [].

(** ** [converter.py]: the cells of a Markdown text

    [prepare_cell_source] and [parse_md_to_cells] work on Python [str]
    values: sequences of Unicode code points, here lists of numbers.
    Which code points above ASCII are alphanumeric is the field of the
    class [Unicode]. *)

Class Unicode : Type := mkUnicode {
  isalnum : N -> bool               (* str.isalnum() of one character *)
}.

Module Text.

Definition str : Type := list N.

(** The text of an ASCII literal. *)
Definition of_string (s : string) : str :=
  List.map (fun c => N.of_nat (nat_of_ascii c)) (list_ascii_of_string s).

Definition newline : N := 10%N.
Definition backquote : N := 96%N.

(** [s.split(sep)] for a one-character separator. *)
Fixpoint split (sep : N) (s : str) : list str :=
  match s with
  | [] => [[]]
  | c :: s' =>
      if N.eqb c sep then [] :: split sep s'
      else match split sep s' with
           | [] => [[c]]
           | w :: ws => (c :: w) :: ws
           end
  end.

(** [c.isspace()]: the characters [s.strip()] removes. *)
Definition is_space (c : N) : bool :=
  (((9 <=? c) && (c <=? 13)) || ((28 <=? c) && (c <=? 32))
   || (c =? 133) || (c =? 160) || (c =? 5760)
   || ((8192 <=? c) && (c <=? 8202))
   || (c =? 8232) || (c =? 8233) || (c =? 8239) || (c =? 8287)
   || (c =? 12288))%N.

Fixpoint lstrip (s : str) : str :=
  match s with
  | [] => []
  | c :: s' => if is_space c then lstrip s' else s
  end.

Definition strip (s : str) : str :=
  List.rev (lstrip (List.rev (lstrip s))).

(** The characters [\w] matches in a [str] pattern: alphanumeric
    characters and the underscore. *)
Definition is_word `{!Unicode} (c : N) : bool :=
  if (c <? 128)%N then
    (((48 <=? c) && (c <=? 57)) || ((65 <=? c) && (c <=? 90))
     || (c =? 95) || ((97 <=? c) && (c <=? 122)))%N
  else isalnum c.

(** The longest prefix of characters satisfying [P], and the rest. *)
Fixpoint span (P : N -> bool) (s : str) : str * str :=
  match s with
  | [] => ([], [])
  | c :: s' =>
      if P c then let '(a, b) := span P s' in (c :: a, b) else ([], s)
  end.

Definition eqb (a b : str) : bool := bool_decide (a = b).

End Text.

(** A cell of the notebook [parse_md_to_cells] builds.  A Markdown cell
    is [{'cell_type': 'markdown', 'metadata': {}, 'source': source}]; a
    code cell is [{'cell_type': 'code', 'execution_count': None,
    'metadata': {'trusted': True}, 'source': source, 'outputs': []}],
    with [language] under ['language'] in its metadata when it is set. *)
Inductive cell : Type :=
| Markdown (source : list Text.str)
| Code (language : option Text.str) (source : list Text.str).

Module Cells.
Import Text.

Section Cells.

Context `{!Unicode}.
Variable default_language : str. (* config.get('default_language', 'python') *)

(** The lines of [text], each but the last with its line break; an
    empty last line is left out. *)
Fixpoint with_line_breaks (lines : list str) : list str :=
  match lines with
  | [] => []
  | [line] => match line with [] => [] | _ => [line] end
  | line :: rest => (line ++ [newline]) :: with_line_breaks rest
  end.

Definition prepare_cell_source (text : str) : list str :=
  with_line_breaks (split newline text).

(** The text after a fence of three backquotes at the start of [s]. *)
Definition after_fence (s : str) : option str :=
  match s with
  | a :: b :: c :: rest =>
      if (a =? backquote)%N && (b =? backquote)%N && (c =? backquote)%N
      then Some rest else None
  | _ => None
  end.

(** The text before the first fence in [s], and the text after it. *)
Fixpoint find_fence (s : str) : option (str * str) :=
  match s with
  | [] => None
  | c :: s' =>
      match after_fence s with
      | Some rest => Some ([], rest)
      | None =>
          match find_fence s' with
          | Some (a, b) => Some (c :: a, b)
          | None => None
          end
      end
  end.

(** The pattern [parse_md_to_cells] splits at: a fence, a group of word
    characters, a lazy group of any characters, a fence. *)
Definition pattern : string := "```(\w*)([\s\S]*?)```".

(** The match of [pattern] at the start of [s]: its two groups and the
    text after the match.  The first group takes every word character
    that follows the fence; the second group ends at the first fence
    from there on.  No backquote being a word character, a shorter
    first group finds no closing fence where the longest finds none. *)
Definition match_fence (s : str) : option (str * str * str) :=
  match after_fence s with
  | None => None
  | Some s1 =>
      let '(lang, s2) := span is_word s1 in
      match find_fence s2 with
      | Some (code, rest) => Some (lang, code, rest)
      | None => None
      end
  end.

(** [re.split(pattern, s)] from a position of [s] on, [before] being the text
    since the last match: the matches are taken from left to right, the
    search going on after each match; every step shortens [s], so the
    length of [s] and one bound the steps. *)
Fixpoint re_split_from (fuel : nat) (before s : str) : list str :=
  match fuel with
  | O => [before ++ s]
  | S fuel' =>
      match match_fence s with
      | Some (lang, code, rest) =>
          before :: lang :: code :: re_split_from fuel' [] rest
      | None =>
          match s with
          | [] => [before]
          | c :: s' => re_split_from fuel' (before ++ [c]) s'
          end
      end
  end.

Definition re_split (s : str) : list str :=
  re_split_from (S (List.length s)) [] s.

(** The ['language'] entry of a code cell: none for Python. *)
Definition language_entry (lang_part : str) : option str :=
  let lang := match strip lang_part with
              | [] => default_language
              | l => l
              end in
  if eqb lang (of_string "python") || eqb lang (of_string "py") then None
  else Some lang.

Definition markdown_cell (text : str) : list cell :=
  match strip text with
  | [] => []
  | _ => [Markdown (prepare_cell_source text)]
  end.

(** The loop over [parts]: a text at every third index, the two groups
    of a match after it.  [None] is the [IndexError] of [parts[i + 1]]. *)
Fixpoint cells_of_parts (parts : list str) : option (list cell) :=
  match parts with
  | [] => Some []
  | text :: groups =>
      match groups with
      | [] => Some (markdown_cell text)
      | lang :: groups' =>
          match groups' with
          | [] => None
          | code :: parts' =>
              match cells_of_parts parts' with
              | Some cells =>
                  Some (markdown_cell text
                        ++ Code (language_entry lang) (prepare_cell_source code)
                           :: cells)
              | None => None
              end
          end
      end
  end.

Definition parse_md_to_cells (md_content : str) : option (list cell) :=
  cells_of_parts (re_split md_content).

End Cells.

End Cells.

(** ** [file_watcher.py]: polling

    The watcher as [start()] leaves it, with its two handlers.  The log
    lines of the handlers and of the poller are not recorded. *)

(** The cached state of one file: ['mtime'] and ['size']. *)
Record file_state : Type := mkFileState { fs_mtime : Z; fs_size : Z }.

(** The queue with the deletions [self.handler] has seen, the deletions
    [self.ipynb_handler] has seen, the cache of file states, and the
    times of the last poll and of the last cleanup. *)
Record Watch : Type := mkWatch {
  queue : FileWatcher;
  ipynb_deletes : gset string;
  file_states : gmap string file_state;
  last_poll_time : Z;
  last_cleanup_time : Z
}.

Module Polling.

(** [s.endswith(suf)]: [suf] is [s] or ends the tail of [s]. *)
Fixpoint ends_with (suf s : string) : bool :=
  String.eqb suf s
  || match s with
     | EmptyString => false
     | String _ s' => ends_with suf s'
     end.

(** [os.path.join(a, b)]. *)
Definition os_path_join (a b : string) : string :=
  if PyStr.starts_with "/" b then b
  else if String.eqb a "" || ends_with "/" a then a +:+ b
  else a +:+ "/" +:+ b.

(** The [root] string [os.walk(top)] yields at the walked directory
    [r]: the text of [top], joined with each component of [r] below
    [top] in turn. *)
Definition walk_root (top r : Path) : string :=
  List.fold_left os_path_join
    (List.skipn (List.length (parts top)) (parts r)) (PathLib.str top).

Definition watched_name (file : string) : bool :=
  ends_with ".md" file || ends_with ".ipynb" file.

(** The [file_path] of every walked file with one of the two endings,
    in the order of the walk. *)
Definition walked_files (m : gmap string node) (directory : Path)
  : list string :=
  List.flat_map
    (fun e : Path * list string * list string =>
       List.map (os_path_join (walk_root directory e.1.1))
                (List.filter watched_name e.2))
    (FS.os_walk (S (size m)) (fun _ _ => true) m directory).

(** [os.stat(file_path)] as the cache keeps it; [None] when it raises. *)
Definition stat_state (m : gmap string node) (file_path : string)
  : option file_state :=
  match FS.stat m (PathLib.of_str file_path),
        FS.st_size m (PathLib.of_str file_path) with
  | Ok st, Ok sz => Some (mkFileState (st_mtime st) sz)
  | _, _ => None
  end.

Definition record_state (m : gmap string node)
    (states : gmap string file_state) (file_path : string)
  : gmap string file_state :=
  match stat_state m file_path with
  | Some st => <[file_path := st]> states
  | None => states
  end.

Definition scan_directory_state (m : gmap string node)
    (states : gmap string file_state) (directory : Path)
  : gmap string file_state :=
  List.fold_left (record_state m) (walked_files m directory) states.

(** The dictionary [current_files] of [check_directory_changes]. *)
Definition current_files (m : gmap string node) (directory : Path)
  : gmap string file_state :=
  scan_directory_state m ∅ directory.

(** The change of one current file against the cache. *)
Definition new_or_modified (states : gmap string file_state)
    (e : string * file_state) : option (string * event_type) :=
  match states !! e.1 with
  | None => Some (e.1, created)
  | Some old =>
      if (fs_mtime old <? fs_mtime e.2) || negb (fs_size e.2 =? fs_size old)
      then Some (e.1, modified) else None
  end.

(** The cached paths reported as deleted. *)
Definition gone (states current : gmap string file_state)
    (directory : Path) : list string :=
  List.filter
    (fun file_path =>
       PyStr.starts_with (PathLib.str directory) file_path
       && negb (bool_decide (is_Some (current !! file_path))))
    (List.map fst (map_to_list states)).

Definition forget (states : gmap string file_state) (paths : list string)
  : gmap string file_state :=
  List.fold_left (fun acc file_path => delete file_path acc) paths states.

(** [check_directory_changes]: the changes, and the cache afterwards. *)
Definition check_directory_changes (m : gmap string node)
    (states : gmap string file_state) (directory : Path)
  : list (string * event_type) * gmap string file_state :=
  let current := current_files m directory in
  let deleted_paths := gone states current directory in
  (omap (new_or_modified states) (map_to_list current)
     ++ List.map (fun file_path => (file_path, deleted)) deleted_paths,
   current ∪ forget states deleted_paths).

Section Polling.

Context `{!Externals}.
Variable cfg : Config.

Definition poll_interval : Z := 2 * second.
Definition cleanup_interval : Z := 60 * second.

Definition set_queue (self : Watch) (q : FileWatcher) : Watch :=
  mkWatch q (ipynb_deletes self) (file_states self)
          (last_poll_time self) (last_cleanup_time self).

(** [scan_files_state], called by [start()]. *)
Definition scan_files_state (m : gmap string node) (self : Watch) : Watch :=
  mkWatch (queue self) (ipynb_deletes self)
          (scan_directory_state m
             (scan_directory_state m (file_states self) (md_dir cfg))
             (ipynb_dir cfg))
          (last_poll_time self) (last_cleanup_time self).

(** [on_deleted] of one of the two handlers, each with its own set of
    processed deletions. *)
Definition on_deleted (self : Watch) (ipynb_handler : bool)
    (current_time : Z) (path : Path) : Watch :=
  if ipynb_handler then
    let h := FileWatcher.on_deleted cfg
               (mkWatcher (pending_events (queue self)) (ipynb_deletes self))
               current_time path in
    mkWatch (mkWatcher (pending_events h) (processed_deletes (queue self)))
            (processed_deletes h) (file_states self)
            (last_poll_time self) (last_cleanup_time self)
  else
    set_queue self (FileWatcher.on_deleted cfg (queue self) current_time path).

(** One detected change handed to its handler: the synthetic event of
    a file, to [on_modified], [on_created] or [on_deleted]. *)
Definition forward (self : Watch) (change : string * event_type)
  : M state Watch :=
  let '(file_path, change_type) := change in
  let ipynb := ends_with ".ipynb" file_path in
  if ipynb || ends_with ".md" file_path then
    match change_type with
    | deleted =>
        let* current_time := gets (fun s => now (st_world s)) in
        ret (on_deleted self ipynb current_time (PathLib.of_str file_path))
    | moved => ret self
    | _ =>
        let* q := FileWatcher.handle_file_event cfg (queue self)
                    (PathLib.of_str file_path) change_type in
        ret (set_queue self q)
    end
  else ret self.

Fixpoint forward_all (self : Watch) (changes : list (string * event_type))
  : M state Watch :=
  match changes with
  | [] => ret self
  | change :: changes' =>
      let* self' := forward self change in
      forward_all self' changes'
  end.

Definition check_files_changes (self : Watch) : M state Watch :=
  let* current_time := gets (fun s => now (st_world s)) in
  if current_time - last_poll_time self <? poll_interval then ret self
  else
    let* m := gets (fun s => fs (st_world s)) in
    let '(changed_files_ipynb, states1) :=
      check_directory_changes m (file_states self) (ipynb_dir cfg) in
    let '(changed_files_md, states2) :=
      check_directory_changes m states1 (md_dir cfg) in
    forward_all
      (mkWatch (queue self) (ipynb_deletes self) states2
               current_time (last_cleanup_time self))
      (changed_files_ipynb ++ changed_files_md).

Definition cleanup_processed_deletes (self : Watch) (current_time : Z)
  : Watch :=
  if cleanup_interval <? current_time - last_cleanup_time self then
    mkWatch (mkWatcher (pending_events (queue self)) ∅) ∅
            (file_states self) (last_poll_time self) current_time
  else self.

(** [process_pending_events]: the polling pass, the drain of the due
    entries, the cleanup. *)
Definition process_pending_events (self : Watch) : M state Watch :=
  let* self1 := check_files_changes self in
  let* q := FileWatcher.process_pending_events cfg (queue self1) in
  let* current_time := gets (fun s => now (st_world s)) in
  ret (cleanup_processed_deletes (set_queue self1 q) current_time).

End Polling.

End Polling.

(** ** Vocabulary of the further properties *)


(** The path in the tree [target_dir] of the file recorded as [i], with
    the extension [ext]. *)
Definition mirror_target (target_dir : Path) (i : FileInfo) (ext : string)
  : Path :=
  PathLib.div (PathLib.joinpath target_dir (PathLib.parent (rel_path i)))
              (PathLib.stem (rel_path i) +:+ ext).

(** The actions of a list that read from the file [p]. *)
Definition from_source (p : Path) (l : list action) : list action :=
  List.filter (fun a => bool_decide (source a = p)) l.

(** The two propagations of the engine by their direction: from MD to
    IPYNB when [to_ipynb] is set, from IPYNB to MD otherwise. *)
Definition propagate `{!Externals} (cfg : Config) (to_ipynb : bool)
    (src dst : Path) : M state unit :=
  if to_ipynb then SyncEngine.sync_md_to_ipynb cfg src dst
  else SyncEngine.sync_ipynb_to_md cfg src dst.

(** Their conversion steps, and the conversions of the converter. *)
Definition conversion_step `{!Externals} (to_ipynb : bool) (src dst : Path)
  : M state unit :=
  if to_ipynb then SyncEngine.convert_md_to_ipynb src dst
  else SyncEngine.convert_ipynb_to_md src dst.

Definition converter `{!Externals} (to_ipynb : bool) (src dst : Path)
  : M world Path :=
  if to_ipynb then Converter.md_to_ipynb src (Some dst)
  else Converter.ipynb_to_md src (Some dst).

(** The value of [conflict_resolution] that always prefers the source
    of a propagation, and the value that always prefers its target. *)
Definition prefers_source (to_ipynb : bool) : string :=
  if to_ipynb then "md" else "ipynb".

Definition prefers_target (to_ipynb : bool) : string :=
  if to_ipynb then "ipynb" else "md".

(** The state after the first log line of a propagation. *)
Definition announced (to_ipynb : bool) (src dst : Path) (s : state) : state :=
  set_world s
    (logger INFO (if to_ipynb then "[同步] MD → IPYNB" else "[同步] IPYNB → MD")
            [PathLib.str src; PathLib.str dst] (st_world s)).

(** [c in s], for a character [c]. *)
Fixpoint contains (c : ascii) (s : string) : bool :=
  match s with
  | EmptyString => false
  | String a s' => Ascii.eqb a c || contains c s'
  end.

(** The name of a directory entry: no slash in it, and neither empty
    nor [.]. *)
Definition entry_name (n : string) : Prop :=
  contains "/" n = false /\ n <> "" /\ n <> ".".

(** A path string strictly below the directory with text [a]. *)
Definition below (a x : string) : Prop :=
  PyStr.starts_with (a +:+ "/") x = true
  /\ Polling.ends_with "/" x = false /\ x <> "".


(** A fence of three backquotes. *)
Definition fence : Text.str :=
  [Text.backquote; Text.backquote; Text.backquote].

(** The shape of the list [re.split] returns for a pattern with two
    groups: a text, then any number of times the two groups of a match
    and the text after it. *)
Inductive split_parts : list Text.str -> Prop :=
| split_parts_text (text : Text.str) : split_parts [text]
| split_parts_match (text lang code : Text.str) (rest : list Text.str) :
    split_parts rest -> split_parts (text :: lang :: code :: rest).

(** One element of the source of a cell: a line with its line break, or
    a last line without one. *)
Definition source_line (l : Text.str) : Prop :=
  exists line,
    (Text.newline ∉ line)
    /\ (l = line ++ [Text.newline] \/ (l = line /\ line <> [])).

(** ** Further sample trees *)

Module Scene.

(** The MD tree with [notes.md], a hidden file, and a file in a hidden
    directory. *)
Definition hidden : gmap string node :=
  <["/r" := Dir (Sample.stamp 0)]>
    (<["/r/md" := Dir (Sample.stamp 0)]>
       (<["/r/md/notes.md" := File "hello" (Sample.stamp 7)]>
          (<["/r/md/.draft.md" := File "draft" (Sample.stamp 7)]>
             (<["/r/md/.git" := Dir (Sample.stamp 0)]>
                (<["/r/md/.git/log.md" := File "log" (Sample.stamp 7)]> ∅))))).

(** The two trees with [notes.md] a link whose target is missing. *)
Definition dangling : gmap string node :=
  <["/r/md/notes.md" := Dangling]> (Sample.tree 7 7).

(** The entry a scan records for the link. *)
Definition md_link : FileInfo :=
  mkFileInfo Sample.notes_md (PathLib.of_str "notes.md") None 0 ".md".

(** The two trees with a directory where the mirror of [notes.md]
    would be. *)
Definition mirror_is_dir : gmap string node :=
  <["/r/nb/notes.ipynb" := Dir (Sample.stamp 7)]> (Sample.tree 7 7).

(** A configuration with the MD tree elsewhere. *)
Definition md_elsewhere : Config :=
  mkConfig (PathLib.of_str "/r/docs") (PathLib.of_str "/r/nb") [".*"]
           "newer" None true (8 * second / 10) true.

(** The IPYNB tree [/r/md_nb] beside the MD tree [/r/md]. *)
Definition beside : gmap string node :=
  <["/r" := Dir (Sample.stamp 0)]>
    (<["/r/md" := Dir (Sample.stamp 0)]>
       (<["/r/md_nb" := Dir (Sample.stamp 0)]>
          (<["/r/md/notes.md" := File "hello" (Sample.stamp 7)]>
             (<["/r/md_nb/notes.ipynb" := File "{}" (Sample.stamp 7)]> ∅)))).

Definition beside_config : Config :=
  mkConfig (PathLib.of_str "/r/md") (PathLib.of_str "/r/md_nb") [".*"]
           "newer" None true (8 * second / 10) true.

(** The watcher as [__init__] leaves it at a clock of 100 seconds, and
    as [start()] leaves it over the two trees. *)
Definition initial : Watch :=
  mkWatch (mkWatcher ∅ ∅) ∅ ∅ (100 * second) (100 * second).

Definition started : Watch :=
  @Polling.scan_files_state beside_config beside initial.

(** The world of the two trees three seconds later. *)
Definition later : state :=
  Sample.engine_over (mkWorld beside (103 * second) []).

(** The watcher after a pass of the main loop, as it is when the pass
    raises. *)
Definition pass (cfg : Config) (self : Watch) (s : state) : state * Watch :=
  let r := @Polling.process_pending_events Sample.externals cfg self s in
  (r.1, match r.2 with Ok self' => self' | Raise _ => self end).

(** Texts of ASCII characters only: no character above ASCII is looked
    at. *)
Definition ascii_texts : Unicode := mkUnicode (fun _ => false).

End Scene.

(** ** Properties of the consistency checker *)

Module CheckerFacts.
Import ConsistencyChecker.

Section Facts.

Context `{!Externals}.
Variable cfg : Config.

(** *** Scanning *)

Lemma relative_to_joinpath (p base rel : Path) :
  PathLib.relative_to p base = Ok rel ->
  is_abs rel = false /\ p = PathLib.joinpath base rel.
Proof.
  unfold PathLib.relative_to, PathLib.joinpath.
  destruct (Bool.eqb (is_abs p) (is_abs base)) eqn:Habs; [|discriminate].
  apply Bool.eqb_prop in Habs.
  destruct (PathLib.strip_prefix (parts base) (parts p)) as [rest|] eqn:Hs;
    [|discriminate].
  intros [= <-]. simpl. split; [reflexivity|].
  destruct p as [a l]. simpl in *. subst a. f_equal.
  revert l Hs. generalize (parts base) as pre.
  induction pre as [|x pre IH]; intros [|y l]; simpl; try congruence.
  destruct (String.eqb x y) eqn:Hxy; [|discriminate].
  apply String.eqb_eq in Hxy. subst y. intros Hs. f_equal. auto.
Qed.

Lemma file_info_scan_entry m base file_path k i :
  file_info m base file_path = Ok (k, i) -> scan_entry base k i.
Proof.
  unfold file_info.
  destruct (PathLib.relative_to file_path base) as [rel|] eqn:Hrel;
    [|discriminate].
  apply relative_to_joinpath in Hrel as [Habs Hp].
  destruct (if FS.exists_ m file_path then _ else _) as [mt sz].
  intros [= <- <-]. unfold scan_entry. simpl. auto.
Qed.


Lemma scan_files_scan_of m base root files acc out :
  scan_of base acc ->
  scan_files cfg m base root files acc = Ok out ->
  scan_of base out.
Proof.
  revert acc. induction files as [|f files IH]; simpl; intros acc Hacc.
  - intros [= <-]. exact Hacc.
  - destruct (is_ignored cfg _); [eauto|].
    destruct (file_info m base (PathLib.div root f)) as [[k i]|] eqn:Hfi;
      [|discriminate].
    apply IH. apply map_Forall_insert_2; [|exact Hacc].
    eapply file_info_scan_entry; eauto.
Qed.

Lemma scan_walk_scan_of m base walk acc out :
  scan_of base acc ->
  scan_walk cfg m base walk acc = Ok out ->
  scan_of base out.
Proof.
  revert acc. induction walk as [|[[root dirs] files] walk IH]; simpl;
    intros acc Hacc.
  - intros [= <-]. exact Hacc.
  - destruct (scan_files cfg m base root files acc) as [acc'|] eqn:Hf;
      [|discriminate].
    apply IH. eapply scan_files_scan_of; eauto.
Qed.

(** Every dictionary [scan_directory] returns maps the text of a
    relative path to the file at that path under the directory. *)
Lemma scan_directory_scan_of w directory w' files :
  scan_directory cfg w directory None = (w', Ok files) ->
  scan_of directory files.
Proof.
  unfold scan_directory.
  generalize (FS.os_walk (S (size (fs w)))
    (fun root d => negb (is_ignored cfg (PathLib.str (PathLib.div root d))))
    (fs w) directory) as walk.
  intros walk. destruct (negb (FS.exists_ (fs w) directory)).
  - intros [= _ <-]. apply map_Forall_empty.
  - intros [= _ Hw]. eapply scan_walk_scan_of; [|exact Hw].
    apply map_Forall_empty.
Qed.

(** Two entries of one scan with the same path have the same key. *)
Lemma scan_of_path_inj directory files k1 k2 i1 i2 :
  scan_of directory files ->
  files !! k1 = Some i1 -> files !! k2 = Some i2 ->
  path i1 = path i2 -> k1 = k2.
Proof.
  intros Hs H1 H2 Hp.
  destruct (Hs _ _ H1) as (Ha1 & Hp1 & ->).
  destruct (Hs _ _ H2) as (Ha2 & Hp2 & ->).
  rewrite Hp1, Hp2 in Hp. unfold PathLib.joinpath in Hp.
  rewrite Ha1, Ha2 in Hp. injection Hp as Hp.
  apply app_inv_head in Hp.
  destruct (rel_path i1), (rel_path i2); simpl in *; congruence.
Qed.

(** *** The two propagation loops *)

Lemma extend_nil s : extend s [] [] = s.
Proof. destruct s. unfold extend. simpl. by rewrite !app_nil_r. Qed.

Lemma extend_extend s a b a' b' :
  extend (extend s a b) a' b' = extend s (a ++ a') (b ++ b').
Proof. unfold extend. simpl. by rewrite !app_assoc. Qed.

Ltac solve_extend :=
  unfold extend, add_md_to_ipynb, add_ipynb_to_md; simpl;
  rewrite ?app_nil_r; reflexivity.

Lemma check_md_file_uniform ipynb_files :
  uniform (check_md_file cfg ipynb_files).
Proof.
  intros s [k i]. unfold check_md_file.
  destruct (negb _); [by rewrite extend_nil|].
  destruct (ipynb_files !! _) as [ni|].
  - destruct (abs_diff _ _) as [d|]; [|done].
    destruct (d <? _); [by rewrite extend_nil|].
    destruct (_ || _); [solve_extend|].
    destruct (_ || _); [solve_extend|].
    by rewrite extend_nil.
  - destruct (get_corresponding_path _ _ _ _); [|done].
    solve_extend.
Qed.

Lemma check_ipynb_file_uniform md_files :
  uniform (check_ipynb_file cfg md_files).
Proof.
  intros s [k i]. unfold check_ipynb_file.
  destruct (negb _); [by rewrite extend_nil|].
  destruct (md_files !! _); [by rewrite extend_nil|].
  destruct (get_corresponding_path _ _ _ _); [|done].
  solve_extend.
Qed.

(** A loop with a uniform body appends the contributions of its
    entries, in order. *)
Lemma foldM_uniform {A : Type} (f : sync_actions -> A -> result sync_actions)
    (l : list A) (s s' : sync_actions) :
  uniform f ->
  foldM f l s = Ok s' ->
  exists cs,
    Forall2 (fun e c => f empty_actions e = Ok c) l cs
    /\ s' = extend s (List.flat_map md_to_ipynb cs)
                     (List.flat_map ipynb_to_md cs).
Proof.
  intros Hf. revert s. induction l as [|e l IH]; simpl; intros s.
  - intros [= <-]. exists []. split; [constructor|]. by rewrite extend_nil.
  - rewrite Hf. destruct (f empty_actions e) as [c|] eqn:Hc; [|done].
    intros Hl. apply IH in Hl as (cs & Hcs & ->).
    exists (c :: cs). split; [by constructor|].
    simpl. by rewrite extend_extend.
Qed.

(** The same loop returns whenever each of its bodies does. *)
Lemma foldM_uniform_returns {A : Type}
    (f : sync_actions -> A -> result sync_actions) (l : list A)
    (s : sync_actions) :
  uniform f ->
  Forall (fun e => exists c, f empty_actions e = Ok c) l ->
  exists s', foldM f l s = Ok s'.
Proof.
  intros Hf Hl. revert s. induction Hl as [|e l [c Hc] _ IH]; simpl; intros s.
  - eauto.
  - rewrite Hf, Hc. apply IH.
Qed.

(** What one MD file contributes. *)
Lemma check_md_file_actions ipynb_files k i c :
  check_md_file cfg ipynb_files empty_actions (k, i) = Ok c ->
  (forall a, a ∈ md_to_ipynb c ->
     Utils.is_markdown_file (PathLib.str (path i)) = true
     /\ source a = path i /\ a_rel_path a = k)
  /\ (forall a, a ∈ ipynb_to_md c ->
        Utils.is_markdown_file (PathLib.str (path i)) = true
        /\ target a = path i
        /\ exists ni, ipynb_files !! mirror_rel k ".ipynb" = Some ni
                      /\ source a = path ni)
  /\ (Utils.is_markdown_file (PathLib.str (path i)) = true ->
      ipynb_files !! mirror_rel k ".ipynb" = None ->
      scheduled k (md_to_ipynb c) = true).
Proof.
  unfold check_md_file.
  destruct (Utils.is_markdown_file _) eqn:Hmd; simpl.
  2:{ intros [= <-]. simpl. split_and!; [set_solver..|done]. }
  destruct (ipynb_files !! _) as [ni|] eqn:Hni.
  - destruct (abs_diff _ _) as [d|]; [|done].
    destruct (d <? _).
    { intros [= <-]. simpl. split_and!; [set_solver..|done]. }
    destruct (_ || _).
    { intros [= <-]. simpl. split_and!; [|set_solver|done].
      intros a Ha. apply list_elem_of_singleton in Ha as ->. done. }
    destruct (_ || _).
    { intros [= <-]. simpl. split_and!; [set_solver| |done].
      intros a Ha. apply list_elem_of_singleton in Ha as ->. simpl. eauto. }
    intros [= <-]. simpl. split_and!; [set_solver..|done].
  - destruct (get_corresponding_path _ _ _ _) as [tp|]; [|done].
    intros [= <-]. simpl. split_and!; [|set_solver|].
    + intros a Ha. apply list_elem_of_singleton in Ha as ->. done.
    + intros _ _. unfold scheduled. simpl. by rewrite String.eqb_refl.
Qed.

(** What one IPYNB file contributes. *)
Lemma check_ipynb_file_actions md_files k i c :
  check_ipynb_file cfg md_files empty_actions (k, i) = Ok c ->
  md_to_ipynb c = []
  /\ (forall a, a ∈ ipynb_to_md c ->
        Utils.is_notebook_file (PathLib.str (path i)) = true
        /\ source a = path i /\ a_rel_path a = k
        /\ md_files !! mirror_rel k ".md" = None)
  /\ (Utils.is_notebook_file (PathLib.str (path i)) = true ->
      md_files !! mirror_rel k ".md" = None ->
      scheduled k (ipynb_to_md c) = true).
Proof.
  unfold check_ipynb_file.
  destruct (Utils.is_notebook_file _) eqn:Hnb; simpl.
  2:{ intros [= <-]. simpl. split_and!; [done|set_solver|done]. }
  destruct (md_files !! _) as [mi|] eqn:Hmi.
  - intros [= <-]. simpl. split_and!; [done|set_solver|done].
  - destruct (get_corresponding_path _ _ _ _) as [tp|]; [|done].
    intros [= <-]. simpl. split_and!; [done| |].
    + intros a Ha. apply list_elem_of_singleton in Ha as ->. done.
    + intros _ _. unfold scheduled. simpl. by rewrite String.eqb_refl.
Qed.

(** *** Orphan marking *)

Lemma scheduled_app k l1 l2 :
  scheduled k (l1 ++ l2) = scheduled k l1 || scheduled k l2.
Proof. apply existsb_app. Qed.

Lemma scheduled_flat_map {A : Type} (R : A -> sync_actions -> Prop)
    (field : sync_actions -> list action) l cs e k :
  Forall2 R l cs -> e ∈ l ->
  (forall c, R e c -> scheduled k (field c) = true) ->
  scheduled k (List.flat_map field cs) = true.
Proof.
  intros HR He Hc. induction HR as [|e' c' l cs Hec _ IH]; simpl.
  - by apply not_elem_of_nil in He.
  - rewrite scheduled_app. apply elem_of_cons in He as [->|He].
    + by rewrite (Hc _ Hec).
    + rewrite IH by done. apply orb_true_r.
Qed.

Lemma mark_orphaned_md_noop ipynb_files l s :
  (forall k i, (k, i) ∈ l ->
     Utils.is_markdown_file (PathLib.str (path i)) = true ->
     ipynb_files !! mirror_rel k ".ipynb" = None ->
     scheduled k (md_to_ipynb s) = true) ->
  List.fold_left (mark_orphaned_md ipynb_files) l s = s.
Proof.
  induction l as [|[k i] l IH]; cbn [List.fold_left]; intros Hl; [done|].
  assert (mark_orphaned_md ipynb_files s (k, i) = s) as ->.
  { unfold mark_orphaned_md.
    destruct (Utils.is_markdown_file _) eqn:Hmd; simpl; [|done].
    destruct (ipynb_files !! _) eqn:Hni; simpl; [done|].
    - rewrite (Hl k i); [done| |done..].
      apply elem_of_cons. by left. }
  apply IH. intros k' i' Hin. apply Hl. apply elem_of_cons. by right.
Qed.

Lemma mark_orphaned_ipynb_noop md_files l s :
  (forall k i, (k, i) ∈ l ->
     Utils.is_notebook_file (PathLib.str (path i)) = true ->
     md_files !! mirror_rel k ".md" = None ->
     scheduled k (ipynb_to_md s) = true) ->
  List.fold_left (mark_orphaned_ipynb md_files) l s = s.
Proof.
  induction l as [|[k i] l IH]; cbn [List.fold_left]; intros Hl; [done|].
  assert (mark_orphaned_ipynb md_files s (k, i) = s) as ->.
  { unfold mark_orphaned_ipynb.
    destruct (Utils.is_notebook_file _) eqn:Hnb; simpl; [|done].
    destruct (md_files !! _) eqn:Hmi; simpl; [done|].
    - rewrite (Hl k i); [done| |done..].
      apply elem_of_cons. by left. }
  apply IH. intros k' i' Hin. apply Hl. apply elem_of_cons. by right.
Qed.

(** The plan is what the two propagation loops build: the orphan
    marking never changes it. *)
Lemma build_sync_actions_loops md_files ipynb_files plan :
  build_sync_actions cfg md_files ipynb_files = Ok plan ->
  exists cs1 cs2,
    Forall2 (fun e c => check_md_file cfg ipynb_files empty_actions e = Ok c)
            (map_to_list md_files) cs1
    /\ Forall2 (fun e c => check_ipynb_file cfg md_files empty_actions e = Ok c)
               (map_to_list ipynb_files) cs2
    /\ plan = extend empty_actions
                (List.flat_map md_to_ipynb cs1 ++ List.flat_map md_to_ipynb cs2)
                (List.flat_map ipynb_to_md cs1 ++ List.flat_map ipynb_to_md cs2).
Proof.
  unfold build_sync_actions.
  destruct (foldM (check_md_file cfg ipynb_files) _ _) as [s1|] eqn:H1; [|done].
  destruct (foldM (check_ipynb_file cfg md_files) _ _) as [s2|] eqn:H2; [|done].
  apply foldM_uniform in H1 as (cs1 & Hcs1 & ->);
    [|apply check_md_file_uniform].
  apply foldM_uniform in H2 as (cs2 & Hcs2 & ->);
    [|apply check_ipynb_file_uniform].
  rewrite extend_extend. intros Hplan. exists cs1, cs2.
  split_and!; [done..|].
  destruct (delete_orphaned cfg); [|congruence].
  rewrite mark_orphaned_md_noop in Hplan.
  - rewrite mark_orphaned_ipynb_noop in Hplan; [congruence|].
    intros k i Hin Hnb Hmi. simpl. rewrite scheduled_app.
    rewrite (scheduled_flat_map _ ipynb_to_md _ cs2 (k, i) k Hcs2 Hin).
    + apply orb_true_r.
    + intros c Hc. apply check_ipynb_file_actions in Hc as (_ & _ & Hc). auto.
  - intros k i Hin Hmd Hni. simpl. rewrite scheduled_app.
    rewrite (scheduled_flat_map _ md_to_ipynb _ cs1 (k, i) k Hcs1 Hin).
    + done.
    + intros c Hc. apply check_md_file_actions in Hc as (_ & _ & Hc). auto.
Qed.

(** *** The actions of one mirrored pair *)

Lemma md_not_notebook (x : string) :
  Utils.is_markdown_file x = true -> Utils.is_notebook_file x = true -> False.
Proof.
  unfold Utils.is_markdown_file, Utils.is_notebook_file.
  intros Hmd Hnb. apply String.eqb_eq in Hmd, Hnb. congruence.
Qed.

Lemma filter_flat_map {A B : Type} (P : B -> bool) (g : A -> list B) l :
  List.filter P (List.flat_map g l) = List.flat_map (fun c => List.filter P (g c)) l.
Proof.
  induction l as [|c l IH]; simpl; [done|].
  by rewrite List.filter_app, IH.
Qed.

Lemma flat_map_all_nil {A B : Type} (g : A -> list B) l :
  Forall (fun c => g c = []) l -> List.flat_map g l = [].
Proof. induction 1 as [|c l Hc _ IH]; simpl; [done|]. by rewrite Hc, IH. Qed.

Lemma filter_none {B : Type} (P : B -> bool) l :
  (forall a, a ∈ l -> P a = false) -> List.filter P l = [].
Proof.
  induction l as [|a l IH]; simpl; intros Hl; [done|].
  rewrite (Hl a) by (apply elem_of_cons; by left).
  apply IH. intros b Hb. apply Hl. apply elem_of_cons. by right.
Qed.

(** A loop none of whose entries contributes an action selected by
    [P]. *)
Lemma filter_flat_map_none {A : Type} (R : A -> sync_actions -> Prop)
    (field : sync_actions -> list action) (P : action -> bool) l cs :
  Forall2 R l cs ->
  (forall e c, e ∈ l -> R e c -> List.filter P (field c) = []) ->
  List.filter P (List.flat_map field cs) = [].
Proof.
  intros HR Hnone. rewrite filter_flat_map.
  induction HR as [|e c l cs Hec _ IH]; simpl; [done|].
  rewrite (Hnone e c), IH; [done| |by apply elem_of_cons; left|done].
  intros e' c' He'. apply Hnone. apply elem_of_cons. by right.
Qed.

(** A loop in which only the entry [e] contributes actions selected by
    [P]. *)
Lemma filter_flat_map_at {A : Type} (R : A -> sync_actions -> Prop)
    (field : sync_actions -> list action) (P : action -> bool)
    l1 e l2 cs :
  Forall2 R (l1 ++ e :: l2) cs ->
  (forall e' c, e' ∈ l1 ++ l2 -> R e' c -> List.filter P (field c) = []) ->
  exists c, R e c
            /\ List.filter P (List.flat_map field cs) = List.filter P (field c).
Proof.
  intros HR Hnone.
  apply Forall2_app_inv_l in HR as (cs1 & cs' & H1 & H2 & ->).
  apply Forall2_cons_inv_l in H2 as (c & cs2 & Hec & H2 & ->).
  exists c. split; [done|].
  rewrite List.flat_map_app, List.filter_app. simpl. rewrite List.filter_app.
  rewrite (filter_flat_map_none R field P l1 cs1 H1).
  - rewrite (filter_flat_map_none R field P l2 cs2 H2); [by rewrite app_nil_r|].
    intros e' c' He'. apply Hnone. apply elem_of_app. by right.
  - intros e' c' He'. apply Hnone. apply elem_of_app. by left.
Qed.

(** The entries of a dictionary other than the one under key [k]. *)
Lemma map_to_list_split {V : Type} (m : gmap string V) k v :
  m !! k = Some v ->
  exists l1 l2, map_to_list m = l1 ++ (k, v) :: l2
                /\ forall e, e ∈ l1 ++ l2 -> e.1 <> k /\ m !! e.1 = Some e.2.
Proof.
  intros Hk. apply elem_of_map_to_list in Hk as Hin.
  apply list_elem_of_split in Hin as (l1 & l2 & Hl).
  exists l1, l2. split; [done|]. intros [k' v'] He.
  pose proof (NoDup_fst_map_to_list m) as Hnd.
  assert ((k', v') ∈ map_to_list m) as Hin'.
  { rewrite Hl. apply elem_of_app in He as [He|He]; apply elem_of_app;
      [by left|right; apply elem_of_cons; by right]. }
  split; [|by apply elem_of_map_to_list].
  rewrite Hl, fmap_app, fmap_cons in Hnd. simpl in Hnd.
  apply NoDup_app in Hnd as (_ & Hd & Hnd).
  apply NoDup_cons in Hnd as (Hnk & _). simpl. intros ->.
  apply elem_of_app in He as [He|He].
  - apply (Hd k); [|by apply elem_of_cons; left].
    apply list_elem_of_fmap. by exists (k, v').
  - apply Hnk. apply list_elem_of_fmap. by exists (k, v').
Qed.


Section Pair.

Variables md_files ipynb_files : gmap string FileInfo.
Variables (p q : string) (mi ni : FileInfo).
Hypothesis Hmd_scan : scan_of (md_dir cfg) md_files.
Hypothesis Hnb_scan : scan_of (ipynb_dir cfg) ipynb_files.
Hypothesis Hpair : mirrored_pair md_files ipynb_files p q mi ni.

Local Abbreviation C := (concerns (path mi) (path ni)).

Lemma concerns_inv a :
  C a = true ->
  (source a = path mi /\ target a = path ni)
  \/ (source a = path ni /\ target a = path mi).
Proof.
  unfold C, concerns. intros Ha.
  apply orb_true_iff in Ha as [Ha|Ha];
    apply andb_true_iff in Ha as [H1 H2];
    apply bool_decide_eq_true in H1, H2; auto.
Qed.

Lemma not_concerned l :
  (forall a, a ∈ l -> C a = true -> False) -> List.filter C l = [].
Proof.
  intros Hl. apply filter_none. intros a Ha.
  destruct (C a) eqn:HC; [|done]. by destruct (Hl a).
Qed.

(** Another MD file contributes nothing to the pair. *)
Lemma other_md_file k i c :
  k <> p -> md_files !! k = Some i ->
  check_md_file cfg ipynb_files empty_actions (k, i) = Ok c ->
  List.filter C (md_to_ipynb c) = [] /\ List.filter C (ipynb_to_md c) = [].
Proof.
  destruct Hpair as (Hmi & Hni & Hmd & Hnb & Hpq & Hqp).
  intros Hk Hi Hc. apply check_md_file_actions in Hc as (Hfw & Hbw & _).
  split; apply not_concerned; intros a Ha HC;
    apply concerns_inv in HC as [[Hs Ht]|[Hs Ht]].
  - destruct (Hfw a Ha) as (_ & Hsrc & _). apply Hk.
    eapply (scan_of_path_inj _ md_files); eauto. congruence.
  - destruct (Hfw a Ha) as (Hmd' & Hsrc & _).
    eapply md_not_notebook; [exact Hmd'|]. by rewrite <- Hsrc, Hs.
  - destruct (Hbw a Ha) as (Hmd' & Htg & _).
    eapply md_not_notebook; [exact Hmd'|]. by rewrite <- Htg, Ht.
  - destruct (Hbw a Ha) as (_ & Htg & _). apply Hk.
    eapply (scan_of_path_inj _ md_files); eauto. congruence.
Qed.

(** No IPYNB file contributes to the pair in the second loop. *)
Lemma any_ipynb_file k i c :
  ipynb_files !! k = Some i ->
  check_ipynb_file cfg md_files empty_actions (k, i) = Ok c ->
  List.filter C (md_to_ipynb c) = [] /\ List.filter C (ipynb_to_md c) = [].
Proof.
  destruct Hpair as (Hmi & Hni & Hmd & Hnb & Hpq & Hqp).
  intros Hi Hc. apply check_ipynb_file_actions in Hc as (Hfw & Hbw & _).
  rewrite Hfw. split; [done|].
  apply not_concerned; intros a Ha HC;
    apply concerns_inv in HC as [[Hs Ht]|[Hs Ht]];
    destruct (Hbw a Ha) as (Hnb' & Hsrc & _ & Hnone).
  - eapply md_not_notebook; [exact Hmd|]. by rewrite <- Hs, Hsrc.
  - assert (k = q) as ->.
    { eapply (scan_of_path_inj _ ipynb_files); eauto. congruence. }
    congruence.
Qed.

(** The actions of the plan between the two files of the pair are
    those the first loop appends at the MD file of the pair. *)
Lemma pair_plan plan :
  build_sync_actions cfg md_files ipynb_files = Ok plan ->
  exists c,
    check_md_file cfg ipynb_files empty_actions (p, mi) = Ok c
    /\ List.filter C (md_to_ipynb plan) = List.filter C (md_to_ipynb c)
    /\ List.filter C (ipynb_to_md plan) = List.filter C (ipynb_to_md c).
Proof.
  intros Hplan.
  apply build_sync_actions_loops in Hplan as (cs1 & cs2 & H1 & H2 & ->).
  destruct Hpair as (Hmi & _).
  destruct (map_to_list_split md_files p mi Hmi) as (l1 & l2 & Hl & Hothers).
  rewrite Hl in H1.
  assert (forall field,
            (forall k i c, k <> p -> md_files !! k = Some i ->
               check_md_file cfg ipynb_files empty_actions (k, i) = Ok c ->
               List.filter C (field c) = []) ->
            exists c, check_md_file cfg ipynb_files empty_actions (p, mi) = Ok c
                      /\ List.filter C (List.flat_map field cs1)
                         = List.filter C (field c)) as Hat.
  { intros field Hfield.
    apply (filter_flat_map_at _ field C l1 (p, mi) l2 cs1 H1).
    intros [k i] c He Hc. destruct (Hothers _ He) as [Hk Hi].
    eapply Hfield; eauto. }
  destruct (Hat md_to_ipynb) as (c & Hc & Hfw).
  { intros k i c Hk Hi Hc. by apply (other_md_file k i c). }
  destruct (Hat ipynb_to_md) as (c' & Hc' & Hbw).
  { intros k i c0 Hk Hi Hc0. by apply (other_md_file k i c0). }
  assert (c' = c) as -> by congruence.
  assert (forall field,
            (forall k i c0, ipynb_files !! k = Some i ->
               check_ipynb_file cfg md_files empty_actions (k, i) = Ok c0 ->
               List.filter C (field c0) = []) ->
            List.filter C (List.flat_map field cs2) = []) as Hnone.
  { intros field Hfield.
    apply (filter_flat_map_none _ field C _ cs2 H2).
    intros [k i] c0 He Hc0. apply elem_of_map_to_list in He. eauto. }
  exists c. split; [done|]. simpl.
  rewrite !List.filter_app, Hfw, Hbw.
  rewrite (Hnone md_to_ipynb), (Hnone ipynb_to_md).
  - by rewrite !app_nil_r.
  - intros k i c0 Hi Hc0. by apply (any_ipynb_file k i c0).
  - intros k i c0 Hi Hc0. by apply (any_ipynb_file k i c0).
Qed.

(** What the first loop appends at the MD file of the pair, by the
    three tests of the code. *)
Lemma pair_contribution ta tb :
  mtime mi = Some ta -> mtime ni = Some tb ->
  check_md_file cfg ipynb_files empty_actions (p, mi)
  = let d := Z.abs (ta - tb) in
    if d <? get_time_threshold cfg (5 * second) then Ok empty_actions
    else if (tb <? ta) || String.eqb (conflict_resolution cfg) "md" then
      Ok (add_md_to_ipynb (mkAction (path mi) (path ni) p (Finite d))
                          empty_actions)
    else if (ta <? tb) || String.eqb (conflict_resolution cfg) "ipynb" then
      Ok (add_ipynb_to_md (mkAction (path ni) (path mi) q (Finite d))
                          empty_actions)
    else Ok empty_actions.
Proof.
  destruct Hpair as (Hmi & Hni & Hmd & Hnb & Hpq & Hqp).
  intros Hta Htb. unfold check_md_file.
  rewrite Hmd, Hpq, Hni, Hta, Htb. reflexivity.
Qed.

Lemma concerns_forward x d : C (mkAction (path mi) (path ni) x d) = true.
Proof.
  unfold C, concerns. simpl. rewrite !bool_decide_eq_true_2 by done. done.
Qed.

Lemma concerns_backward x d : C (mkAction (path ni) (path mi) x d) = true.
Proof.
  unfold C, concerns. simpl.
  rewrite (bool_decide_eq_true_2 (path ni = path ni)) by done.
  rewrite (bool_decide_eq_true_2 (path mi = path mi)) by done.
  apply orb_true_r.
Qed.

(** The actions of the pair in a plan, by the same three tests. *)
Lemma pair_actions_cases ta tb plan :
  mtime mi = Some ta -> mtime ni = Some tb ->
  build_sync_actions cfg md_files ipynb_files = Ok plan ->
  let d := Z.abs (ta - tb) in
  if d <? get_time_threshold cfg (5 * second) then
    List.filter C (md_to_ipynb plan) = []
    /\ List.filter C (ipynb_to_md plan) = []
  else if (tb <? ta) || String.eqb (conflict_resolution cfg) "md" then
    List.filter C (md_to_ipynb plan)
    = [mkAction (path mi) (path ni) p (Finite d)]
    /\ List.filter C (ipynb_to_md plan) = []
  else if (ta <? tb) || String.eqb (conflict_resolution cfg) "ipynb" then
    List.filter C (md_to_ipynb plan) = []
    /\ List.filter C (ipynb_to_md plan)
       = [mkAction (path ni) (path mi) q (Finite d)]
  else
    List.filter C (md_to_ipynb plan) = []
    /\ List.filter C (ipynb_to_md plan) = [].
Proof.
  intros Hta Htb Hplan. apply pair_plan in Hplan as (c & Hc & -> & ->).
  rewrite (pair_contribution ta tb Hta Htb) in Hc. simpl in *.
  destruct (_ <? _); [by injection Hc as <-|].
  destruct (_ || _).
  { injection Hc as <-. simpl. by rewrite concerns_forward. }
  destruct (_ || _).
  { injection Hc as <-. simpl. by rewrite concerns_backward. }
  by injection Hc as <-.
Qed.

End Pair.


(** Under 'newer', two equal mtimes produce no action whatever the
    threshold. *)
Lemma equal_mtimes_no_action md_files ipynb_files p q mi ni t plan :
  scan_of (md_dir cfg) md_files ->
  scan_of (ipynb_dir cfg) ipynb_files ->
  mirrored_pair md_files ipynb_files p q mi ni ->
  mtime mi = Some t -> mtime ni = Some t ->
  conflict_resolution cfg = "newer" ->
  build_sync_actions cfg md_files ipynb_files = Ok plan ->
  pair_actions plan (path mi) (path ni) = [].
Proof.
  intros Hmd_scan Hnb_scan Hpair Hta Htb Hcr Hplan.
  pose proof (pair_actions_cases md_files ipynb_files p q mi ni
                Hmd_scan Hnb_scan Hpair t t plan Hta Htb Hplan) as H0.
  simpl in H0. rewrite Hcr, Z.ltb_irrefl in H0. simpl in H0.
  unfold pair_actions. rewrite List.filter_app.
  destruct (_ <? _); destruct H0 as [-> ->]; done.
Qed.


(** Under the force-MD value the one action of a pair beyond the
    threshold goes from MD to IPYNB, whichever file is newer. *)
Lemma force_md_plan md_files ipynb_files p q mi ni ta tb plan :
  scan_of (md_dir cfg) md_files ->
  scan_of (ipynb_dir cfg) ipynb_files ->
  mirrored_pair md_files ipynb_files p q mi ni ->
  mtime mi = Some ta -> mtime ni = Some tb ->
  conflict_resolution cfg = "md" ->
  get_time_threshold cfg (5 * second) <= Z.abs (ta - tb) ->
  build_sync_actions cfg md_files ipynb_files = Ok plan ->
  pair_actions plan (path mi) (path ni)
  = [mkAction (path mi) (path ni) p (Finite (Z.abs (ta - tb)))].
Proof.
  intros Hmd_scan Hnb_scan Hpair Hta Htb Hcr Hge Hplan.
  pose proof (pair_actions_cases md_files ipynb_files p q mi ni
                Hmd_scan Hnb_scan Hpair ta tb plan Hta Htb Hplan) as H0.
  simpl in H0. apply Z.ltb_ge in Hge. rewrite Hge, Hcr in H0. simpl in H0.
  rewrite orb_true_r in H0.
  unfold pair_actions. rewrite List.filter_app.
  destruct H0 as [-> ->]; done.
Qed.

(** Under the force-IPYNB value the action of a pair beyond the
    threshold goes from IPYNB to MD only when the MD file is not the
    newer one; when the MD file is newer it goes from MD to IPYNB. *)
Lemma force_ipynb_plan md_files ipynb_files p q mi ni ta tb plan :
  scan_of (md_dir cfg) md_files ->
  scan_of (ipynb_dir cfg) ipynb_files ->
  mirrored_pair md_files ipynb_files p q mi ni ->
  mtime mi = Some ta -> mtime ni = Some tb ->
  conflict_resolution cfg = "ipynb" ->
  get_time_threshold cfg (5 * second) <= Z.abs (ta - tb) ->
  build_sync_actions cfg md_files ipynb_files = Ok plan ->
  pair_actions plan (path mi) (path ni)
  = if tb <? ta
    then [mkAction (path mi) (path ni) p (Finite (Z.abs (ta - tb)))]
    else [mkAction (path ni) (path mi) q (Finite (Z.abs (ta - tb)))].
Proof.
  intros Hmd_scan Hnb_scan Hpair Hta Htb Hcr Hge Hplan.
  pose proof (pair_actions_cases md_files ipynb_files p q mi ni
                Hmd_scan Hnb_scan Hpair ta tb plan Hta Htb Hplan) as H0.
  simpl in H0. apply Z.ltb_ge in Hge. rewrite Hge, Hcr in H0. simpl in H0.
  rewrite orb_false_r, orb_true_r in H0.
  unfold pair_actions. rewrite List.filter_app.
  destruct (tb <? ta); destruct H0 as [-> ->]; done.
Qed.

(** *** The reconciliation returns *)

Lemma strip_prefix_app pre l : PathLib.strip_prefix pre (pre ++ l) = Some l.
Proof.
  induction pre as [|x pre IH]; simpl; [done|]. by rewrite String.eqb_refl.
Qed.

Lemma get_corresponding_path_scanned directory target_dir k i ext :
  scan_entry directory k i ->
  exists p, get_corresponding_path (path i) directory target_dir ext = Ok p.
Proof.
  intros (Habs & Hpath & _). unfold get_corresponding_path, PathLib.relative_to.
  rewrite Hpath. unfold PathLib.joinpath at 1 2 3. rewrite Habs. simpl.
  rewrite Bool.eqb_reflx, strip_prefix_app. eauto.
Qed.

(** On two scans in which every file has a modification time the
    reconciliation returns a plan. *)
Lemma build_sync_actions_returns md_files ipynb_files :
  scan_of (md_dir cfg) md_files ->
  scan_of (ipynb_dir cfg) ipynb_files ->
  map_Forall (fun _ i => is_Some (mtime i)) md_files ->
  map_Forall (fun _ i => is_Some (mtime i)) ipynb_files ->
  exists plan, build_sync_actions cfg md_files ipynb_files = Ok plan.
Proof.
  intros Hmd Hnb Hmt Hnt. unfold build_sync_actions.
  destruct (foldM_uniform_returns (check_md_file cfg ipynb_files)
              (map_to_list md_files) empty_actions) as (s1 & ->).
  { apply check_md_file_uniform. }
  { apply Forall_forall. intros [k i] Hin. apply elem_of_map_to_list in Hin.
    unfold check_md_file. destruct (negb _); [eauto|].
    destruct (ipynb_files !! _) as [ni|] eqn:Hni.
    - destruct (Hmt _ _ Hin) as [ta ->]. destruct (Hnt _ _ Hni) as [tb ->].
      simpl. destruct (_ <? _); [eauto|].
      destruct (_ || _); [eauto|]. destruct (_ || _); eauto.
    - destruct (get_corresponding_path_scanned (md_dir cfg) (ipynb_dir cfg)
                  k i ".ipynb" (Hmd _ _ Hin)) as (tp & ->). eauto. }
  destruct (foldM_uniform_returns (check_ipynb_file cfg md_files)
              (map_to_list ipynb_files) s1) as (s2 & ->).
  { apply check_ipynb_file_uniform. }
  { apply Forall_forall. intros [k i] Hin. apply elem_of_map_to_list in Hin.
    unfold check_ipynb_file. destruct (negb _); [eauto|].
    destruct (md_files !! _); [eauto|].
    destruct (get_corresponding_path_scanned (ipynb_dir cfg) (md_dir cfg)
                k i ".md" (Hnb _ _ Hin)) as (tp & ->). eauto. }
  destruct (delete_orphaned cfg); eauto.
Qed.

(** Whatever the two trees and the configuration, the plan
    [check_consistency] returns has no orphans. *)
Lemma check_consistency_orphans (w w' : world) (plan : sync_actions) :
  check_consistency cfg w = (w', Ok plan) ->
  orphaned_md plan = [] /\ orphaned_ipynb plan = [].
Proof.
  unfold check_consistency.
  destruct (scan_directory cfg w (md_dir cfg) None) as [w1 [md_files|]];
    [|done].
  destruct (scan_directory cfg w1 (ipynb_dir cfg) None)
    as [w2 [ipynb_files|]]; [|done].
  intros [= _ Hplan].
  apply build_sync_actions_loops in Hplan as (cs1 & cs2 & _ & _ & ->).
  done.
Qed.

(** C9 (scan robustness).  For a directory that does not exist,
    [scan_directory] returns the empty dictionary without raising, and
    its only effect is one warning in the log. *)
Theorem scan_directory_missing_root (w : world) (directory : Path)
    (base_dir : option Path) :
  FS.exists_ (fs w) directory = false ->
  scan_directory cfg w directory base_dir
  = (logger WARNING "目录不存在" [PathLib.str directory] w, Ok ∅).
Proof.
  intros Hmissing. unfold scan_directory. by rewrite Hmissing.
Qed.

End Facts.

End CheckerFacts.

(** *** The checker on the sample trees *)

Module CheckerExamples.
Import ConsistencyChecker CheckerFacts.

Lemma scanned_md resolution threshold t_md t_ipynb :
  Sample.scanned (Sample.config resolution threshold)
                 (Sample.world_of (Sample.tree t_md t_ipynb))
                 (PathLib.of_str "/r/md")
  = {["notes.md" := Sample.md_file t_md]}.
Proof. reflexivity. Qed.

Lemma scanned_ipynb resolution threshold t_md t_ipynb :
  Sample.scanned (Sample.config resolution threshold)
                 (Sample.world_of (Sample.tree t_md t_ipynb))
                 (PathLib.of_str "/r/nb")
  = {["notes.ipynb" := Sample.ipynb_file t_ipynb]}.
Proof. reflexivity. Qed.

Lemma scan_of_md cfg t :
  md_dir cfg = PathLib.of_str "/r/md" ->
  scan_of (md_dir cfg) {["notes.md" := Sample.md_file t]}.
Proof.
  intros ->. apply map_Forall_singleton. by repeat split.
Qed.

Lemma scan_of_ipynb cfg t :
  ipynb_dir cfg = PathLib.of_str "/r/nb" ->
  scan_of (ipynb_dir cfg) {["notes.ipynb" := Sample.ipynb_file t]}.
Proof.
  intros ->. apply map_Forall_singleton. by repeat split.
Qed.



(** C2, at the failing input: force-IPYNB, the MD file 10 seconds newer
    than the IPYNB file, threshold 5 seconds.  The plan of
    [check_consistency] holds one action, from MD to IPYNB, and none from
    IPYNB to MD. *)
Theorem force_ipynb_with_newer_md :
  (@check_consistency Sample.externals (Sample.config "ipynb" None)
     (Sample.world_of (Sample.tree (20 * second) (10 * second)))).2
  = Ok (mkSyncActions
          [mkAction (PathLib.of_str "/r/md/notes.md")
                    (PathLib.of_str "/r/nb/notes.ipynb")
                    "notes.md" (Finite (10 * second))]
          [] [] [] []).
Proof. reflexivity. Qed.

(** One MD file without a mirror and [delete_orphaned] set: the file is
    scheduled, not reported as an orphan. *)
Lemma md_only_plan :
  @check_consistency Sample.externals (Sample.config "newer" None)
    (Sample.world_of Sample.md_only)
  = (logger WARNING "目录不存在" ["/r/nb"] (Sample.world_of Sample.md_only),
     Ok (mkSyncActions
           [mkAction (PathLib.of_str "/r/md/notes.md")
                     (PathLib.of_str "/r/nb/notes.ipynb") "notes.md" Inf]
           [] [] [] [])).
Proof. reflexivity. Qed.

Lemma scan_directory_missing_root_witness :
  @scan_directory Sample.externals (Sample.config "newer" None)
    (Sample.world_of Sample.md_only) (PathLib.of_str "/r/nb") None
  = (logger WARNING "目录不存在" ["/r/nb"] (Sample.world_of Sample.md_only),
     Ok ∅).
Proof.
  apply (scan_directory_missing_root (Sample.config "newer" None)
           (Sample.world_of Sample.md_only) (PathLib.of_str "/r/nb") None).
  vm_compute. reflexivity.
Defined.

End CheckerExamples.

(** ** Properties of the computations *)

Module MonadFacts.

Lemma bind_Ok {St A B : Type} (c : M St A) (k : A -> M St B) s s' b :
  bind c k s = (s', Ok b) ->
  exists s1 a, c s = (s1, Ok a) /\ k a s1 = (s', Ok b).
Proof.
  unfold bind. destruct (c s) as [s1 [a|e]]; [eauto|discriminate].
Qed.

Lemma bind_Raise {St A B : Type} (c : M St A) (k : A -> M St B) s s' e :
  bind c k s = (s', Raise e) ->
  c s = (s', Raise e)
  \/ exists s1 a, c s = (s1, Ok a) /\ k a s1 = (s', Raise e).
Proof.
  unfold bind. destruct (c s) as [s1 [a|e1]]; [eauto|].
  intros [= <- <-]. by left.
Qed.

(** Two computations that begin alike and continue alike are the same. *)
Lemma bind_ext {St A B : Type} (c : M St A) (k1 k2 : A -> M St B) s :
  (forall a s', c s = (s', Ok a) -> k1 a s' = k2 a s') ->
  bind c k1 s = bind c k2 s.
Proof.
  intros Hk. unfold bind. destruct (c s) as [s' [a|e]]; [by apply Hk|done].
Qed.

End MonadFacts.

(** ** Properties of paths and of the file system *)

Module FsFacts.

Lemma length_append (s1 s2 : string) :
  String.length (s1 +:+ s2) = (String.length s1 + String.length s2)%nat.
Proof. induction s1 as [|c s1 IH]; simpl; [done|]. by rewrite IH. Qed.

Lemma join_app_length (l1 : list string) (x : string) (l2 : list string) :
  l1 <> [] ->
  String.length (PyStr.join "/" (l1 ++ x :: l2))
  = (String.length (PyStr.join "/" l1) + 1
     + String.length (PyStr.join "/" (x :: l2)))%nat.
Proof.
  induction l1 as [|a l1 IH]; [done|]. intros _.
  destruct l1 as [|b l1].
  - simpl. rewrite !length_append. simpl. lia.
  - change (PyStr.join "/" ((a :: b :: l1) ++ x :: l2))
      with (a +:+ "/" +:+ PyStr.join "/" ((b :: l1) ++ x :: l2)).
    change (PyStr.join "/" (a :: b :: l1))
      with (a +:+ "/" +:+ PyStr.join "/" (b :: l1)).
    rewrite !length_append, IH by done. simpl. lia.
Qed.

Lemma str_length (a : bool) (l : list string) :
  l <> [] ->
  String.length (PathLib.str (mkPath a l))
  = ((if a then 1 else 0) + String.length (PyStr.join "/" l))%nat.
Proof.
  intros Hl. unfold PathLib.str. simpl. destruct a.
  - by rewrite length_append.
  - by destruct l.
Qed.

(** A proper ancestor has another text than the path itself. *)
Lemma str_ancestor_ne (a : bool) (l : list string) (n : nat) :
  (0 < n < List.length l)%nat ->
  PathLib.str (mkPath a (List.firstn n l)) <> PathLib.str (mkPath a l).
Proof.
  intros Hn Heq. apply (f_equal String.length) in Heq.
  assert (List.firstn n l <> []) as Hne.
  { destruct l, n; simpl in *; try lia; done. }
  rewrite !str_length in Heq; [|by destruct l; simpl in *; [lia|]|done].
  rewrite <- (List.firstn_skipn n l) in Heq at 2.
  destruct (List.skipn n l) as [|x l2] eqn:Hskip.
  { apply (f_equal List.length) in Hskip. rewrite List.length_skipn in Hskip.
    simpl in Hskip. lia. }
  rewrite join_app_length in Heq by done. lia.
Qed.

Lemma makedirs_go_other m t ds m' r k :
  FS.makedirs_go m t ds = (m', r) ->
  (forall d, d ∈ ds -> PathLib.str d <> k) ->
  m' !! k = m !! k.
Proof.
  revert m. induction ds as [|d ds IH]; simpl; intros m.
  - by intros [= <- _].
  - intros Hgo Hk.
    assert (PathLib.str d <> k) as Hd by (apply Hk, elem_of_cons; by left).
    assert (forall d', d' ∈ ds -> PathLib.str d' <> k) as Hds.
    { intros d' Hd'. apply Hk, elem_of_cons. by right. }
    destruct (m !! PathLib.str d) as [[| |]|] eqn:Hl.
    + by injection Hgo as <- _.
    + eauto.
    + by injection Hgo as <- _.
    + rewrite (IH _ Hgo Hds). by apply lookup_insert_ne.
Qed.

(** Creating the directories above [p] leaves [p] itself as it is. *)
Lemma makedirs_parent_keeps m t p m' r :
  FS.makedirs m t (PathLib.parent p) = (m', r) ->
  m' !! PathLib.str p = m !! PathLib.str p.
Proof.
  unfold FS.makedirs. intros Hgo. eapply makedirs_go_other; [exact Hgo|].
  intros d Hd. unfold FS.prefixes in Hd.
  apply list_elem_of_fmap in Hd as (n & -> & Hn).
  apply list_elem_of_In, List.in_seq in Hn. simpl in *.
  destruct p as [a l]. simpl in *.
  assert (List.length (List.removelast l) = (List.length l - 1)%nat) as Hlen.
  { destruct l as [|x l]; [done|].
    rewrite List.removelast_firstn_len, List.length_firstn. simpl. lia. }
  rewrite List.firstn_removelast by lia.
  apply str_ancestor_ne. lia.
Qed.

Lemma ensure_dir_exists_keeps p w w' r :
  Utils.ensure_dir_exists (PathLib.parent p) w = (w', r) ->
  fs w' !! PathLib.str p = fs w !! PathLib.str p.
Proof.
  unfold Utils.ensure_dir_exists, bind, Os.exists_, gets, Os.makedirs,
    Os.info, modify, ret.
  destruct (FS.exists_ (fs w) (PathLib.parent p)); simpl.
  - by intros [= <- _].
  - destruct (FS.makedirs (fs w) (now w) (PathLib.parent p)) as [m [[]|e]] eqn:Hm;
      intros [= <- _]; simpl; eapply makedirs_parent_keeps; eauto.
Qed.

End FsFacts.

(** ** Properties of the converter *)

Module ConverterFacts.
Import Converter MonadFacts.

Local Arguments PyStr.strip : simpl never.
Local Arguments error_note : simpl never.

(** Writing a file and then setting its times either does both or
    neither. *)
Lemma write_md_cases md_path text a mt w w' r :
  write_md md_path text a mt w = (w', r) ->
  (r = Ok tt
   /\ fs w' = <[PathLib.str md_path := File text (mkStat a mt)]> (fs w)
   /\ log w' = log w /\ now w' = now w)
  \/ (exists e, r = Raise e /\ w' = w).
Proof.
  unfold write_md, bind, Os.write, Os.utime, Os.update.
  destruct (FS.write (fs w) (now w) md_path text) as [m2|e] eqn:Hw; simpl.
  2:{ intros [= <- <-]. right. eauto. }
  unfold FS.write in Hw.
  destruct (negb _); [discriminate|].
  assert (m2 = <[PathLib.str md_path := File text (mkStat (now w) (now w))]> (fs w))
    as -> by (destruct (fs w !! _) as [[]|]; congruence).
  unfold FS.utime. rewrite lookup_insert_eq. rewrite insert_insert_eq.
  intros [= <- <-]. left. done.
Qed.

Lemma stat_insert_file m k p text st :
  k = PathLib.str p ->
  FS.stat (<[k := File text st]> m) p = Ok st.
Proof. intros ->. unfold FS.stat. by rewrite lookup_insert_eq. Qed.

(** A file written with the times of [src] has the times of [src]. *)
Lemma write_md_equal_times src tgt text st w w' :
  FS.stat (fs w) src = Ok st ->
  write_md tgt text (st_atime st) (st_mtime st) w = (w', Ok tt) ->
  equal_times (fs w') src tgt.
Proof.
  intros Hst Hw. apply write_md_cases in Hw as [(_ & -> & _)|(e & [=] & _)].
  exists st. destruct st as [a mt]. simpl. split.
  - destruct (decide (PathLib.str tgt = PathLib.str src)) as [Heq|Hne].
    + by apply stat_insert_file.
    + unfold FS.stat in *. by rewrite lookup_insert_ne.
  - by apply stat_insert_file.
Qed.

Section Facts.

Context `{!Externals}.

Lemma md_to_ipynb_equal_times md_path ipynb_path w w' p :
  md_to_ipynb md_path (Some ipynb_path) w = (w', Ok p) ->
  p = ipynb_path /\ equal_times (fs w') md_path ipynb_path.
Proof.
  unfold md_to_ipynb, output_path. intros Hrun.
  apply bind_Ok in Hrun as (w0 & tgt & [= <- <-] & Hrun).
  apply bind_Ok in Hrun as (w1 & [] & _ & Hrun).
  apply bind_Ok in Hrun as (w2 & [] & _ & Hrun).
  unfold try_except in Hrun.
  match type of Hrun with
  | (match ?c ?st with _ => _ end) = _ =>
      destruct (c st) as [w3 [p3|e3]] eqn:Hbody
  end.
  2:{ unfold bind, Os.error, modify, raise in Hrun. discriminate. }
  injection Hrun as -> ->.
  apply bind_Ok in Hbody as (w3 & md_content & Hread & Hbody).
  apply bind_Ok in Hbody as (w4 & st & Hstat & Hbody).
  unfold Os.read, Os.stat, read_result in Hread, Hstat.
  injection Hread as <- _. injection Hstat as <- Hstat.
  apply bind_Ok in Hbody as (w5 & [] & Hwrite & Hbody).
  apply bind_Ok in Hbody as (w6 & [] & Hutime & Hbody).
  apply bind_Ok in Hbody as (w7 & [] & Hinfo & Hbody).
  injection Hbody as <- <-. injection Hinfo as <-. simpl.
  split; [done|].
  apply (write_md_equal_times md_path ipynb_path
           (render_notebook md_content) st w2 w6 Hstat).
  unfold write_md, bind. rewrite Hwrite. exact Hutime.
Qed.

(** One branch of [ipynb_to_md]: a log line, the write with the
    source's times, a log line. *)
Lemma write_branch (l1 l2 : world -> world) tgt text a mt w w' (r : result Path) :
  (forall w0, fs (l1 w0) = fs w0) ->
  (forall w0, fs (l2 w0) = fs w0) ->
  (modify l1 ;;; write_md tgt text a mt ;;; modify l2 ;;; ret tgt) w = (w', r) ->
  (r = Ok tgt
   /\ fs w' = <[PathLib.str tgt := File text (mkStat a mt)]> (fs w))
  \/ (exists e, r = Raise e /\ fs w' = fs w).
Proof.
  intros Hl1 Hl2. unfold bind at 1. unfold modify at 1. unfold bind at 1.
  destruct (write_md tgt text a mt (l1 w)) as [w2 r2] eqn:Hw.
  apply write_md_cases in Hw as [(-> & Hfs & _)|(e & -> & ->)].
  - unfold bind, modify, ret. intros [= <- <-]. left.
    by rewrite Hl2, Hfs, Hl1.
  - intros [= <- <-]. right. eauto.
Qed.

(** What [ipynb_to_md] does to the file system, after the target
    directory is ensured: it raises and writes nothing, or it returns
    the target path having written one text with the source's times. *)
Lemma ipynb_to_md_cases ipynb_path md_path w w' r :
  ipynb_to_md ipynb_path (Some md_path) w = (w', r) ->
  exists w1,
    fs w1 !! PathLib.str md_path = fs w !! PathLib.str md_path
    /\ ((exists e, r = Raise e /\ fs w' = fs w1)
        \/ (r = Ok md_path
            /\ exists st text,
                 FS.stat (fs w1) ipynb_path = Ok st
                 /\ fs w' = <[PathLib.str md_path := File text st]> (fs w1))).
Proof.
  unfold ipynb_to_md, output_path. unfold bind at 1. unfold ret at 1.
  unfold bind at 1. unfold Os.info at 1. unfold modify at 1.
  unfold bind at 1.
  destruct (Utils.ensure_dir_exists _ _) as [w1 [[]|e]] eqn:Hens;
    apply FsFacts.ensure_dir_exists_keeps in Hens; simpl in Hens.
  2:{ intros [= <- <-]. exists w1. split; [done|]. left. eauto. }
  intros Hrun. exists w1. split; [done|].
  unfold try_except in Hrun.
  match type of Hrun with
  | (match ?c ?st with _ => _ end) = _ =>
      destruct (c st) as [w2 [p2|e2]] eqn:Hbody
  end.
  2:{ unfold bind, Os.error, modify, raise in Hrun. injection Hrun as <- <-.
      left. exists e2. split; [done|]. simpl.
      revert Hbody. unfold bind at 1. unfold Os.stat, read_result.
      destruct (FS.stat (fs w1) ipynb_path) as [st|]; [|by intros [= <- _]].
      unfold bind at 1. unfold Os.st_size, read_result.
      destruct (FS.st_size (fs w1) ipynb_path) as [sz|]; [|by intros [= <- _]].
      destruct (sz =? 0).
      { intros Hb. apply write_branch in Hb as [([=] & _)|(e & _ & Hfs)]; done. }
      unfold bind at 1. unfold Os.read, read_result.
      destruct (FS.read (fs w1) ipynb_path) as [raw|]; [|by intros [= <- _]].
      destruct (String.eqb _ _).
      { intros Hb. apply write_branch in Hb as [([=] & _)|(e & _ & Hfs)]; done. }
      destruct (json_loads _) as [nb|je].
      - destruct (convert_notebook_to_md nb) as [md_content|msg];
          [|by intros [= <- _]].
        intros Hb.
        apply (write_branch id) in Hb as [([=] & _)|(e & _ & Hfs)]; done.
      - intros Hb. apply write_branch in Hb as [([=] & _)|(e & _ & Hfs)]; done. }
  injection Hrun as <- <-. right.
  revert Hbody. unfold bind at 1. unfold Os.stat, read_result.
  destruct (FS.stat (fs w1) ipynb_path) as [st|] eqn:Hst; [|discriminate].
  assert (mkStat (st_atime st) (st_mtime st) = st) as Hsteq by by destruct st.
  unfold bind at 1. unfold Os.st_size, read_result.
  destruct (FS.st_size (fs w1) ipynb_path) as [sz|]; [|discriminate].
  destruct (sz =? 0).
  { intros Hb. apply write_branch in Hb as [([= ->] & Hfs)|(e & [=] & _)];
      [|done..]. rewrite Hsteq in Hfs. eauto. }
  unfold bind at 1. unfold Os.read, read_result.
  destruct (FS.read (fs w1) ipynb_path) as [raw|]; [|discriminate].
  destruct (String.eqb _ _).
  { intros Hb. apply write_branch in Hb as [([= ->] & Hfs)|(e & [=] & _)];
      [|done..]. rewrite Hsteq in Hfs. eauto. }
  destruct (json_loads _) as [nb|je].
  - destruct (convert_notebook_to_md nb) as [md_content|msg]; [|discriminate].
    intros Hb.
    apply (write_branch id) in Hb as [([= ->] & Hfs)|(e & [=] & _)];
      [|done..]. rewrite Hsteq in Hfs. eauto.
  - intros Hb. apply write_branch in Hb as [([= ->] & Hfs)|(e & [=] & _)];
      [|done..]. rewrite Hsteq in Hfs. eauto.
Qed.

Lemma ipynb_to_md_equal_times ipynb_path md_path w w' p :
  ipynb_to_md ipynb_path (Some md_path) w = (w', Ok p) ->
  p = md_path /\ equal_times (fs w') ipynb_path md_path.
Proof.
  intros Hrun.
  apply ipynb_to_md_cases in Hrun
    as (w1 & _ & [(e & [=] & _)|([= ->] & st & text & Hst & ->)]).
  split; [done|]. exists st. split.
  - destruct (decide (PathLib.str md_path = PathLib.str ipynb_path)) as [Heq|Hne].
    + by apply stat_insert_file.
    + unfold FS.stat in *. by rewrite lookup_insert_ne.
  - by apply stat_insert_file.
Qed.




End Facts.

End ConverterFacts.

(** ** Properties of the engine *)

Module EngineFacts.
Import SyncEngine.

Section Facts.

Context `{!Externals}.
Variable cfg : Config.


(** *** The echo guard *)

Lemma newer_skips_keeps src dst a b s s' r :
  newer_skips cfg src dst a b s = (s', r) ->
  fs (st_world s') = fs (st_world s) /\ recently_synced s' = recently_synced s.
Proof.
  unfold newer_skips, bind, lift, info, Os.stat, Os.info, read_result,
    modify, ret.
  simpl. destruct (FS.stat _ src); simpl; [|by intros [= <- _]].
  destruct (FS.stat _ dst); simpl; [|by intros [= <- _]].
  destruct (_ <? _); simpl; [by intros [= <- _]|].
  destruct (_ <? _); simpl; by intros [= <- _].
Qed.

(** Whatever a propagation does, it has recorded its target as
    recently synchronised if it touched the target. *)
Lemma sync_md_to_ipynb_marks s md_path ipynb_path s1 r :
  sync_md_to_ipynb cfg md_path ipynb_path s = (s1, r) ->
  PathLib.str ipynb_path ∈ recently_synced s1
  \/ fs (st_world s1) !! PathLib.str ipynb_path
     = fs (st_world s) !! PathLib.str ipynb_path.
Proof.
  unfold sync_md_to_ipynb, bind, lift, info, Os.info, Os.exists_, gets,
    modify, ret. simpl.
  destruct (Utils.ensure_dir_exists _ _) as [w1 [[]|e]] eqn:Hens;
    apply FsFacts.ensure_dir_exists_keeps in Hens; simpl in Hens;
    [|intros [= <- _]; by right].
  simpl.
  match goal with
  | |- context [match ?c ?st with _ => _ end] =>
      destruct (c st) as [s2 [skip|e]] eqn:Hskip
  end.
  2:{ intros [= <- _]. right. rewrite <- Hens.
      repeat case_match; simplify_eq; simpl; try done;
        match goal with
        | H : newer_skips _ _ _ _ _ _ = _ |- _ =>
            apply newer_skips_keeps in H as [-> _]; done
        end. }
  assert (fs (st_world s2) !! PathLib.str ipynb_path
          = fs (st_world s) !! PathLib.str ipynb_path) as Hs2.
  { rewrite <- Hens.
    repeat case_match; simplify_eq; simpl; try done;
      match goal with
      | H : newer_skips _ _ _ _ _ _ = _ |- _ =>
          apply newer_skips_keeps in H as [-> _]; done
      end. }
  destruct skip; [intros [= <- _]; by right|].
  unfold convert_md_to_ipynb, try_except, bind, lift, info, Os.info, modify.
  simpl.
  destruct (Converter.md_to_ipynb _ _ _) as [w3 [p3|e3]]; simpl;
    intros [= <- _]; left; simpl; set_solver.
Qed.

Lemma sync_ipynb_to_md_marks s ipynb_path md_path s1 r :
  sync_ipynb_to_md cfg ipynb_path md_path s = (s1, r) ->
  PathLib.str md_path ∈ recently_synced s1
  \/ fs (st_world s1) !! PathLib.str md_path
     = fs (st_world s) !! PathLib.str md_path.
Proof.
  unfold sync_ipynb_to_md, bind, lift, info, Os.info, Os.exists_, gets,
    modify, ret. simpl.
  destruct (Utils.ensure_dir_exists _ _) as [w1 [[]|e]] eqn:Hens;
    apply FsFacts.ensure_dir_exists_keeps in Hens; simpl in Hens;
    [|intros [= <- _]; by right].
  simpl.
  match goal with
  | |- context [match ?c ?st with _ => _ end] =>
      destruct (c st) as [s2 [skip|e]] eqn:Hskip
  end.
  2:{ intros [= <- _]. right. rewrite <- Hens.
      repeat case_match; simplify_eq; simpl; try done;
        match goal with
        | H : newer_skips _ _ _ _ _ _ = _ |- _ =>
            apply newer_skips_keeps in H as [-> _]; done
        end. }
  assert (fs (st_world s2) !! PathLib.str md_path
          = fs (st_world s) !! PathLib.str md_path) as Hs2.
  { rewrite <- Hens.
    repeat case_match; simplify_eq; simpl; try done;
      match goal with
      | H : newer_skips _ _ _ _ _ _ = _ |- _ =>
          apply newer_skips_keeps in H as [-> _]; done
      end. }
  destruct skip; [intros [= <- _]; by right|].
  unfold convert_ipynb_to_md, try_except, bind, lift, info, Os.info, modify.
  simpl.
  destruct (Converter.ipynb_to_md _ _ _) as [w3 [p3|e3]]; simpl;
    intros [= <- _]; left; simpl; set_solver.
Qed.

(** An event for a recorded path leaves the world as it is. *)
Lemma guarded_event_is_dropped s file_path :
  PathLib.str file_path ∈ recently_synced s ->
  exists s', sync_file_if_needed cfg file_path s = (s', Ok tt)
             /\ st_world s' = st_world s.
Proof.
  intros Hin. unfold sync_file_if_needed, bind, lift, Os.exists_, gets,
    modify, ret. simpl.
  destruct (FS.exists_ _ _); simpl; [|by eexists; split; [done|destruct s]].
  rewrite bool_decide_eq_true_2 by done. simpl. eauto.
Qed.

(** C3 (echo suppression), as the code has it.  After a propagation
    that touched its target path, the next change event for exactly
    that path is dropped, whenever it arrives: [sync_file_if_needed]
    returns without propagating, writing or logging anything. *)
Theorem first_echo_event_suppressed s source_path target_path s1 r t :
  sync_md_to_ipynb cfg source_path target_path s = (s1, r)
  \/ sync_ipynb_to_md cfg source_path target_path s = (s1, r) ->
  fs (st_world s1) !! PathLib.str target_path
  <> fs (st_world s) !! PathLib.str target_path ->
  exists s2,
    sync_file_if_needed cfg target_path (at_time s1 t) = (s2, Ok tt)
    /\ st_world s2 = st_world (at_time s1 t).
Proof.
  intros Hrun Hwritten. apply guarded_event_is_dropped. simpl.
  destruct Hrun as [Hrun|Hrun];
    [apply sync_md_to_ipynb_marks in Hrun|apply sync_ipynb_to_md_marks in Hrun];
    destruct Hrun as [Hin|Hkept]; done.
Qed.

(** C10 (the guard is one-shot and not time-bounded).  With the path of
    an existing file recorded as recently synchronised, the first
    change event for it is dropped and removes the record, whatever the
    clock and the timeout field hold; the next event for the same path,
    at any time, is processed as if there had been no record. *)
Theorem echo_guard_one_shot s file_path t timeout :
  FS.exists_ (fs (st_world s)) file_path = true ->
  PathLib.str file_path ∈ recently_synced s ->
  let s0 := at_time (with_timeout s timeout) t in
  let s1 := set_recently_synced s0
              (recently_synced s ∖ {[PathLib.str file_path]}) in
  sync_file_if_needed cfg file_path s0 = (s1, Ok tt)
  /\ forall t' timeout',
       sync_file_if_needed cfg file_path (at_time (with_timeout s1 timeout') t')
       = sync_by_type cfg file_path (at_time (with_timeout s1 timeout') t').
Proof.
  intros Hex Hin s0 s1. split.
  - unfold sync_file_if_needed, bind, lift, Os.exists_, gets, modify, ret.
    simpl. rewrite Hex. simpl. rewrite bool_decide_eq_true_2 by done.
    reflexivity.
  - intros t' timeout'.
    unfold sync_file_if_needed, bind, lift, Os.exists_, gets, modify, ret.
    simpl. rewrite Hex. simpl.
    rewrite bool_decide_eq_false_2; [reflexivity|].
    intros Hc. apply elem_of_difference in Hc as [_ Hc].
    apply Hc. by apply elem_of_singleton.
Qed.

(** *** Orphans in the initial synchronisation *)

(** C8 (no orphans).  Whatever the two trees and the configuration
    (also with [delete_orphaned] set), the plan [check_consistency] returns
    has empty [orphaned_md] and [orphaned_ipynb] lists, a file without a
    mirror having been scheduled for propagation under its own key before
    the orphan marking runs; so the initial synchronisation does what it
    would do without its block that deletes orphans. *)
Theorem no_orphan_reported_or_deleted :
  (forall w w' plan,
     ConsistencyChecker.check_consistency cfg w = (w', Ok plan) ->
     orphaned_md plan = [] /\ orphaned_ipynb plan = [])
  /\ (forall s, perform_initial_sync cfg s = initial_sync_without_deletion cfg s).
Proof.
  split; [apply CheckerFacts.check_consistency_orphans|].
  intros s. unfold perform_initial_sync, initial_sync_without_deletion.
  destruct (negb (sync_on_start cfg)); [done|].
  apply MonadFacts.bind_ext. intros [] s0 _.
  apply MonadFacts.bind_ext. intros plan s1 Hcheck.
  assert (orphaned_md plan = [] /\ orphaned_ipynb plan = []) as [-> ->].
  { unfold lift in Hcheck.
    destruct (ConsistencyChecker.check_consistency cfg (st_world s0))
      as [w' r] eqn:Hc.
    injection Hcheck as _ ->.
    exact (CheckerFacts.check_consistency_orphans cfg _ _ _ Hc). }
  apply MonadFacts.bind_ext. intros [] s2 _.
  apply MonadFacts.bind_ext. intros [] s3 _.
  by destruct (delete_orphaned cfg).
Qed.

(** *** Forced precedence in the propagation of one event *)

(** Under the force value of its own side a propagation never skips: it
    ensures the target directory and converts, whatever the mtimes. *)
Lemma forced_side_always_converts :
  (conflict_resolution cfg = "md" ->
   forall md_path ipynb_path s,
     sync_md_to_ipynb cfg md_path ipynb_path s
     = (info "[同步] MD → IPYNB" [PathLib.str md_path; PathLib.str ipynb_path] ;;;
        lift (Utils.ensure_dir_exists (PathLib.parent ipynb_path)) ;;;
        convert_md_to_ipynb md_path ipynb_path) s)
  /\ (conflict_resolution cfg = "ipynb" ->
      forall ipynb_path md_path s,
        sync_ipynb_to_md cfg ipynb_path md_path s
        = (info "[同步] IPYNB → MD" [PathLib.str ipynb_path; PathLib.str md_path] ;;;
           lift (Utils.ensure_dir_exists (PathLib.parent md_path)) ;;;
           convert_ipynb_to_md ipynb_path md_path) s).
Proof.
  split; intros Hcr a b s.
  - unfold sync_md_to_ipynb. rewrite Hcr. simpl. unfold bind, ret.
    destruct (info _ _ s) as [s1 [[]|]]; [|done].
    destruct (lift _ s1) as [s2 [[]|]]; [|done].
    destruct (lift (Os.exists_ b) s2) as [s3 [[]|]] eqn:Hex; [| |done];
      unfold lift, Os.exists_, gets in Hex; simpl in Hex;
      injection Hex as <-; by destruct s2.
  - unfold sync_ipynb_to_md. rewrite Hcr. simpl. unfold bind, ret.
    destruct (info _ _ s) as [s1 [[]|]]; [|done].
    destruct (lift _ s1) as [s2 [[]|]]; [|done].
    destruct (lift (Os.exists_ b) s2) as [s3 [[]|]] eqn:Hex; [| |done];
      unfold lift, Os.exists_, gets in Hex; simpl in Hex;
      injection Hex as <-; by destruct s2.
Qed.

(** *** Conversion failures *)



End Facts.

End EngineFacts.

(** ** Properties of the debounce queue *)

Module WatcherFacts.
Import FileWatcher.

Section Facts.

Context `{!Externals}.
Variable cfg : Config.

(** One event of a recognised path replaces the entry of the path and
    leaves the other entries. *)
Lemma add_pending_event_queue self t file_path k :
  recognised file_path ->
  pending_events (add_pending_event cfg self t file_path k)
  = <[PathLib.str file_path := mkEvent (stored_timestamp cfg t k) k file_path]>
      (pending_events self).
Proof.
  unfold recognised, add_pending_event, stored_timestamp. intros ->. simpl.
  by destruct (bool_decide (k = deleted)).
Qed.







(** Handling one due entry never raises. *)
Lemma dispatch_returns e s : exists s', dispatch cfg e s = (s', Ok tt).
Proof.
  unfold dispatch, try_except.
  match goal with
  | |- context [match ?c s with _ => _ end] => destruct (c s) as [s1 [[]|x]]
  end; [eauto|].
  unfold SyncEngine.error, lift, Os.error, modify. simpl. eauto.
Qed.

Lemma for_each_dispatch_returns l s :
  exists s', SyncEngine.for_each (dispatch cfg) l s = (s', Ok tt).
Proof.
  revert s. induction l as [|e l IH]; intros s; simpl.
  - unfold ret. eauto.
  - unfold bind. destruct (dispatch_returns e s) as (s1 & ->). apply IH.
Qed.

(** [process_pending_events] always returns, and leaves the queue of
    [drain] at the time the world shows. *)
Lemma process_pending_events_drain self s :
  exists s',
    process_pending_events cfg self s
    = (s', Ok (drain cfg self (now (st_world s))).1).
Proof.
  unfold process_pending_events, bind, gets, ret. simpl.
  destruct (for_each_dispatch_returns
              (due_events cfg self (now (st_world s))) s) as (s' & ->).
  eauto.
Qed.




End Facts.

End WatcherFacts.

(** *** The engine and the queue on the sample trees *)

Module EngineExamples.
Import SyncEngine EngineFacts.

#[local] Existing Instance Sample.externals.


Lemma first_echo_event_suppressed_witness :
  exists s2,
    sync_file_if_needed (Sample.config "newer" None)
      Sample.notes_ipynb (at_time (Sample.after_propagation "newer") (101 * second))
    = (s2, Ok tt)
    /\ st_world s2 = st_world (at_time (Sample.after_propagation "newer") (101 * second)).
Proof.
  apply (first_echo_event_suppressed
           (Sample.config "newer" None)
           (Sample.engine_over (Sample.world_of Sample.md_only))
           Sample.notes_md Sample.notes_ipynb
           (Sample.after_propagation "newer") (Ok tt) (101 * second)).
  - left. vm_compute. reflexivity.
  - vm_compute. discriminate.
Defined.

(** C3 as stated fails on a second event.  Under the force-IPYNB value,
    [notes.md] is propagated to a new [notes.ipynb]; of two change events
    for [notes.ipynb] that follow at the same reading of the clock, the
    first is dropped and the second propagates [notes.ipynb] back over
    [notes.md]. *)
Lemma second_echo_event_propagates_back :
  ~ (forall (E : Externals) (cfg : Config) (s s1 s2 s3 : state)
            (source_path target_path : Path) (r r2 r3 : result unit),
       sync_md_to_ipynb cfg source_path target_path s = (s1, r) ->
       fs (st_world s1) !! PathLib.str target_path
       <> fs (st_world s) !! PathLib.str target_path ->
       sync_file_if_needed cfg target_path s1 = (s2, r2) ->
       sync_file_if_needed cfg target_path s2 = (s3, r3) ->
       now (st_world s3) - now (st_world s1) < sync_timeout s1 ->
       fs (st_world s3) !! PathLib.str source_path
       = fs (st_world s1) !! PathLib.str source_path).
Proof.
  intros Hclaim.
  pose (cfg := Sample.config "ipynb" None).
  pose (s := Sample.engine_over (Sample.world_of Sample.md_only)).
  pose (run1 := sync_md_to_ipynb cfg
                  Sample.notes_md Sample.notes_ipynb s).
  pose (run2 := sync_file_if_needed cfg
                  Sample.notes_ipynb run1.1).
  pose (run3 := sync_file_if_needed cfg
                  Sample.notes_ipynb run2.1).
  specialize (Hclaim Sample.externals cfg s run1.1 run2.1 run3.1
                Sample.notes_md Sample.notes_ipynb run1.2 run2.2 run3.2).
  assert (fs (st_world run3.1) !! PathLib.str Sample.notes_md
          = fs (st_world run1.1) !! PathLib.str Sample.notes_md) as Heq.
  { apply Hclaim.
    - apply surjective_pairing.
    - vm_compute. discriminate.
    - apply surjective_pairing.
    - apply surjective_pairing.
    - vm_compute. reflexivity. }
  vm_compute in Heq. discriminate Heq.
Qed.

Lemma echo_guard_one_shot_witness :
  let s := set_recently_synced
             (Sample.engine_over (Sample.world_of (Sample.ipynb_only "{}")))
             {["/r/nb/notes.ipynb"]} in
  let s0 := at_time (with_timeout s (7 * second)) (900 * second) in
  let s1 := set_recently_synced s0
              (recently_synced s ∖ {[PathLib.str Sample.notes_ipynb]}) in
  sync_file_if_needed (Sample.config "newer" None)
    Sample.notes_ipynb s0 = (s1, Ok tt)
  /\ forall t' timeout',
       sync_file_if_needed (Sample.config "newer" None)
         Sample.notes_ipynb (at_time (with_timeout s1 timeout') t')
       = sync_by_type (Sample.config "newer" None)
           Sample.notes_ipynb (at_time (with_timeout s1 timeout') t').
Proof.
  apply (echo_guard_one_shot (Sample.config "newer" None)
           (set_recently_synced
              (Sample.engine_over (Sample.world_of (Sample.ipynb_only "{}")))
              {["/r/nb/notes.ipynb"]})
           Sample.notes_ipynb (900 * second) (7 * second)).
  - vm_compute. reflexivity.
  - vm_compute. reflexivity.
Defined.




(** One MD file without a mirror, [delete_orphaned] set: the file is
    scheduled and the orphan lists are empty. *)
Lemma no_orphan_reported_or_deleted_witness :
  orphaned_md
    (mkSyncActions
       [mkAction Sample.notes_md Sample.notes_ipynb "notes.md" Inf] [] [] [] [])
  = []
  /\ orphaned_ipynb
       (mkSyncActions
          [mkAction Sample.notes_md Sample.notes_ipynb "notes.md" Inf] [] [] [] [])
     = [].
Proof.
  apply (proj1 (no_orphan_reported_or_deleted (Sample.config "newer" None))
           (Sample.world_of Sample.md_only) _ _ CheckerExamples.md_only_plan).
Defined.


End EngineExamples.

(** ** Further properties of the scan and of the plan *)

Module PlanFacts.
Import ConsistencyChecker CheckerFacts.

Section Facts.

Context `{!Externals}.
Variable cfg : Config.

(** *** What a scan leaves out *)





(** *** What a plan holds *)

Lemma flat_map_Forall2_elem {A B : Type} (R : A -> sync_actions -> Prop)
    (field : sync_actions -> list B) l cs b :
  Forall2 R l cs -> b ∈ List.flat_map field cs ->
  exists e c, e ∈ l /\ R e c /\ b ∈ field c.
Proof.
  induction 1 as [|e c l cs Hec _ IH]; simpl; intros Hb.
  - by apply not_elem_of_nil in Hb.
  - apply elem_of_app in Hb as [Hb|Hb].
    + exists e, c. split_and!; [apply elem_of_cons; by left|done..].
    + destruct (IH Hb) as (e' & c' & He' & Hc' & Hb').
      exists e', c'. split_and!; [apply elem_of_cons; by right|done..].
Qed.

(** X2 (a plan reads only scanned files).  In a plan of
    [check_consistency], every action of [md_to_ipynb] reads a
    Markdown file of the MD scan and is filed under the key of that
    file, every action of [ipynb_to_md] reads a file of the IPYNB scan,
    and the list of conflicts is empty. *)
Theorem plan_reads_scanned_files (md_files ipynb_files : gmap string FileInfo)
    (plan : sync_actions) :
  build_sync_actions cfg md_files ipynb_files = Ok plan ->
  (forall a, a ∈ md_to_ipynb plan ->
     exists i, md_files !! a_rel_path a = Some i
               /\ source a = path i
               /\ Utils.is_markdown_file (PathLib.str (path i)) = true)
  /\ (forall a, a ∈ ipynb_to_md plan ->
        exists k i, ipynb_files !! k = Some i /\ source a = path i)
  /\ conflict plan = [].
Proof.
  intros Hplan.
  apply build_sync_actions_loops in Hplan as (cs1 & cs2 & H1 & H2 & ->).
  simpl. split_and!; [| |done].
  - intros a Ha. apply elem_of_app in Ha as [Ha|Ha].
    + destruct (flat_map_Forall2_elem _ _ _ _ _ H1 Ha)
        as ([k i] & c & He & Hc & Hac).
      apply elem_of_map_to_list in He.
      apply check_md_file_actions in Hc as (Hfw & _ & _).
      destruct (Hfw a Hac) as (Hmd & Hsrc & ->). eauto.
    + destruct (flat_map_Forall2_elem _ _ _ _ _ H2 Ha)
        as ([k i] & c & He & Hc & Hac).
      apply check_ipynb_file_actions in Hc as (Hnone & _ & _).
      rewrite Hnone in Hac. by apply not_elem_of_nil in Hac.
  - intros a Ha. apply elem_of_app in Ha as [Ha|Ha].
    + destruct (flat_map_Forall2_elem _ _ _ _ _ H1 Ha)
        as ([k i] & c & He & Hc & Hac).
      apply check_md_file_actions in Hc as (_ & Hbw & _).
      destruct (Hbw a Hac) as (_ & _ & ni & Hni & Hsrc). eauto.
    + destruct (flat_map_Forall2_elem _ _ _ _ _ H2 Ha)
        as ([k i] & c & He & Hc & Hac).
      apply elem_of_map_to_list in He.
      apply check_ipynb_file_actions in Hc as (_ & Hbw & _).
      destruct (Hbw a Hac) as (_ & Hsrc & _). eauto.
Qed.

(** *** Files without a mirror *)

Lemma get_corresponding_path_mirror_target directory target_dir k i ext :
  scan_entry directory k i ->
  get_corresponding_path (path i) directory target_dir ext
  = Ok (mirror_target target_dir i ext).
Proof.
  intros (Habs & Hpath & _).
  unfold get_corresponding_path, PathLib.relative_to, mirror_target.
  rewrite Hpath. unfold PathLib.joinpath at 1 2 3. rewrite Habs. simpl.
  rewrite Bool.eqb_reflx, strip_prefix_app.
  destruct (rel_path i) as [a l]. simpl in Habs. by subst a.
Qed.

Lemma from_source_none p l :
  (forall a, a ∈ l -> source a <> p) -> from_source p l = [].
Proof.
  intros Hl. apply filter_none. intros a Ha.
  apply bool_decide_eq_false. by apply Hl.
Qed.

(** X3 (a Markdown file without a notebook).  Whatever the conflict
    resolution and the threshold, a Markdown file of the MD scan whose
    mirror key is not in the IPYNB scan is the source of exactly one
    [md_to_ipynb] action of the plan: towards its mirror path in the
    IPYNB tree, filed under its own key, with an infinite time
    difference. *)
Theorem lone_md_file_is_scheduled (md_files ipynb_files : gmap string FileInfo)
    (p : string) (mi : FileInfo) (plan : sync_actions) :
  scan_of (md_dir cfg) md_files ->
  md_files !! p = Some mi ->
  Utils.is_markdown_file (PathLib.str (path mi)) = true ->
  ipynb_files !! mirror_rel p ".ipynb" = None ->
  build_sync_actions cfg md_files ipynb_files = Ok plan ->
  from_source (path mi) (md_to_ipynb plan)
  = [mkAction (path mi) (mirror_target (ipynb_dir cfg) mi ".ipynb") p Inf].
Proof.
  intros Hscan Hp Hmd Hnone Hplan.
  apply build_sync_actions_loops in Hplan as (cs1 & cs2 & H1 & H2 & ->).
  simpl. unfold from_source. rewrite List.filter_app.
  destruct (map_to_list_split md_files p mi Hp) as (l1 & l2 & Hl & Hothers).
  rewrite Hl in H1.
  destruct (filter_flat_map_at _ md_to_ipynb
              (fun a => bool_decide (source a = path mi)) l1 (p, mi) l2 cs1 H1)
    as (c & Hc & ->).
  { intros [k i] c He Hc. destruct (Hothers _ He) as [Hk Hi]. simpl in *.
    apply from_source_none. intros a Ha Hsrc.
    apply check_md_file_actions in Hc as (Hfw & _ & _).
    destruct (Hfw a Ha) as (_ & Hsrc' & _). apply Hk.
    eapply (scan_of_path_inj _ md_files); eauto. congruence. }
  rewrite (filter_flat_map_none _ md_to_ipynb _ _ cs2 H2).
  2:{ intros [k i] c' _ Hc'.
      apply check_ipynb_file_actions in Hc' as (-> & _ & _). done. }
  rewrite app_nil_r. unfold check_md_file in Hc.
  rewrite Hmd, Hnone in Hc. simpl in Hc.
  rewrite (get_corresponding_path_mirror_target _ _ p mi ".ipynb" (Hscan _ _ Hp))
    in Hc.
  injection Hc as <-. simpl. by rewrite bool_decide_eq_true_2.
Qed.

(** X4 (a notebook without a Markdown file).  Whatever the conflict
    resolution and the threshold, a notebook of the IPYNB scan whose
    mirror key is not in the MD scan is scheduled in [ipynb_to_md]
    towards its mirror path in the MD tree, under its own key and with
    an infinite time difference; it is the only action of [ipynb_to_md]
    with an infinite time difference that reads from the notebook. *)
Theorem lone_ipynb_file_is_scheduled (md_files ipynb_files : gmap string FileInfo)
    (q : string) (ni : FileInfo) (plan : sync_actions) :
  scan_of (ipynb_dir cfg) ipynb_files ->
  ipynb_files !! q = Some ni ->
  Utils.is_notebook_file (PathLib.str (path ni)) = true ->
  md_files !! mirror_rel q ".md" = None ->
  build_sync_actions cfg md_files ipynb_files = Ok plan ->
  let a := mkAction (path ni) (mirror_target (md_dir cfg) ni ".md") q Inf in
  a ∈ ipynb_to_md plan
  /\ forall b, b ∈ ipynb_to_md plan ->
       source b = path ni -> time_diff b = Inf -> b = a.
Proof.
  intros Hscan Hq Hnb Hnone Hplan a.
  apply build_sync_actions_loops in Hplan as (cs1 & cs2 & H1 & H2 & ->).
  simpl. split.
  - apply elem_of_app. right.
    apply elem_of_map_to_list in Hq as Hin.
    apply list_elem_of_split in Hin as (l1 & l2 & Hl). rewrite Hl in H2.
    apply Forall2_app_inv_l in H2 as (c1 & c' & _ & H2 & ->).
    apply Forall2_cons_inv_l in H2 as (c & c2 & Hc & _ & ->).
    rewrite List.flat_map_app. simpl. apply elem_of_app. right.
    apply elem_of_app. left.
    unfold check_ipynb_file in Hc. rewrite Hnb, Hnone in Hc. simpl in Hc.
    rewrite (get_corresponding_path_mirror_target _ _ q ni ".md" (Hscan _ _ Hq))
      in Hc.
    injection Hc as <-. simpl. apply list_elem_of_singleton. done.
  - intros b Hb Hsrc Hinf. apply elem_of_app in Hb as [Hb|Hb].
    + destruct (flat_map_Forall2_elem _ _ _ _ _ H1 Hb)
        as ([k i] & c & He & Hc & Hbc).
      exfalso. revert Hc Hbc. unfold check_md_file.
      destruct (negb _); [intros [= <-] Hbc; by apply not_elem_of_nil in Hbc|].
      destruct (ipynb_files !! mirror_rel k ".ipynb") as [ni'|].
      * destruct (abs_diff _ _) as [d|]; [|done].
        destruct (_ <? _);
          [intros [= <-] Hbc; by apply not_elem_of_nil in Hbc|].
        destruct (_ || _);
          [intros [= <-] Hbc; by apply not_elem_of_nil in Hbc|].
        destruct (_ || _); intros [= <-] Hbc; simpl in Hbc.
        -- apply list_elem_of_singleton in Hbc as ->. done.
        -- by apply not_elem_of_nil in Hbc.
      * destruct (get_corresponding_path _ _ _ _); [|done].
        intros [= <-] Hbc. by apply not_elem_of_nil in Hbc.
    + destruct (flat_map_Forall2_elem _ _ _ _ _ H2 Hb)
        as ([k i] & c & He & Hc & Hbc).
      apply elem_of_map_to_list in He.
      assert (k = q) as ->.
      { apply check_ipynb_file_actions in Hc as (_ & Hbw & _).
        destruct (Hbw b Hbc) as (_ & Hsrc' & _).
        eapply (scan_of_path_inj _ ipynb_files); eauto. congruence. }
      assert (i = ni) as -> by congruence.
      unfold check_ipynb_file in Hc. rewrite Hnb, Hnone in Hc. simpl in Hc.
      rewrite (get_corresponding_path_mirror_target _ _ q ni ".md" (Hscan _ _ Hq))
        in Hc.
      injection Hc as <-. simpl in Hbc.
      by apply list_elem_of_singleton in Hbc.
Qed.

(** *** Files without a modification time *)

Lemma foldM_raise_origin {A B : Type} (f : B -> A -> result B) l b x :
  foldM f l b = Raise x -> exists e b0, e ∈ l /\ f b0 e = Raise x.
Proof.
  revert b. induction l as [|e l IH]; simpl; intros b; [done|].
  destruct (f b e) as [b'|x'] eqn:Hf.
  - intros Hl. destruct (IH _ Hl) as (e' & b0 & He' & Hx).
    exists e', b0. split; [apply elem_of_cons; by right|done].
  - intros [= ->]. exists e, b. split; [apply elem_of_cons; by left|done].
Qed.

(** X5 (a pair with a file that has no modification time).  When one
    file of a mirrored pair of the two scans was recorded without a
    modification time, the file having vanished or being a dangling
    link, the reconciliation returns no plan: it raises [TypeError]. *)
Theorem pair_without_mtime_raises (md_files ipynb_files : gmap string FileInfo)
    (p q : string) (mi ni : FileInfo) :
  scan_of (md_dir cfg) md_files ->
  scan_of (ipynb_dir cfg) ipynb_files ->
  mirrored_pair md_files ipynb_files p q mi ni ->
  mtime mi = None \/ mtime ni = None ->
  build_sync_actions cfg md_files ipynb_files = Raise TypeError.
Proof.
  intros Hmd_scan Hnb_scan (Hmi & Hni & Hmd & Hnb & Hpq & Hqp) Hnone.
  assert (forall s, check_md_file cfg ipynb_files s (p, mi) = Raise TypeError)
    as Hraise.
  { intros s. unfold check_md_file. rewrite Hmd, Hpq, Hni. simpl.
    destruct Hnone as [-> | ->]; [done|]. by destruct (mtime mi). }
  destruct (build_sync_actions cfg md_files ipynb_files) as [plan|x] eqn:Hplan.
  - apply build_sync_actions_loops in Hplan as (cs1 & cs2 & H1 & _ & _).
    apply elem_of_map_to_list in Hmi.
    apply list_elem_of_split in Hmi as (l1 & l2 & Hl). rewrite Hl in H1.
    apply Forall2_app_inv_l in H1 as (c1 & c' & _ & H1 & _).
    apply Forall2_cons_inv_l in H1 as (c & c2 & Hc & _ & _).
    by rewrite Hraise in Hc.
  - f_equal. unfold build_sync_actions in Hplan.
    destruct (foldM (check_md_file cfg ipynb_files) _ _) as [s1|x1] eqn:Hf1.
    + destruct (foldM (check_ipynb_file cfg md_files) _ _) as [s2|x2] eqn:Hf2.
      { by destruct (delete_orphaned cfg). }
      injection Hplan as <-.
      apply foldM_raise_origin in Hf2 as ([k i] & s0 & He & Hx).
      apply elem_of_map_to_list in He. revert Hx. unfold check_ipynb_file.
      destruct (negb _); [done|].
      destruct (md_files !! mirror_rel k ".md"); [done|].
      by rewrite (get_corresponding_path_mirror_target _ _ k i ".md"
                    (Hnb_scan _ _ He)).
    + injection Hplan as <-.
      apply foldM_raise_origin in Hf1 as ([k i] & s0 & He & Hx).
      apply elem_of_map_to_list in He. revert Hx. unfold check_md_file.
      destruct (negb _); [done|].
      destruct (ipynb_files !! mirror_rel k ".ipynb") as [ni'|].
      * destruct (mtime i), (mtime ni'); simpl; try by intros [= <-].
        destruct (_ <? _); [done|]. destruct (_ || _); [done|].
        by destruct (_ || _).
      * by rewrite (get_corresponding_path_mirror_target _ _ k i ".ipynb"
                      (Hmd_scan _ _ He)).
Qed.

End Facts.

End PlanFacts.

(** ** Further properties of the engine *)

Module PropagationFacts.
Import SyncEngine MonadFacts.

Section Facts.

Context `{!Externals}.
Variable cfg : Config.


(** With the directory of the target in place, a propagation begins
    with its log line and the test for the target. *)
Lemma propagate_begin to_ipynb src dst s :
  FS.exists_ (fs (st_world s)) (PathLib.parent dst) = true ->
  propagate cfg to_ipynb src dst s
  = let s0 := announced to_ipynb src dst s in
    if FS.exists_ (fs (st_world s)) dst then
      let cr := conflict_resolution cfg in
      if String.eqb cr (prefers_source to_ipynb) then
        conversion_step to_ipynb src dst s0
      else if String.eqb cr (prefers_target to_ipynb) then
        (set_world s0
           (logger INFO (if to_ipynb then "[跳过] 配置优先使用IPYNB"
                         else "[跳过] 配置优先使用MD")
                   [PathLib.str dst] (st_world s0)), Ok tt)
      else if String.eqb cr "newer" then
        match newer_skips cfg src dst "[跳过] 文件时间戳相近"
                (if to_ipynb then "[跳过] IPYNB文件较新" else "[跳过] MD文件较新")
                s0 with
        | (s1, Ok true) => (s1, Ok tt)
        | (s1, Ok false) => conversion_step to_ipynb src dst s1
        | (s1, Raise e) => (s1, Raise e)
        end
      else conversion_step to_ipynb src dst s0
    else conversion_step to_ipynb src dst s0.
Proof.
  intros Hparent.
  destruct to_ipynb; simpl;
    [unfold sync_md_to_ipynb|unfold sync_ipynb_to_md];
    unfold Utils.ensure_dir_exists, announced;
    unfold bind at 1; unfold info at 1; unfold lift at 1;
    unfold Os.info at 1; unfold modify at 1; simpl;
    unfold bind at 1; unfold lift at 1; unfold bind at 1;
    unfold Os.exists_ at 1; unfold gets at 1; simpl; rewrite Hparent; simpl;
    unfold ret at 1; simpl;
    unfold bind at 1; unfold lift at 1; unfold Os.exists_ at 1;
    unfold gets at 1; simpl;
    destruct (FS.exists_ (fs (st_world s)) dst); simpl;
    unfold bind at 1;
    repeat (destruct (String.eqb _ _); simpl; try reflexivity);
    unfold set_world; simpl;
    try (destruct (newer_skips _ _ _ _ _ _) as [s1 [[]|]]); reflexivity.
Qed.


(** The checks of the 'newer' policy on two files. *)
Lemma newer_skips_files src dst near newer sa sb s :
  FS.stat (fs (st_world s)) src = Ok sa ->
  FS.stat (fs (st_world s)) dst = Ok sb ->
  newer_skips cfg src dst near newer s
  = if Z.abs (st_mtime sa - st_mtime sb) <? get_time_threshold cfg (3 * second)
    then (set_world s (logger INFO near [PathLib.str src; PathLib.str dst]
                              (st_world s)), Ok true)
    else if st_mtime sa <? st_mtime sb
    then (set_world s (logger INFO newer [PathLib.str dst] (st_world s)), Ok true)
    else (s, Ok false).
Proof.
  intros Hsrc Hdst.
  unfold newer_skips, bind, lift, info, Os.stat, Os.info, read_result,
    modify, ret. simpl.
  rewrite Hsrc, Hdst. simpl.
  destruct (_ <? _); [done|]. destruct (_ <? _); [done|]. by destruct s.
Qed.

(** *** The decision of one propagation *)



(** X7 (a forced side protects only what exists).  When
    [conflict_resolution] names the side of the target, a propagation
    onto a target that exists is skipped: the file system and the echo
    guard stay as they are, whichever file is newer.  When the target
    does not exist the propagation runs its conversion step under every
    value of [conflict_resolution]. *)
Theorem forced_side_protects_existing_target (to_ipynb : bool) (s : state)
    (src dst : Path) :
  FS.exists_ (fs (st_world s)) (PathLib.parent dst) = true ->
  (conflict_resolution cfg = prefers_target to_ipynb ->
   FS.exists_ (fs (st_world s)) dst = true ->
   exists s',
     propagate cfg to_ipynb src dst s = (s', Ok tt)
     /\ fs (st_world s') = fs (st_world s)
     /\ recently_synced s' = recently_synced s)
  /\ (FS.exists_ (fs (st_world s)) dst = false ->
      propagate cfg to_ipynb src dst s
      = conversion_step to_ipynb src dst (announced to_ipynb src dst s)).
Proof.
  intros Hparent. rewrite (propagate_begin _ _ _ _ Hparent). cbv zeta. split.
  - intros Hcr Hdst. rewrite Hdst, Hcr.
    assert (String.eqb (prefers_target to_ipynb) (prefers_source to_ipynb)
            = false) as -> by by destruct to_ipynb.
    rewrite String.eqb_refl. by eexists.
  - by intros ->.
Qed.

(** X8 (an unknown conflict resolution).  A value of
    [conflict_resolution] other than 'md', 'ipynb' and 'newer' protects
    nothing: every propagation runs its conversion step, in both
    directions and whatever the mtimes. *)
Theorem unknown_resolution_always_converts (to_ipynb : bool) (s : state)
    (src dst : Path) :
  conflict_resolution cfg <> "md" ->
  conflict_resolution cfg <> "ipynb" ->
  conflict_resolution cfg <> "newer" ->
  FS.exists_ (fs (st_world s)) (PathLib.parent dst) = true ->
  propagate cfg to_ipynb src dst s
  = conversion_step to_ipynb src dst (announced to_ipynb src dst s).
Proof.
  intros Hmd Hnb Hnewer Hparent.
  rewrite (propagate_begin _ _ _ _ Hparent). cbv zeta.
  apply String.eqb_neq in Hmd, Hnb, Hnewer.
  assert (String.eqb (conflict_resolution cfg) (prefers_source to_ipynb)
          = false) as -> by by destruct to_ipynb.
  assert (String.eqb (conflict_resolution cfg) (prefers_target to_ipynb)
          = false) as -> by by destruct to_ipynb.
  rewrite Hnewer. by destruct (FS.exists_ _ dst).
Qed.

(** *** Failures and the echo guard *)






(** X11 (events that change nothing).  A change event leaves the whole
    state as it is, the log included, when the file does not exist, and
    also, the path not being recorded as recently synchronised, when
    the file is of no recognised type, is a Markdown file outside the
    MD tree, or is a notebook outside the IPYNB tree. *)
Theorem event_outside_the_trees_changes_nothing (s : state) (file_path : Path) :
  FS.exists_ (fs (st_world s)) file_path = false
  \/ ((PathLib.str file_path ∉ recently_synced s)
      /\ (~ recognised file_path
          \/ (Utils.is_markdown_file (PathLib.str file_path) = true
              /\ inside (md_dir cfg) file_path = false)
          \/ (Utils.is_notebook_file (PathLib.str file_path) = true
              /\ inside (ipynb_dir cfg) file_path = false))) ->
  sync_file_if_needed cfg file_path s = (s, Ok tt).
Proof.
  assert (set_world s (st_world s) = s) as Hs by by destruct s.
  unfold sync_file_if_needed, bind, lift, Os.exists_, gets, modify, ret.
  simpl. rewrite Hs.
  intros [-> | [Hguard Hwhy]]; [done|].
  destruct (FS.exists_ _ _); simpl; [|done].
  rewrite bool_decide_eq_false_2 by done. simpl.
  unfold sync_by_type, recognised in *.
  destruct Hwhy as [Hno | [[Hmd Hout] | [Hnb Hout]]].
  - apply not_true_is_false in Hno. by rewrite Hno.
  - rewrite Hmd. simpl. unfold try_except. by rewrite Hout.
  - assert (Utils.is_markdown_file (PathLib.str file_path) = false) as Hmd.
    { destruct (Utils.is_markdown_file _) eqn:Hmd; [|done].
      by destruct (CheckerFacts.md_not_notebook _ Hmd Hnb). }
    rewrite Hmd, Hnb. simpl. unfold try_except. by rewrite Hout.
Qed.

(** X12 (no propagation back after a conversion).  Under 'newer' with
    a positive threshold, once a conversion in either direction has
    returned, the propagation in the opposite direction is skipped by
    the time stamps alone, the echo guard aside: it leaves the file
    system and the guard as they are. *)
Theorem no_propagation_back_after_conversion (to_ipynb : bool)
    (w w' : world) (p src dst : Path) (s1 : state) :
  conflict_resolution cfg = "newer" ->
  0 < get_time_threshold cfg (3 * second) ->
  converter to_ipynb src dst w = (w', Ok p) ->
  fs (st_world s1) = fs w' ->
  FS.exists_ (fs w') (PathLib.parent src) = true ->
  exists s2,
    propagate cfg (negb to_ipynb) dst src s1 = (s2, Ok tt)
    /\ fs (st_world s2) = fs w'
    /\ recently_synced s2 = recently_synced s1.
Proof.
  intros Hcr Hth Hconv Hfs Hparent.
  assert (equal_times (fs w') src dst) as (st & Hsrc & Hdst).
  { destruct to_ipynb; simpl in Hconv.
    - by apply ConverterFacts.md_to_ipynb_equal_times in Hconv as [_ ?].
    - by apply ConverterFacts.ipynb_to_md_equal_times in Hconv as [_ ?]. }
  rewrite propagate_begin by by rewrite Hfs.
  cbv zeta. rewrite Hfs, Hcr.
  assert (FS.exists_ (fs w') src = true) as ->.
  { unfold FS.exists_, FS.stat in *. destruct (parts src); [done|].
    by destruct (fs w' !! PathLib.str src) as [[]|]. }
  assert (String.eqb "newer" (prefers_source (negb to_ipynb)) = false) as ->
    by by destruct to_ipynb.
  assert (String.eqb "newer" (prefers_target (negb to_ipynb)) = false) as ->
    by by destruct to_ipynb.
  simpl.
  rewrite (newer_skips_files dst src _ _ st st) by (simpl; by rewrite Hfs).
  rewrite Z.sub_diag. change (Z.abs 0) with 0.
  apply Z.ltb_lt in Hth. rewrite Hth. eexists. split; [done|]. by simpl.
Qed.

(** X13 (a mirror that is a directory).  When the mirror of a deleted
    file is a directory, [handle_file_deletion] with [delete_orphaned]
    set removes nothing: the attempt fails, the failure is logged as an
    error, and the handler returns. *)
Theorem deletion_keeps_a_directory_mirror (s : state) (file_path target : Path)
    (st : stat_result) :
  recognised file_path ->
  mirror_of cfg file_path = Ok target ->
  fs (st_world s) !! PathLib.str target = Some (Dir st) ->
  delete_orphaned cfg = true ->
  exists s',
    handle_file_deletion cfg file_path s = (s', Ok tt)
    /\ fs (st_world s') = fs (st_world s)
    /\ levelname (List.last (log (st_world s')) (mkLog DEBUG "" [])) = ERROR.
Proof.
  unfold recognised. intros Htype Htarget Hdir Hdel.
  unfold handle_file_deletion, try_except, bind, of_result, lift,
    info, error, warning, Os.exists_, Os.info, Os.error, Os.unlink, Os.update,
    gets, modify.
  rewrite Htype, Htarget. simpl.
  assert (FS.exists_ (fs (st_world s)) target = true) as ->.
  { unfold FS.exists_. rewrite Hdir. by destruct (parts target). }
  rewrite Hdel. simpl. unfold FS.unlink. simpl. rewrite Hdir. simpl.
  eexists. split; [done|]. simpl. split; [done|].
  by rewrite List.last_last.
Qed.

(** *** The threshold at the start and the threshold of an event *)


End Facts.

End PropagationFacts.

(** ** Properties of the polling *)

Module PollingFacts.
Import Polling.

(** *** The cache of file states *)

Lemma forget_lookup (states : gmap string file_state) paths k :
  forget states paths !! k = if bool_decide (k ∈ paths) then None else states !! k.
Proof.
  unfold forget. revert states.
  induction paths as [|p paths IH]; intros states; cbn [List.fold_left].
  - case_bool_decide as Hin; [by apply not_elem_of_nil in Hin|done].
  - rewrite IH. destruct (decide (k = p)) as [->|Hne].
    + rewrite lookup_delete_eq.
      rewrite (bool_decide_eq_true_2 (p ∈ p :: paths))
        by (apply elem_of_cons; by left).
      by case_bool_decide.
    + rewrite lookup_delete_ne by done.
      destruct (decide (k ∈ paths)) as [Hin|Hnin].
      * rewrite !bool_decide_eq_true_2; [done| |done].
        apply elem_of_cons. by right.
      * rewrite !bool_decide_eq_false_2; [done| |done].
        intros Hin. apply elem_of_cons in Hin as [?|?]; done.
Qed.

Lemma omap_none {A B : Type} (f : A -> option B) l :
  (forall a, a ∈ l -> f a = None) -> omap f l = [].
Proof.
  induction l as [|a l IH]; intros Hl; simpl; [done|].
  rewrite (Hl a) by (apply elem_of_cons; by left).
  apply IH. intros b Hb. apply Hl, elem_of_cons. by right.
Qed.

Lemma elem_of_gone states current directory k :
  k ∈ gone states current directory
  <-> is_Some (states !! k)
      /\ PyStr.starts_with (PathLib.str directory) k = true
      /\ current !! k = None.
Proof.
  unfold gone. rewrite list_elem_of_In, List.filter_In, <- list_elem_of_In.
  rewrite list_elem_of_fmap, andb_true_iff, negb_true_iff.
  split.
  - intros [([k' st] & -> & Hin) [Hpre Hcur]]. simpl in *.
    apply elem_of_map_to_list in Hin. split_and!; [eauto|done|].
    apply bool_decide_eq_false in Hcur.
    destruct (current !! k') eqn:Hc; [|done]. destruct Hcur. eauto.
  - intros ([st Hst] & Hpre & Hcur). split.
    + exists (k, st). split; [done|]. by apply elem_of_map_to_list.
    + split; [done|]. apply bool_decide_eq_false. rewrite Hcur.
      by intros [? ?].
Qed.

(** X14 (a second check finds nothing).  Whatever the cache and the
    file system, a check of a directory leaves the cache such that a
    second check of the same directory over the same file system
    reports no change and leaves the cache as it is. *)
Theorem second_check_reports_nothing (m : gmap string node)
    (states : gmap string file_state) (directory : Path) :
  let states' := (check_directory_changes m states directory).2 in
  check_directory_changes m states' directory = ([], states').
Proof.
  unfold check_directory_changes. simpl.
  set (current := current_files m directory).
  set (states' := current ∪ forget states (gone states current directory)).
  assert (gone states' current directory = []) as Hgone.
  { apply CheckerFacts.filter_none. intros k Hk.
    apply list_elem_of_fmap in Hk as ([k' st] & -> & Hin). simpl.
    apply elem_of_map_to_list in Hin.
    destruct (current !! k') as [st'|] eqn:Hcur.
    { rewrite bool_decide_eq_true_2 by eauto. apply andb_false_r. }
    unfold states' in Hin. rewrite lookup_union_r in Hin by done.
    rewrite forget_lookup in Hin.
    destruct (bool_decide (k' ∈ gone states current directory)) eqn:Hg;
      [done|].
    apply bool_decide_eq_false in Hg.
    destruct (PyStr.starts_with (PathLib.str directory) k') eqn:Hpre; [|done].
    destruct Hg. apply elem_of_gone. eauto. }
  rewrite Hgone. simpl. rewrite app_nil_r. f_equal.
  - apply omap_none. intros [k st] Hin. apply elem_of_map_to_list in Hin.
    unfold new_or_modified. simpl.
    assert (states' !! k = Some st) as -> by by apply lookup_union_Some_l.
    by rewrite Z.ltb_irrefl, Z.eqb_refl.
  - unfold states'. by rewrite map_union_assoc, map_union_idemp.
Qed.

(** *** The paths of the walked files *)

Lemma split_no_sep sep s :
  Forall (fun w => contains sep w = false) (PyStr.split sep s).
Proof.
  induction s as [|c s IH]; simpl.
  - by constructor.
  - destruct (Ascii.eqb c sep) eqn:Hc.
    + by constructor.
    + destruct (PyStr.split sep s) as [|w ws]; [by repeat constructor; simpl; rewrite Hc|].
      apply Forall_cons in IH as [Hw Hws]. constructor; [|done].
      simpl. by rewrite Hc.
Qed.

Lemma split_without_sep sep s :
  contains sep s = false -> PyStr.split sep s = [s].
Proof.
  induction s as [|c s IH]; simpl; [done|].
  intros Hc. apply orb_false_iff in Hc as [Hc Hs].
  by rewrite Hc, (IH Hs).
Qed.

Lemma last_filter_elem (P : string -> bool) l :
  List.filter P l <> [] ->
  List.last (List.filter P l) "" ∈ l /\ P (List.last (List.filter P l) "") = true.
Proof.
  intros Hne.
  assert (List.In (List.last (List.filter P l) "") (List.filter P l)) as Hin.
  { destruct (List.exists_last Hne) as (l' & x & ->).
    rewrite List.last_last. apply List.in_or_app. right. by left. }
  apply List.filter_In in Hin as [Hin HP]. by rewrite list_elem_of_In.
Qed.

Lemma listdir_names m d n x :
  (n, x) ∈ FS.listdir m d -> entry_name n.
Proof.
  unfold FS.listdir. intros Hin.
  apply list_elem_of_omap in Hin as ([k x'] & _ & Hk). simpl in Hk.
  destruct (decide _) as [[Hparts _]|]; [|discriminate].
  injection Hk as <- _.
  unfold PathLib.name, PathLib.of_str in *. simpl in *.
  destruct (last_filter_elem _ _ Hparts) as [Hin Hkeep].
  pose proof (split_no_sep PyStr.slash k) as Hsplit.
  rewrite Forall_forall in Hsplit.
  unfold PathLib.keep_part in Hkeep.
  apply andb_true_iff in Hkeep as [H1 H2].
  apply negb_true_iff in H1, H2. apply String.eqb_neq in H1, H2.
  split; [by apply Hsplit|done].
Qed.

Lemma starts_with_slash n :
  contains "/" n = false -> PyStr.starts_with "/" n = false.
Proof.
  destruct n as [|c n]; [done|]. cbn [contains PyStr.starts_with].
  intros Hc. apply orb_false_iff in Hc as [Hc _].
  by rewrite Ascii.eqb_sym, Hc.
Qed.

Lemma of_str_entry_name n :
  entry_name n -> PathLib.of_str n = mkPath false [n].
Proof.
  intros (Hslash & Hne & Hdot). unfold PathLib.of_str.
  rewrite (split_without_sep PyStr.slash n Hslash).
  rewrite (starts_with_slash n Hslash).
  cbn [List.filter]. unfold PathLib.keep_part.
  apply String.eqb_neq in Hne, Hdot. by rewrite Hne, Hdot.
Qed.

Lemma div_entry_name top n :
  entry_name n ->
  PathLib.div top n = mkPath (is_abs top) (parts top ++ [n]).
Proof.
  intros Hn. unfold PathLib.div, PathLib.joinpath.
  by rewrite (of_str_entry_name _ Hn).
Qed.

(** Every directory [os.walk] yields lies below the top through
    directory entries, and its files are directory entries. *)
Lemma os_walk_roots fuel keep m top root dirs files :
  (root, dirs, files) ∈ FS.os_walk fuel keep m top ->
  (exists names, parts root = parts top ++ names /\ Forall entry_name names)
  /\ Forall entry_name files.
Proof.
  revert top. induction fuel as [|fuel IH]; intros top Hin.
  - by apply not_elem_of_nil in Hin.
  - simpl in Hin. apply elem_of_cons in Hin as [Heq|Hin].
    + injection Heq as -> _ ->. split.
      * exists []. by rewrite app_nil_r.
      * apply Forall_forall. intros n Hn.
        apply list_elem_of_fmap in Hn as ([n' x] & -> & Hn).
        apply list_elem_of_In, List.filter_In in Hn as [Hn _].
        apply list_elem_of_In in Hn. by apply (listdir_names m top n' x).
    + apply list_elem_of_In, List.in_flat_map in Hin as (d & Hd & Hin).
      apply List.filter_In in Hd as [Hd _].
      apply list_elem_of_In, list_elem_of_fmap in Hd as ([d' x] & -> & Hd).
      apply list_elem_of_In, List.filter_In in Hd as [Hd _].
      apply list_elem_of_In, listdir_names in Hd. simpl in *.
      apply list_elem_of_In, IH in Hin as [(names & Hparts & Hnames) Hfiles].
      split; [|done]. rewrite (div_entry_name _ _ Hd) in Hparts. simpl in Hparts.
      exists (d' :: names). rewrite Hparts, <- app_assoc. split; [done|].
      by constructor.
Qed.

Lemma starts_with_app p x : PyStr.starts_with p (p +:+ x) = true.
Proof.
  induction p as [|c p IH]; simpl; [done|]. by rewrite Ascii.eqb_refl, IH.
Qed.

Lemma starts_with_app_app p q x :
  PyStr.starts_with (p +:+ q) (p +:+ q +:+ x) = true.
Proof.
  induction p as [|c p IH]; [exact (starts_with_app q x)|].
  simpl. by rewrite Ascii.eqb_refl, IH.
Qed.

Lemma starts_with_app_r p x y :
  PyStr.starts_with p x = true -> PyStr.starts_with p (x +:+ y) = true.
Proof.
  revert x. induction p as [|c p IH]; intros [|d x]; simpl; try done.
  intros Hp. apply andb_true_iff in Hp as [-> Hp]. by apply IH.
Qed.

Lemma ends_with_slash_app x y :
  y <> "" -> ends_with "/" (x +:+ y) = ends_with "/" y.
Proof.
  intros Hy. induction x as [|c x IH]; [done|].
  change (String c x +:+ y) with (String c (x +:+ y)).
  cbn [ends_with]. rewrite IH.
  assert (String.eqb "/" (String c (x +:+ y)) = false) as ->; [|done].
  apply String.eqb_neq. intros [= _ Heq].
  destruct x; [by destruct y|done].
Qed.

Lemma ends_with_slash_name n : entry_name n -> ends_with "/" n = false.
Proof.
  intros (Hslash & _). induction n as [|c n IH]; [done|].
  cbn [contains] in Hslash. apply orb_false_iff in Hslash as [Hc Hn].
  cbn [ends_with]. rewrite (IH Hn), orb_false_r.
  apply String.eqb_neq. intros [= <- _]. by rewrite Ascii.eqb_refl in Hc.
Qed.

Lemma os_path_join_name x n :
  x <> "" -> ends_with "/" x = false -> entry_name n ->
  os_path_join x n = x +:+ "/" +:+ n.
Proof.
  intros Hx Hend Hn. unfold os_path_join.
  rewrite (starts_with_slash n (proj1 Hn)), Hend.
  apply String.eqb_neq in Hx. by rewrite Hx.
Qed.

Lemma below_join a x n :
  a <> "" -> ends_with "/" a = false ->
  x = a \/ below a x -> entry_name n -> below a (os_path_join x n).
Proof.
  intros a_not_empty a_no_slash_at_end Hx Hn.
  assert (x <> "" /\ ends_with "/" x = false) as [Hne Hend].
  { destruct Hx as [->|(_ & ? & ?)]; done. }
  rewrite (os_path_join_name x n Hne Hend Hn).
  assert ("/" +:+ n <> "") as Hn' by done.
  split_and!.
  - destruct Hx as [->|(Hpre & _)].
    + apply starts_with_app_app.
    + by apply starts_with_app_r.
  - rewrite (ends_with_slash_app x _ Hn').
    rewrite (ends_with_slash_app "/" n) by by destruct Hn as (_ & ? & _).
    exact (ends_with_slash_name n Hn).
  - by destruct x.
Qed.

Lemma below_fold_join a names x :
  a <> "" -> ends_with "/" a = false ->
  Forall entry_name names -> x = a \/ below a x ->
  let r := List.fold_left os_path_join names x in r = a \/ below a r.
Proof.
  intros Ha Hend Hnames. revert x.
  induction Hnames as [|n names Hn _ IH]; intros x Hx; simpl; [done|].
  apply IH. right. by apply below_join.
Qed.

(** Every walked file has a path string below that of the directory. *)
Lemma walked_files_below m directory k :
  PathLib.str directory <> "" ->
  ends_with "/" (PathLib.str directory) = false ->
  k ∈ walked_files m directory ->
  PyStr.starts_with (PathLib.str directory +:+ "/") k = true.
Proof.
  intros Hne Hend Hk. unfold walked_files in Hk.
  apply list_elem_of_In, List.in_flat_map in Hk as ([[root dirs] files] & He & Hk).
  simpl in Hk. apply List.in_map_iff in Hk as (file & <- & Hfile).
  apply List.filter_In in Hfile as [Hfile _].
  apply list_elem_of_In, os_walk_roots in He
    as [(names & Hparts & Hnames) Hfiles].
  rewrite Forall_forall in Hfiles.
  apply list_elem_of_In, Hfiles in Hfile.
  unfold walk_root. rewrite Hparts, drop_app_length.
  pose proof (below_fold_join (PathLib.str directory) names
                (PathLib.str directory) Hne Hend Hnames (or_introl eq_refl))
    as Hroot.
  by destruct (below_join (PathLib.str directory) _ file Hne Hend Hroot Hfile).
Qed.

Lemma scan_directory_state_keys m l acc k :
  is_Some (List.fold_left (record_state m) l acc !! k) ->
  is_Some (acc !! k) \/ k ∈ l.
Proof.
  revert acc. induction l as [|fp l IH]; intros acc; simpl; [by left|].
  intros Hk. destruct (IH _ Hk) as [Hacc|Hin].
  - unfold record_state in Hacc. destruct (stat_state m fp); [|by left].
    destruct (decide (fp = k)) as [->|Hne].
    + right. apply elem_of_cons. by left.
    + left. by rewrite lookup_insert_ne in Hacc.
  - right. apply elem_of_cons. by right.
Qed.

Lemma current_files_below m directory k :
  PathLib.str directory <> "" ->
  ends_with "/" (PathLib.str directory) = false ->
  is_Some (current_files m directory !! k) ->
  PyStr.starts_with (PathLib.str directory +:+ "/") k = true.
Proof.
  intros Hne Hend Hk. unfold current_files, scan_directory_state in Hk.
  apply scan_directory_state_keys in Hk as [Hk|Hk].
  - rewrite lookup_empty in Hk. by destruct Hk.
  - by apply (walked_files_below m).
Qed.

(** *** Paths beside the checked directory *)

(** X15 (a cached path beside the checked directory).  The check of a
    directory tests the cached paths by the text of the directory, not
    by its components: a cached path whose text begins with the text of
    the directory without lying below it, as a file of a directory
    [md_nb] beside the checked directory [md], is reported as deleted
    and dropped from the cache, whether or not the file still exists. *)
Theorem path_beside_directory_is_reported_deleted (m : gmap string node)
    (states : gmap string file_state) (directory : Path)
    (k : string) (st : file_state) :
  PathLib.str directory <> "" ->
  ends_with "/" (PathLib.str directory) = false ->
  states !! k = Some st ->
  PyStr.starts_with (PathLib.str directory) k = true ->
  PyStr.starts_with (PathLib.str directory +:+ "/") k = false ->
  (k, deleted) ∈ (check_directory_changes m states directory).1
  /\ (check_directory_changes m states directory).2 !! k = None.
Proof.
  intros Hne Hend Hk Hpre Hbeside.
  assert (current_files m directory !! k = None) as Hcur.
  { destruct (current_files m directory !! k) eqn:Hc; [|done].
    rewrite (current_files_below m directory k Hne Hend) in Hbeside; [done|].
    by rewrite Hc. }
  assert (k ∈ gone states (current_files m directory) directory) as Hgone.
  { apply elem_of_gone. eauto. }
  unfold check_directory_changes. simpl. split.
  - apply elem_of_app. right. apply list_elem_of_fmap. by exists k.
  - rewrite lookup_union_r by done. rewrite forget_lookup.
    by rewrite bool_decide_eq_true_2.
Qed.

(** *** Repeated deletions *)

Section Handlers.

Context `{!Externals}.
Variable cfg : Config.

Lemma on_deleted_processed (self : FileWatcher) t path :
  PathLib.str path ∈ processed_deletes self ->
  FileWatcher.on_deleted cfg self t path = self.
Proof.
  intros Hin. unfold FileWatcher.on_deleted.
  by rewrite bool_decide_eq_true_2.
Qed.

Lemma on_deleted_fresh (self : FileWatcher) t path :
  PathLib.str path ∉ processed_deletes self ->
  FileWatcher.on_deleted cfg self t path
  = mkWatcher
      (<[PathLib.str path :=
           mkEvent (t - debounce_delay cfg + FileWatcher.delete_head_start)
                   deleted path]> (pending_events self))
      ({[PathLib.str path]} ∪ processed_deletes self).
Proof.
  intros Hin. unfold FileWatcher.on_deleted.
  by rewrite bool_decide_eq_false_2.
Qed.

Lemma on_deleted_marks (self : FileWatcher) t path :
  PathLib.str path ∈ processed_deletes (FileWatcher.on_deleted cfg self t path).
Proof.
  unfold FileWatcher.on_deleted. case_bool_decide as Hin; [done|].
  simpl. apply elem_of_union. left. by apply elem_of_singleton.
Qed.

(** X16 (a repeated deletion waits for the cleanup).  Once a handler
    has seen the deletion of a path, a later deletion of that path
    reaches the queue only after the cleanup, which runs when more than
    60 seconds have passed since the last one.  So when the file is
    deleted, recreated and deleted again before the cleanup, the queue
    keeps the entry of the recreation; after a cleanup the second
    deletion replaces it. *)
Theorem repeated_deletion_waits_for_cleanup (self : Watch)
    (ipynb_handler : bool) (path : Path) (k : event_type) (t1 t2 t3 t4 : Z) :
  recognised path ->
  let w1 := on_deleted cfg self ipynb_handler t1 path in
  let w2 := set_queue w1
              (FileWatcher.add_pending_event cfg (queue w1) t2 path k) in
  let w3 := cleanup_processed_deletes w2 t3 in
  let entry :=
    pending_events (queue (on_deleted cfg w3 ipynb_handler t4 path))
      !! PathLib.str path in
  (t3 - last_cleanup_time self <= cleanup_interval ->
   entry = Some (mkEvent (stored_timestamp cfg t2 k) k path))
  /\ (cleanup_interval < t3 - last_cleanup_time self ->
      entry = Some (mkEvent (t4 - debounce_delay cfg
                             + FileWatcher.delete_head_start) deleted path)).
Proof.
  intros Hrec w1 w2 w3 entry.
  assert (last_cleanup_time w2 = last_cleanup_time self) as Hlast
    by by destruct ipynb_handler.
  assert (pending_events (queue w2) !! PathLib.str path
          = Some (mkEvent (stored_timestamp cfg t2 k) k path)) as Hq.
  { unfold w2. simpl.
    rewrite (WatcherFacts.add_pending_event_queue cfg _ t2 path k Hrec).
    apply lookup_insert_eq. }
  split; intros Ht; unfold entry, w3, cleanup_processed_deletes; rewrite Hlast.
  - assert ((cleanup_interval <? t3 - last_cleanup_time self) = false) as ->
      by (apply Z.ltb_ge; lia).
    destruct ipynb_handler; unfold on_deleted at 1; simpl.
    + rewrite on_deleted_processed; [exact Hq|]. simpl.
      unfold w1, on_deleted. simpl. apply on_deleted_marks.
    + rewrite on_deleted_processed; [exact Hq|]. unfold w2. simpl.
      unfold FileWatcher.add_pending_event.
      destruct (negb _); [|destruct (bool_decide _)]; simpl;
        apply on_deleted_marks.
  - assert ((cleanup_interval <? t3 - last_cleanup_time self) = true) as ->
      by (apply Z.ltb_lt; lia).
    destruct ipynb_handler; unfold on_deleted at 1; simpl;
      rewrite on_deleted_fresh by (simpl; apply not_elem_of_empty);
      simpl; apply lookup_insert_eq.
Qed.

End Handlers.

End PollingFacts.

(** ** Properties of file names and paths *)

Module NameFacts.
Import PyStr Polling PollingFacts.

(** *** The extension of a file *)

Lemma split_not_nil sep s : split sep s <> [].
Proof.
  destruct s as [|c s]; simpl; [done|].
  destruct (Ascii.eqb c sep); [done|]. by destruct (split sep s).
Qed.

Lemma split_app_sep sep a b :
  split sep (a +:+ String sep b) = split sep a ++ split sep b.
Proof.
  induction a as [|c a IH]; simpl.
  - by rewrite Ascii.eqb_refl.
  - rewrite IH. destruct (Ascii.eqb c sep); [done|].
    pose proof (split_not_nil sep a) as Hne.
    by destruct (split sep a).
Qed.

Lemma ends_with_app suf s :
  ends_with suf s = true -> exists pre, s = pre +:+ suf.
Proof.
  induction s as [|c s IH]; cbn [ends_with].
  - rewrite orb_false_r. intros Heq. apply String.eqb_eq in Heq as ->.
    by exists "".
  - intros Hs. apply orb_true_iff in Hs as [Heq|Hs].
    + apply String.eqb_eq in Heq as ->. by exists "".
    + destruct (IH Hs) as [pre ->]. by exists (String c pre).
Qed.

Lemma append_cons (c : ascii) (a b : string) :
  String c a +:+ b = String c (a +:+ b).
Proof. reflexivity. Qed.

Lemma append_assoc (a b c : string) : (a +:+ b) +:+ c = a +:+ b +:+ c.
Proof.
  induction a as [|x a IH]; [done|]. by rewrite !append_cons, IH.
Qed.

(** The base name of a name in a directory. *)
Lemma basename_in_directory d name :
  d = "" \/ ends_with "/" d = true ->
  contains "/" name = false ->
  OsPath.basename (d +:+ name) = name.
Proof.
  intros Hd Hname. unfold OsPath.basename.
  destruct Hd as [->|Hd].
  - change ("" +:+ name) with name.
    by rewrite (split_without_sep slash name Hname).
  - apply ends_with_app in Hd as [pre ->].
    rewrite append_assoc. change ("/" +:+ name) with (String slash name).
    rewrite split_app_sep, (split_without_sep slash name Hname).
    by rewrite List.last_last.
Qed.

Lemma rpartition_dot_none s : contains dot s = false -> rpartition_dot s = None.
Proof.
  induction s as [|c s IH]; [done|]. cbn [contains rpartition_dot].
  intros Hs. apply orb_false_iff in Hs as [Hc Hs]. by rewrite (IH Hs), Hc.
Qed.

Lemma rpartition_dot_last base ext :
  contains dot ext = false ->
  rpartition_dot (base +:+ String dot ext) = Some (base, String dot ext).
Proof.
  intros Hext. induction base as [|c base IH].
  - change ("" +:+ String dot ext) with (String dot ext).
    cbn [rpartition_dot]. rewrite (rpartition_dot_none ext Hext).
    by rewrite Ascii.eqb_refl.
  - change (String c base +:+ String dot ext)
      with (String c (base +:+ String dot ext)).
    cbn [rpartition_dot]. by rewrite IH.
Qed.

(** X20 (the extension of a file).  For a file named [base.ext] in any
    directory, [ext] holding no dot, [get_file_extension] is [ext] in
    lower case, so that the type of a file is read off its last
    extension whatever the case of its letters; unless [base] is empty
    or made of dots only, as in the hidden file [.md], when the file
    has no extension. *)
Theorem extension_of_a_file (d base ext : string) :
  d = "" \/ ends_with "/" d = true ->
  contains "/" base = false ->
  contains "/" ext = false ->
  contains "." ext = false ->
  Utils.get_file_extension (d +:+ base +:+ "." +:+ ext)
  = if all_dots base then "" else lower ext.
Proof.
  intros Hd Hbase Hext Hdot.
  unfold Utils.get_file_extension, OsPath.splitext_ext.
  rewrite (basename_in_directory d (base +:+ "." +:+ ext) Hd).
  - change (base +:+ "." +:+ ext) with (base +:+ String dot ext).
    rewrite (rpartition_dot_last base ext Hdot).
    by destruct (all_dots base).
  - clear -Hbase Hext. induction base as [|c base IH].
    + exact Hext.
    + rewrite append_cons. cbn [contains] in *.
      apply orb_false_iff in Hbase as [-> Hbase]. by apply IH.
Qed.

(** *** The mirror of a file *)

Lemma common_prefix_drop_app a b :
  PathLib.common_prefix_drop a (a ++ b) = ([], b).
Proof.
  induction a as [|x a IH]; simpl; [by destruct b|].
  by rewrite String.eqb_refl.
Qed.

Lemma contains_app c a b :
  contains c (a +:+ b) = contains c a || contains c b.
Proof.
  induction a as [|x a IH]; [done|].
  rewrite append_cons. cbn [contains]. by rewrite IH, orb_assoc.
Qed.

Lemma split_join names :
  names <> [] -> Forall entry_name names ->
  split slash (join "/" names) = names.
Proof.
  intros Hne Hnames. induction Hnames as [|n names Hn Hnames IH]; [done|].
  destruct names as [|n' names].
  - simpl. by apply split_without_sep, Hn.
  - change (join "/" (n :: n' :: names))
      with (n +:+ String slash (join "/" (n' :: names))).
    rewrite split_app_sep, IH by done.
    by rewrite (split_without_sep slash n (proj1 Hn)).
Qed.

Lemma filter_keep_part names :
  Forall entry_name names -> List.filter PathLib.keep_part names = names.
Proof.
  induction 1 as [|n names (_ & Hne & Hdot) _ IH]; simpl; [done|].
  unfold PathLib.keep_part at 1.
  apply String.eqb_neq in Hne, Hdot. by rewrite Hne, Hdot, IH.
Qed.

Lemma starts_with_slash_app n x :
  contains "/" n = false -> n <> "" -> starts_with "/" (n +:+ x) = false.
Proof.
  destruct n as [|c n]; [done|]. intros Hc _.
  rewrite append_cons. cbn [contains starts_with] in *.
  apply orb_false_iff in Hc as [Hc _]. by rewrite Ascii.eqb_sym, Hc.
Qed.

Lemma of_str_join names :
  names <> [] -> Forall entry_name names ->
  PathLib.of_str (join "/" names) = mkPath false names.
Proof.
  intros Hne Hnames. unfold PathLib.of_str.
  rewrite (split_join names Hne Hnames), (filter_keep_part names Hnames).
  f_equal. destruct Hnames as [|n names (Hslash & Hn & _) _]; [done|].
  destruct names as [|n' names].
  - by apply starts_with_slash.
  - change (join "/" (n :: n' :: names))
      with (n +:+ "/" +:+ join "/" (n' :: names)).
    by apply starts_with_slash_app.
Qed.

Lemma rpartition_dot_app s pre suf :
  rpartition_dot s = Some (pre, suf) -> s = pre +:+ suf.
Proof.
  revert pre. induction s as [|c s IH]; intros pre; [done|].
  cbn [rpartition_dot].
  destruct (rpartition_dot s) as [[pre' suf']|].
  - intros [= <- <-]. rewrite append_cons. f_equal. by apply IH.
  - destruct (Ascii.eqb c dot); [|done]. by intros [= <- <-].
Qed.

(** The stem of a name with an extension is the name of an entry. *)
Lemma stem_with_extension names ext :
  names <> [] -> Forall entry_name names ->
  ext = ".md" \/ ext = ".ipynb" ->
  entry_name (PathLib.stem (mkPath false names) +:+ ext).
Proof.
  intros Hne Hnames Hext.
  assert (entry_name (PathLib.name (mkPath false names))) as (Hslash & Hn & _).
  { unfold PathLib.name. simpl.
    destruct (List.exists_last Hne) as (l & n & ->).
    rewrite List.last_last.
    apply Forall_app in Hnames as [_ Hn]. by apply Forall_cons in Hn as [? _]. }
  assert (contains "/" (PathLib.stem (mkPath false names)) = false
          /\ PathLib.stem (mkPath false names) <> "") as [Hs Hs'].
  { unfold PathLib.stem.
    destruct (rpartition_dot _) as [[pre suf]|] eqn:Hr; [|done].
    destruct (String.eqb pre "") eqn:Hpre; [done|]. simpl.
    destruct (String.eqb suf "."); [done|].
    apply rpartition_dot_app in Hr. rewrite Hr, contains_app in Hslash.
    apply orb_false_iff in Hslash as [? _]. by apply String.eqb_neq in Hpre. }
  split_and!.
  - rewrite contains_app, Hs. by destruct Hext as [-> | ->].
  - destruct (PathLib.stem _); [done|]. by rewrite append_cons.
  - destruct (PathLib.stem _) as [|c [|c' s']]; [done| |].
    + rewrite append_cons. by destruct Hext as [-> | ->].
    + by rewrite !append_cons.
Qed.

Lemma relpath_below a b pre names :
  names <> [] ->
  PathLib.relpath (mkPath a (pre ++ names)) (mkPath b pre) = join "/" names.
Proof.
  intros Hne. unfold PathLib.relpath. simpl.
  rewrite common_prefix_drop_app. by destruct names.
Qed.

(** X21 (the checker and the engine agree on the mirror).  For a file
    below the source directory, the path [get_corresponding_path] gives
    the initial synchronisation and the path the engine computes for a
    change event are the same: the target directory, the directories
    of the file below the source directory, and its stem with the new
    extension. *)
Theorem checker_and_engine_agree_on_the_mirror (source_dir target_dir : Path)
    (names : list string) (ext : string) :
  names <> [] ->
  Forall entry_name names ->
  ext = ".md" \/ ext = ".ipynb" ->
  let file_path := PathLib.joinpath source_dir (mkPath false names) in
  let mirror :=
    mkPath (is_abs target_dir)
           (parts target_dir ++ List.removelast names
            ++ [PathLib.stem (mkPath false names) +:+ ext]) in
  ConsistencyChecker.get_corresponding_path file_path source_dir target_dir ext
  = Ok mirror
  /\ SyncEngine.mirror_path file_path source_dir target_dir ext = Ok mirror.
Proof.
  intros Hne Hnames Hext file_path mirror.
  pose proof (stem_with_extension names ext Hne Hnames Hext) as Hstem.
  split.
  - unfold ConsistencyChecker.get_corresponding_path, PathLib.relative_to,
      file_path, PathLib.joinpath at 1 2 3. simpl.
    rewrite Bool.eqb_reflx, CheckerFacts.strip_prefix_app.
    rewrite (div_entry_name _ _ Hstem). unfold mirror. simpl.
    by rewrite <- app_assoc.
  - subst file_path. destruct source_dir as [sa sp].
    unfold SyncEngine.mirror_path, Utils.get_relative_path,
      PathLib.joinpath at 1. cbn [is_abs parts].
    rewrite (relpath_below _ _ _ names Hne), (of_str_join names Hne Hnames).
    unfold PathLib.with_suffix.
    assert (PathLib.name (mkPath false names) <> "") as Hname.
    { unfold PathLib.name. simpl.
      destruct (List.exists_last Hne) as (l & n & ->).
      rewrite List.last_last.
      apply Forall_app in Hnames as [_ Hn].
      apply Forall_cons in Hn as [(_ & ? & _) _]. done. }
    apply String.eqb_neq in Hname. rewrite Hname. done.
Qed.

End NameFacts.

(** ** Properties of the cells of a Markdown text *)

Module CellFacts.
Import Text Cells.

(** *** The source of a cell *)

Lemma split_lines_not_nil sep s : split sep s <> [].
Proof.
  destruct s as [|c s]; simpl; [done|].
  destruct (N.eqb c sep); [done|]. by destruct (split sep s).
Qed.

Lemma split_lines_no_sep sep s : Forall (fun w => sep ∉ w) (split sep s).
Proof.
  induction s as [|c s IH]; simpl.
  - constructor; [apply not_elem_of_nil|constructor].
  - destruct (N.eqb c sep) eqn:Hc.
    + constructor; [apply not_elem_of_nil|done].
    + apply N.eqb_neq in Hc.
      destruct (split sep s) as [|w ws].
      * constructor; [|constructor].
        intros Hin. apply list_elem_of_singleton in Hin. done.
      * apply Forall_cons in IH as [Hw Hws]. constructor; [|done].
        intros Hin. apply elem_of_cons in Hin as [?|?]; done.
Qed.

Lemma with_line_breaks_lines lines :
  Forall (fun w => newline ∉ w) lines ->
  Forall source_line (with_line_breaks lines).
Proof.
  induction 1 as [|line lines Hline Hlines IH]; [constructor|].
  destruct lines as [|line' lines].
  - simpl. destruct line as [|c line]; constructor; [|constructor].
    exists (c :: line). split; [done|]. by right.
  - change (with_line_breaks (line :: line' :: lines))
      with ((line ++ [newline]) :: with_line_breaks (line' :: lines)).
    constructor; [|exact IH]. exists line. split; [done|]. by left.
Qed.

Lemma prepare_cell_source_cons c text :
  concat (prepare_cell_source (c :: text))
  = c :: concat (prepare_cell_source text).
Proof.
  unfold prepare_cell_source. simpl.
  pose proof (split_lines_not_nil newline text) as Hne.
  destruct (N.eqb c newline) eqn:Hc.
  - apply N.eqb_eq in Hc as ->.
    destruct (split newline text) as [|w ws]; [done|]. done.
  - destruct (split newline text) as [|w ws]; [done|].
    destruct ws as [|w' ws]; [by destruct w|]. done.
Qed.

(** X17 (the source of a cell is the text, line by line).  The list
    [prepare_cell_source] builds from a text concatenates to that text;
    each of its elements is a line followed by its line break, or a
    last line without one, which is then not empty: so no element is
    empty and a line break only ends an element. *)
Theorem prepare_cell_source_keeps_text (text : str) :
  concat (prepare_cell_source text) = text
  /\ Forall source_line (prepare_cell_source text).
Proof.
  split.
  - induction text as [|c text IH]; [done|].
    by rewrite prepare_cell_source_cons, IH.
  - apply with_line_breaks_lines, split_lines_no_sep.
Qed.

(** *** Fences *)

Lemma after_fence_Some s rest : after_fence s = Some rest -> s = fence ++ rest.
Proof.
  unfold after_fence. destruct s as [|a [|b [|c s]]]; try done.
  destruct (N.eqb_spec a backquote) as [->|]; [|done].
  destruct (N.eqb_spec b backquote) as [->|]; [|done].
  destruct (N.eqb_spec c backquote) as [->|]; [|done].
  by intros [= ->].
Qed.

Lemma after_fence_fence rest : after_fence (fence ++ rest) = Some rest.
Proof. reflexivity. Qed.

Lemma find_fence_Some s a rest :
  find_fence s = Some (a, rest) -> s = a ++ fence ++ rest.
Proof.
  revert a. induction s as [|c s IH]; intros a; [done|].
  cbn [find_fence].
  destruct (after_fence (c :: s)) as [r|] eqn:Hf.
  - intros [= <- <-]. by apply after_fence_Some.
  - destruct (find_fence s) as [[a' b']|]; [|done].
    intros [= <- <-]. simpl. f_equal. by apply IH.
Qed.

Lemma span_app (P : N -> bool) s a b :
  span P s = (a, b) -> s = a ++ b.
Proof.
  revert a b. induction s as [|c s IH]; intros a b; simpl.
  - by intros [= <- <-].
  - destruct (P c); [|by intros [= <- <-]].
    destruct (span P s) as [a' b']. intros [= <- <-].
    simpl. f_equal. by apply IH.
Qed.

Section Parsing.

Context `{!Unicode}.
Variable default_language : str.

Lemma match_fence_Some s lang code rest :
  match_fence s = Some (lang, code, rest) ->
  s = fence ++ lang ++ code ++ fence ++ rest.
Proof.
  unfold match_fence.
  destruct (after_fence s) as [s1|] eqn:Hs; [|done].
  destruct (span is_word s1) as [l s2] eqn:Hspan.
  destruct (find_fence s2) as [[c r]|] eqn:Hf; [|done].
  intros [= <- <- <-].
  apply after_fence_Some in Hs as ->.
  apply span_app in Hspan as ->.
  by apply find_fence_Some in Hf as ->.
Qed.

(** *** The parts of the split *)

Lemma re_split_from_parts fuel before s :
  split_parts (re_split_from fuel before s).
Proof.
  revert before s. induction fuel as [|fuel IH]; intros before s; simpl.
  - constructor.
  - destruct (match_fence s) as [[[lang code] rest]|].
    + constructor. apply IH.
    + destruct s; [constructor|apply IH].
Qed.

Lemma cells_of_parts_returns parts :
  split_parts parts ->
  exists cells, cells_of_parts default_language parts = Some cells.
Proof.
  induction 1 as [text|text lang code rest _ [cells IH]]; simpl; [eauto|].
  rewrite IH. eauto.
Qed.

(** Without a match from any position on, the split is the text. *)
Lemma re_split_from_no_match fuel before s :
  (forall x y, s = x ++ y -> match_fence y = None) ->
  re_split_from fuel before s = [before ++ s].
Proof.
  revert before s. induction fuel as [|fuel IH]; intros before s Hno; simpl.
  - done.
  - rewrite (Hno [] s eq_refl). destruct s as [|c s].
    + by rewrite app_nil_r.
    + rewrite IH; [by rewrite <- app_assoc|].
      intros x y ->. by apply (Hno (c :: x) y).
Qed.

(** X18 (a text is always parsed; a fence that is not closed opens no
    code cell).  [parse_md_to_cells] returns for every text: its loop
    never reads past the parts of the split.  A text that does not
    hold two fences one after the other, be it without a fence or with
    a single one, is one Markdown cell of the whole text, or no cell at
    all when the text is blank. *)
Theorem parse_md_to_cells_returns (md_content : str) :
  (exists cells, parse_md_to_cells default_language md_content = Some cells)
  /\ ((forall a b c, md_content <> a ++ fence ++ b ++ fence ++ c) ->
      parse_md_to_cells default_language md_content
      = Some (markdown_cell md_content)).
Proof.
  unfold parse_md_to_cells, re_split. split.
  - apply cells_of_parts_returns, re_split_from_parts.
  - intros Hopen. rewrite re_split_from_no_match; [done|].
    intros x y ->.
    destruct (match_fence y) as [[[lang code] rest]|] eqn:Hm; [|done].
    apply match_fence_Some in Hm as ->.
    destruct (Hopen x (lang ++ code) rest). by rewrite <- !app_assoc.
Qed.

End Parsing.

(** *** A fenced block *)

(** No fence begins in [a], also when two backquotes follow it. *)
Lemma after_fence_inside c a rest :
  after_fence ((c :: a) ++ [backquote; backquote]) = None ->
  after_fence ((c :: a) ++ fence ++ rest) = None.
Proof.
  destruct a as [|d [|e a]]; simpl.
  - by destruct (N.eqb c backquote).
  - by destruct (N.eqb c backquote), (N.eqb d backquote).
  - by destruct (_ && _).
Qed.

Lemma find_fence_first a rest :
  find_fence (a ++ [backquote; backquote]) = None ->
  find_fence (a ++ fence ++ rest) = Some (a, rest).
Proof.
  induction a as [|c a IH]; [done|].
  change ((c :: a) ++ [backquote; backquote])
    with (c :: (a ++ [backquote; backquote])).
  change ((c :: a) ++ fence ++ rest) with (c :: (a ++ fence ++ rest)).
  cbn [find_fence].
  change (c :: (a ++ [backquote; backquote]))
    with ((c :: a) ++ [backquote; backquote]).
  change (c :: (a ++ fence ++ rest)) with ((c :: a) ++ fence ++ rest).
  destruct (after_fence ((c :: a) ++ [backquote; backquote])) eqn:Hf; [done|].
  rewrite (after_fence_inside c a rest Hf).
  destruct (find_fence (a ++ [backquote; backquote])) as [[]|] eqn:Ha; [done|].
  intros _. by rewrite IH.
Qed.

Section Block.

Context `{!Unicode}.
Variable default_language : str.

Lemma span_word_run lang s :
  Forall (fun c => is_word c = true) lang ->
  match s with [] => True | c :: _ => is_word c = false end ->
  span is_word (lang ++ s) = (lang, s).
Proof.
  intros Hlang Hs. induction Hlang as [|c lang Hc _ IH]; cbn [span app].
  - destruct s as [|c s]; [done|]. cbn [span]. by rewrite Hs.
  - by rewrite Hc, IH.
Qed.

Lemma match_fence_block lang code rest :
  Forall (fun c => is_word c = true) lang ->
  match code with [] => True | c :: _ => is_word c = false end ->
  find_fence (code ++ [backquote; backquote]) = None ->
  match_fence (fence ++ lang ++ code ++ fence ++ rest)
  = Some (lang, code, rest).
Proof.
  intros Hlang Hcode Hclose. unfold match_fence.
  rewrite after_fence_fence, (span_word_run lang).
  - by rewrite find_fence_first.
  - done.
  - by destruct code.
Qed.

(** More fuel than the length of the text changes nothing. *)
Lemma re_split_from_fuel fuel1 fuel2 before s :
  (List.length s < fuel1)%nat -> (List.length s < fuel2)%nat ->
  re_split_from fuel1 before s = re_split_from fuel2 before s.
Proof.
  revert fuel2 before s.
  induction fuel1 as [|fuel1 IH]; intros fuel2 before s H1 H2; [lia|].
  destruct fuel2 as [|fuel2]; [lia|]. simpl.
  destruct (match_fence s) as [[[lang code] rest]|] eqn:Hm.
  - apply match_fence_Some in Hm as Hs.
    apply (f_equal (@List.length N)) in Hs.
    rewrite !length_app in Hs. simpl in Hs.
    do 3 f_equal. apply IH; lia.
  - destruct s as [|c s]; [done|]. simpl in *. apply IH; lia.
Qed.

(** The search passes over a text in which no fence begins. *)
Lemma re_split_from_skip fuel before a s :
  find_fence (a ++ [backquote; backquote]) = None ->
  (exists rest, s = fence ++ rest) ->
  re_split_from (List.length a + fuel) before (a ++ s)
  = re_split_from fuel (before ++ a) s.
Proof.
  intros Ha [rest ->]. revert before Ha.
  induction a as [|c a IH]; intros before Ha.
  - by rewrite app_nil_r.
  - change ((c :: a) ++ [backquote; backquote])
      with (c :: (a ++ [backquote; backquote])) in Ha.
    cbn [find_fence] in Ha.
    change (c :: (a ++ [backquote; backquote]))
      with ((c :: a) ++ [backquote; backquote]) in Ha.
    destruct (after_fence ((c :: a) ++ [backquote; backquote])) eqn:Hf;
      [done|].
    destruct (find_fence (a ++ [backquote; backquote])) as [[]|] eqn:Ha';
      [done|].
    cbn [List.length Nat.add re_split_from]. unfold match_fence.
    rewrite (after_fence_inside c a rest Hf).
    change ((c :: a) ++ fence ++ rest) with (c :: (a ++ fence ++ rest)).
    cbn iota. rewrite IH by done. by rewrite <- app_assoc.
Qed.

(** X19 (a fenced block).  In a text that begins with a text [a]
    holding no fence, then a fence, word characters [lang], a text
    [code] that begins with no word character and holds no fence, a
    fence, and a text [rest]: the cells are the Markdown cell of [a]
    unless [a] is blank, the code cell of [code] with the language that
    [lang] names, and the cells of [rest]. *)
Theorem fenced_block_is_a_code_cell (a lang code rest : str) :
  find_fence (a ++ [backquote; backquote]) = None ->
  Forall (fun c => is_word c = true) lang ->
  match code with [] => True | c :: _ => is_word c = false end ->
  find_fence (code ++ [backquote; backquote]) = None ->
  exists cells,
    parse_md_to_cells default_language rest = Some cells
    /\ parse_md_to_cells default_language
         (a ++ fence ++ lang ++ code ++ fence ++ rest)
       = Some (markdown_cell a
               ++ Code (language_entry default_language lang)
                       (prepare_cell_source code)
                  :: cells).
Proof.
  intros Ha Hlang Hcode Hclose.
  destruct (cells_of_parts_returns default_language
              (re_split_from (S (List.length rest)) [] rest)
              (re_split_from_parts _ _ _)) as [cells Hrest].
  exists cells. unfold parse_md_to_cells, re_split. split; [done|].
  set (s := fence ++ lang ++ code ++ fence ++ rest).
  assert (S (List.length (a ++ s)) = (List.length a + S (List.length s))%nat)
    as -> by (rewrite length_app; lia).
  rewrite (re_split_from_skip _ [] a s Ha) by by eexists.
  cbn [re_split_from]. unfold s at 1.
  rewrite (match_fence_block lang code rest Hlang Hcode Hclose).
  rewrite (re_split_from_fuel _ (S (List.length rest)) [] rest).
  - cbn [cells_of_parts app]. by rewrite Hrest.
  - unfold s. rewrite !length_app. simpl. lia.
  - lia.
Qed.

End Block.

End CellFacts.

(** ** Further properties of the file system calls and of the converter *)

Module ConversionFacts.
Import Converter MonadFacts.

Local Arguments PyStr.strip : simpl never.

(** *** Creating directories *)

(** [os.makedirs] keeps what exists, adds only directories, and when
    it returns every directory it was asked for is there. *)
Lemma makedirs_go_spec m t ds m' r :
  FS.makedirs_go m t ds = (m', r) ->
  (forall k n, m !! k = Some n -> m' !! k = Some n)
  /\ (forall k n, m' !! k = Some n ->
        m !! k = Some n \/ n = Dir (mkStat t t))
  /\ (r = Ok tt -> forall d, d ∈ ds -> exists st, m' !! PathLib.str d = Some (Dir st)).
Proof.
  revert m. induction ds as [|d ds IH]; simpl; intros m.
  - intros [= <- <-]. split_and!; [done|by left|].
    intros _ d Hd. by apply not_elem_of_nil in Hd.
  - destruct (m !! PathLib.str d) as [[c st|st|]|] eqn:Hd.
    + intros [= <- <-]. split_and!; [done|by left|done].
    + intros Hgo. destruct (IH _ Hgo) as (Hkeep & Hnew & Hall).
      split_and!; [done..|].
      intros Hr d' Hd'. apply elem_of_cons in Hd' as [->|Hd']; [|by apply Hall].
      eauto.
    + intros [= <- <-]. split_and!; [done|by left|done].
    + intros Hgo. destruct (IH _ Hgo) as (Hkeep & Hnew & Hall).
      split_and!.
      * intros k n Hk. apply Hkeep. rewrite lookup_insert_ne; [done|].
        intros <-. congruence.
      * intros k n Hk. destruct (Hnew k n Hk) as [Hin | ->]; [|by right].
        destruct (decide (PathLib.str d = k)) as [<-|Hne].
        -- rewrite lookup_insert_eq in Hin. injection Hin as <-. by right.
        -- rewrite lookup_insert_ne in Hin by done. by left.
      * intros Hr d' Hd'. apply elem_of_cons in Hd' as [->|Hd']; [|by apply Hall].
        exists (mkStat t t). apply Hkeep, lookup_insert_eq.
Qed.

Lemma prefixes_last d : parts d <> [] -> d ∈ FS.prefixes d.
Proof.
  intros Hne. unfold FS.prefixes. apply list_elem_of_fmap.
  exists (List.length (parts d)). split.
  - rewrite List.firstn_all. by destruct d.
  - apply list_elem_of_In, List.in_seq. destruct (parts d); [done|]. simpl. lia.
Qed.

(** X22 (ensuring a directory).  [ensure_dir_exists] keeps every entry
    of the file system and adds nothing but directories.  When it
    returns, the path exists, and ensuring it again changes nothing and
    logs nothing. *)
Theorem ensure_dir_exists_only_adds_directories (directory : Path)
    (w w' : world) (r : result unit) :
  Utils.ensure_dir_exists directory w = (w', r) ->
  (forall k n, fs w !! k = Some n -> fs w' !! k = Some n)
  /\ (forall k n, fs w' !! k = Some n ->
        fs w !! k = Some n \/ exists st, n = Dir st)
  /\ (r = Ok tt ->
      FS.exists_ (fs w') directory = true
      /\ Utils.ensure_dir_exists directory w' = (w', Ok tt)).
Proof.
  unfold Utils.ensure_dir_exists, bind, Os.exists_, gets, Os.makedirs,
    Os.info, modify, ret, FS.makedirs.
  destruct (FS.exists_ (fs w) directory) eqn:Hex; simpl.
  - intros [= <- <-]. split_and!; [done|by left|].
    intros _. by rewrite Hex.
  - destruct (FS.makedirs_go (fs w) (now w) (FS.prefixes directory))
      as [m [[]|e]] eqn:Hm;
      destruct (makedirs_go_spec _ _ _ _ _ Hm) as (Hkeep & Hnew & Hall);
      intros [= <- <-]; simpl.
    + split_and!; [done| |].
      * intros k n Hk. destruct (Hnew k n Hk) as [? | ->]; eauto.
      * intros _.
        assert (FS.exists_ m directory = true) as Hex'.
        { unfold FS.exists_ in *. destruct (parts directory) eqn:Hp; [done|].
          destruct (Hall eq_refl directory) as [st ->]; [|done].
          apply prefixes_last. by rewrite Hp. }
        by rewrite Hex'.
    + split_and!; [done| |done].
      intros k n Hk. destruct (Hnew k n Hk) as [? | ->]; eauto.
Qed.

(** *** What a conversion writes *)

Lemma is_dir_exists m p : FS.is_dir m p = true -> FS.exists_ m p = true.
Proof.
  unfold FS.is_dir, FS.exists_. destruct (parts p); [done|].
  by destruct (m !! PathLib.str p) as [[]|].
Qed.

(** Writing [text] to a target whose directory is in place and setting
    its times. *)
Lemma write_md_run tgt text a mt w :
  FS.is_dir (fs w) (PathLib.parent tgt) = true ->
  (forall st', fs w !! PathLib.str tgt <> Some (Dir st')) ->
  write_md tgt text a mt w
  = (set_fs w (<[PathLib.str tgt := File text (mkStat a mt)]> (fs w)), Ok tt).
Proof.
  intros Hdir Hnodir.
  unfold write_md, bind, Os.write, Os.utime, Os.update, FS.write.
  rewrite Hdir. simpl.
  assert (match fs w !! PathLib.str tgt with
          | Some (Dir _) => Raise IsADirectoryError
          | _ => Ok (<[PathLib.str tgt := File text (mkStat (now w) (now w))]> (fs w))
          end
          = Ok (<[PathLib.str tgt := File text (mkStat (now w) (now w))]> (fs w)))
    as ->.
  { destruct (fs w !! PathLib.str tgt) as [[| st' |]|] eqn:Hl; try done.
    by destruct (Hnodir st'). }
  unfold FS.utime. simpl. rewrite lookup_insert_eq. simpl.
  by rewrite insert_insert_eq.
Qed.

Section Facts.

Context `{!Externals}.


(** X24 (an empty notebook).  A notebook that is empty or holds only
    white space is converted without being parsed: the target is
    written as an empty Markdown file with the times of the notebook,
    whatever it held before. *)
Theorem blank_notebook_blanks_the_target (ipynb_path md_path : Path)
    (raw : string) (st : stat_result) (w : world) :
  fs w !! PathLib.str ipynb_path = Some (File raw st) ->
  PyStr.strip raw = "" ->
  FS.is_dir (fs w) (PathLib.parent md_path) = true ->
  (forall st', fs w !! PathLib.str md_path <> Some (Dir st')) ->
  exists w',
    ipynb_to_md ipynb_path (Some md_path) w = (w', Ok md_path)
    /\ fs w' = <[PathLib.str md_path := File "" st]> (fs w).
Proof.
  intros Hsrc Hstrip Hdir Hnodir.
  pose proof (is_dir_exists _ _ Hdir) as Hex.
  assert (mkStat (st_atime st) (st_mtime st) = st) as Hst by by destruct st.
  unfold ipynb_to_md, output_path, Utils.ensure_dir_exists.
  unfold bind at 1 2 3 4. unfold ret at 1. unfold Os.info at 1.
  unfold modify at 1. unfold Os.exists_, gets. simpl. rewrite Hex. simpl.
  unfold ret at 1. unfold try_except.
  unfold bind at 1. unfold Os.stat, read_result, FS.stat. simpl.
  rewrite Hsrc.
  unfold bind at 1. unfold Os.st_size, read_result, FS.st_size. simpl.
  rewrite Hsrc.
  destruct (Z.of_nat (String.length raw) =? 0).
  - unfold bind at 1. unfold Os.warning at 1. unfold modify at 1.
    unfold bind at 1. rewrite write_md_run by done.
    unfold bind, Os.info, modify, ret. simpl. rewrite Hst. eauto.
  - unfold bind at 1. unfold Os.read, read_result, FS.read. simpl.
    rewrite Hsrc, Hstrip. simpl.
    unfold bind at 1. unfold Os.warning at 1. unfold modify at 1.
    unfold bind at 1. rewrite write_md_run by done.
    unfold bind, Os.info, modify, ret. simpl. rewrite Hst. eauto.
Qed.

End Facts.

End ConversionFacts.

(** *** The further properties on the sample trees *)

Module FurtherExamples.

#[local] Existing Instance Sample.externals.

(** The scan of the MD tree with a hidden file and a hidden directory
    records [notes.md] alone. *)
Lemma scanned_hidden :
  ConsistencyChecker.scan_directory (Sample.config "newer" None)
    (Sample.world_of Scene.hidden) (PathLib.of_str "/r/md") None
  = (Sample.world_of Scene.hidden, Ok {["notes.md" := Sample.md_file 7]}).
Proof. reflexivity. Qed.


Lemma plan_reads_scanned_files_witness :
  exists plan,
    ConsistencyChecker.build_sync_actions (Sample.config "newer" None)
      {["notes.md" := Sample.md_file (20 * second)]}
      {["notes.ipynb" := Sample.ipynb_file (10 * second)]} = Ok plan
    /\ (forall a, a ∈ md_to_ipynb plan ->
          exists i,
            ({["notes.md" := Sample.md_file (20 * second)]} : gmap string FileInfo)
              !! a_rel_path a = Some i
            /\ source a = path i
            /\ Utils.is_markdown_file (PathLib.str (path i)) = true)
    /\ (forall a, a ∈ ipynb_to_md plan ->
          exists k i,
            ({["notes.ipynb" := Sample.ipynb_file (10 * second)]}
               : gmap string FileInfo) !! k = Some i
            /\ source a = path i)
    /\ conflict plan = [].
Proof.
  eexists. split; [reflexivity|].
  apply (PlanFacts.plan_reads_scanned_files (Sample.config "newer" None)
           {["notes.md" := Sample.md_file (20 * second)]}
           {["notes.ipynb" := Sample.ipynb_file (10 * second)]}).
  vm_compute. reflexivity.
Defined.

(** Under the force-IPYNB value, [notes.md] without a notebook is
    scheduled from MD to IPYNB. *)
Lemma lone_md_file_is_scheduled_witness :
  exists plan,
    ConsistencyChecker.build_sync_actions (Sample.config "ipynb" None)
      {["notes.md" := Sample.md_file 7]} ∅ = Ok plan
    /\ from_source Sample.notes_md (md_to_ipynb plan)
       = [mkAction Sample.notes_md Sample.notes_ipynb "notes.md" Inf].
Proof.
  eexists. split; [reflexivity|].
  apply (PlanFacts.lone_md_file_is_scheduled (Sample.config "ipynb" None)
           {["notes.md" := Sample.md_file 7]} ∅ "notes.md" (Sample.md_file 7)).
  - apply (CheckerExamples.scan_of_md (Sample.config "ipynb" None) 7 eq_refl).
  - vm_compute. reflexivity.
  - vm_compute. reflexivity.
  - vm_compute. reflexivity.
  - vm_compute. reflexivity.
Defined.

(** Under the force-MD value, [notes.ipynb] without a Markdown file is
    scheduled from IPYNB to MD. *)
Lemma lone_ipynb_file_is_scheduled_witness :
  exists plan,
    ConsistencyChecker.build_sync_actions (Sample.config "md" None)
      ∅ {["notes.ipynb" := Sample.ipynb_file 7]} = Ok plan
    /\ mkAction Sample.notes_ipynb Sample.notes_md "notes.ipynb" Inf
       ∈ ipynb_to_md plan.
Proof.
  eexists. split; [reflexivity|].
  apply (PlanFacts.lone_ipynb_file_is_scheduled (Sample.config "md" None)
           ∅ {["notes.ipynb" := Sample.ipynb_file 7]}
           "notes.ipynb" (Sample.ipynb_file 7)).
  - apply (CheckerExamples.scan_of_ipynb (Sample.config "md" None) 7 eq_refl).
  - vm_compute. reflexivity.
  - vm_compute. reflexivity.
  - vm_compute. reflexivity.
  - vm_compute. reflexivity.
Defined.

(** The scan of the MD tree records the dangling link [notes.md]
    without a modification time, and the reconciliation raises. *)
Lemma scanned_link :
  Sample.scanned (Sample.config "newer" None) (Sample.world_of Scene.dangling)
                 (PathLib.of_str "/r/md")
  = {["notes.md" := Scene.md_link]}.
Proof. reflexivity. Qed.

Lemma check_consistency_link :
  (ConsistencyChecker.check_consistency (Sample.config "newer" None)
     (Sample.world_of Scene.dangling)).2 = Raise TypeError.
Proof. reflexivity. Qed.

Lemma scan_of_md_link :
  scan_of (md_dir (Sample.config "newer" None)) {["notes.md" := Scene.md_link]}.
Proof. apply map_Forall_singleton. by repeat split. Qed.

Lemma link_pair :
  mirrored_pair {["notes.md" := Scene.md_link]}
                {["notes.ipynb" := Sample.ipynb_file 7]}
                "notes.md" "notes.ipynb" Scene.md_link (Sample.ipynb_file 7).
Proof. by repeat split. Qed.

Lemma pair_without_mtime_raises_witness :
  ConsistencyChecker.build_sync_actions (Sample.config "newer" None)
    {["notes.md" := Scene.md_link]} {["notes.ipynb" := Sample.ipynb_file 7]}
  = Raise TypeError.
Proof.
  apply (PlanFacts.pair_without_mtime_raises (Sample.config "newer" None)
           {["notes.md" := Scene.md_link]}
           {["notes.ipynb" := Sample.ipynb_file 7]}
           "notes.md" "notes.ipynb" Scene.md_link (Sample.ipynb_file 7)
           scan_of_md_link
           (CheckerExamples.scan_of_ipynb (Sample.config "newer" None) 7 eq_refl)
           link_pair).
  left. vm_compute. reflexivity.
Defined.


(** Under the force-IPYNB value an existing [notes.ipynb] is not
    overwritten from [notes.md], although [notes.md] is newer. *)
Lemma forced_side_protects_existing_target_witness :
  exists s',
    propagate (Sample.config "ipynb" None) true Sample.notes_md Sample.notes_ipynb
      (Sample.engine_over
         (Sample.world_of (Sample.tree (20 * second) (10 * second))))
    = (s', Ok tt)
    /\ fs (st_world s') = Sample.tree (20 * second) (10 * second)
    /\ recently_synced s' = ∅.
Proof.
  refine (proj1 (PropagationFacts.forced_side_protects_existing_target
                   (Sample.config "ipynb" None) true
                   (Sample.engine_over
                      (Sample.world_of (Sample.tree (20 * second) (10 * second))))
                   Sample.notes_md Sample.notes_ipynb _) _ _).
  - vm_compute. reflexivity.
  - vm_compute. reflexivity.
  - vm_compute. reflexivity.
Defined.

(** With [conflict_resolution] set to 'manual', the older [notes.ipynb]
    is propagated over the newer [notes.md]. *)
Lemma unknown_resolution_always_converts_witness :
  propagate (Sample.config "manual" None) false Sample.notes_ipynb Sample.notes_md
    (Sample.engine_over (Sample.world_of (Sample.tree (20 * second) (10 * second))))
  = conversion_step false Sample.notes_ipynb Sample.notes_md
      (announced false Sample.notes_ipynb Sample.notes_md
         (Sample.engine_over
            (Sample.world_of (Sample.tree (20 * second) (10 * second))))).
Proof.
  apply (PropagationFacts.unknown_resolution_always_converts
           (Sample.config "manual" None) false
           (Sample.engine_over
              (Sample.world_of (Sample.tree (20 * second) (10 * second))))
           Sample.notes_ipynb Sample.notes_md).
  - vm_compute. discriminate.
  - vm_compute. discriminate.
  - vm_compute. discriminate.
  - vm_compute. reflexivity.
Defined.


(** A change event for [notes.md] when the MD tree is configured
    elsewhere. *)
Lemma event_outside_the_trees_changes_nothing_witness :
  SyncEngine.sync_file_if_needed Scene.md_elsewhere Sample.notes_md
    (Sample.engine_over (Sample.world_of (Sample.tree 7 7)))
  = (Sample.engine_over (Sample.world_of (Sample.tree 7 7)), Ok tt).
Proof.
  apply (PropagationFacts.event_outside_the_trees_changes_nothing
           Scene.md_elsewhere
           (Sample.engine_over (Sample.world_of (Sample.tree 7 7)))
           Sample.notes_md).
  right. split.
  - exact (not_elem_of_empty (C := gset string) "/r/md/notes.md").
  - right. left. vm_compute. split; reflexivity.
Defined.

(** After [notes.md] has been converted to a new [notes.ipynb], the
    propagation from [notes.ipynb] is skipped. *)
Lemma no_propagation_back_after_conversion_witness :
  exists s2,
    propagate (Sample.config "newer" None) false Sample.notes_ipynb Sample.notes_md
      (Sample.engine_over
         (converter true Sample.notes_md Sample.notes_ipynb
            (Sample.world_of (Sample.tree 7 7))).1)
    = (s2, Ok tt)
    /\ fs (st_world s2)
       = fs (converter true Sample.notes_md Sample.notes_ipynb
               (Sample.world_of (Sample.tree 7 7))).1
    /\ recently_synced s2 = ∅.
Proof.
  apply (PropagationFacts.no_propagation_back_after_conversion
           (Sample.config "newer" None) true
           (Sample.world_of (Sample.tree 7 7))
           (converter true Sample.notes_md Sample.notes_ipynb
              (Sample.world_of (Sample.tree 7 7))).1
           Sample.notes_ipynb Sample.notes_md Sample.notes_ipynb
           (Sample.engine_over
              (converter true Sample.notes_md Sample.notes_ipynb
                 (Sample.world_of (Sample.tree 7 7))).1)).
  - vm_compute. reflexivity.
  - vm_compute. reflexivity.
  - vm_compute. reflexivity.
  - vm_compute. reflexivity.
  - vm_compute. reflexivity.
Defined.

(** The mirror of [notes.md] is a directory: the deletion of [notes.md]
    removes nothing. *)
Lemma deletion_keeps_a_directory_mirror_witness :
  exists s',
    SyncEngine.handle_file_deletion (Sample.config "newer" None) Sample.notes_md
      (Sample.engine_over (Sample.world_of Scene.mirror_is_dir))
    = (s', Ok tt)
    /\ fs (st_world s') = Scene.mirror_is_dir
    /\ levelname (List.last (log (st_world s')) (mkLog DEBUG "" [])) = ERROR.
Proof.
  apply (PropagationFacts.deletion_keeps_a_directory_mirror
           (Sample.config "newer" None)
           (Sample.engine_over (Sample.world_of Scene.mirror_is_dir))
           Sample.notes_md Sample.notes_ipynb (Sample.stamp 7)).
  - vm_compute. reflexivity.
  - vm_compute. reflexivity.
  - vm_compute. reflexivity.
  - vm_compute. reflexivity.
Defined.

(** The cache holds [/r/md_nb/notes.ipynb], which exists; the check of
    [/r/md] reports it deleted. *)
Lemma path_beside_directory_is_reported_deleted_witness :
  ("/r/md_nb/notes.ipynb", deleted)
    ∈ (Polling.check_directory_changes Scene.beside
         (file_states Scene.started) (PathLib.of_str "/r/md")).1
  /\ (Polling.check_directory_changes Scene.beside
        (file_states Scene.started) (PathLib.of_str "/r/md")).2
       !! "/r/md_nb/notes.ipynb" = None.
Proof.
  apply (PollingFacts.path_beside_directory_is_reported_deleted Scene.beside
           (file_states Scene.started) (PathLib.of_str "/r/md")
           "/r/md_nb/notes.ipynb" (mkFileState 7 2)).
  - vm_compute. discriminate.
  - vm_compute. reflexivity.
  - vm_compute. reflexivity.
  - vm_compute. reflexivity.
  - vm_compute. reflexivity.
Defined.

(** With nothing changed since the start, the first pass of the main
    loop queues a deletion of the notebook, and the pass a second later
    removes [notes.md]. *)
Lemma sibling_tree_loses_a_file :
  let p1 := Scene.pass Scene.beside_config Scene.started Scene.later in
  let p2 := Scene.pass Scene.beside_config p1.2 (at_time p1.1 (104 * second)) in
  fs (st_world p1.1) = Scene.beside
  /\ type <$> (pending_events (queue p1.2) !! "/r/md_nb/notes.ipynb")
     = Some deleted
  /\ fs (st_world p2.1) = delete "/r/md/notes.md" Scene.beside.
Proof. vm_compute. by repeat split. Qed.

(** [notes.md] is deleted at 101 s, created again at 102 s and deleted
    again at 104 s, the last cleanup having run at 100 s: the queue
    keeps the creation. *)
Lemma repeated_deletion_waits_for_cleanup_witness :
  pending_events
    (queue
       (Polling.on_deleted (Sample.config "newer" None)
          (Polling.cleanup_processed_deletes
             (Polling.set_queue
                (Polling.on_deleted (Sample.config "newer" None) Scene.initial
                   false (101 * second) Sample.notes_md)
                (FileWatcher.add_pending_event (Sample.config "newer" None)
                   (queue (Polling.on_deleted (Sample.config "newer" None)
                             Scene.initial false (101 * second) Sample.notes_md))
                   (102 * second) Sample.notes_md created))
             (103 * second))
          false (104 * second) Sample.notes_md))
    !! "/r/md/notes.md"
  = Some (mkEvent (102 * second) created Sample.notes_md).
Proof.
  refine (proj1 (PollingFacts.repeated_deletion_waits_for_cleanup
                   (Sample.config "newer" None) Scene.initial false
                   Sample.notes_md created
                   (101 * second) (102 * second) (103 * second) (104 * second)
                   _) _).
  - vm_compute. reflexivity.
  - vm_compute. discriminate.
Defined.

(** A title, then a block fenced with [py]. *)
Lemma fenced_block_is_a_code_cell_witness :
  exists cells,
    @Cells.parse_md_to_cells Scene.ascii_texts (Text.of_string "python") []
    = Some cells
    /\ @Cells.parse_md_to_cells Scene.ascii_texts (Text.of_string "python")
         ((Text.of_string "Title" ++ [Text.newline]) ++ fence
          ++ Text.of_string "py"
          ++ (Text.newline :: Text.of_string "x = 1" ++ [Text.newline])
          ++ fence ++ [])
       = Some (@Cells.markdown_cell (Text.of_string "Title" ++ [Text.newline])
               ++ Code (Cells.language_entry (Text.of_string "python")
                          (Text.of_string "py"))
                       (Cells.prepare_cell_source
                          (Text.newline :: Text.of_string "x = 1" ++ [Text.newline]))
                  :: cells).
Proof.
  apply (@CellFacts.fenced_block_is_a_code_cell Scene.ascii_texts
           (Text.of_string "python")
           (Text.of_string "Title" ++ [Text.newline]) (Text.of_string "py")
           (Text.newline :: Text.of_string "x = 1" ++ [Text.newline]) []).
  - vm_compute. reflexivity.
  - vm_compute. repeat constructor.
  - vm_compute. reflexivity.
  - vm_compute. reflexivity.
Defined.

(** The cells of that text. *)
Lemma title_and_block :
  @Cells.parse_md_to_cells Scene.ascii_texts (Text.of_string "python")
    ((Text.of_string "Title" ++ [Text.newline]) ++ fence
     ++ Text.of_string "py"
     ++ (Text.newline :: Text.of_string "x = 1" ++ [Text.newline])
     ++ fence)
  = Some [Markdown [Text.of_string "Title" ++ [Text.newline]];
          Code None [[Text.newline];
                     Text.of_string "x = 1" ++ [Text.newline]]].
Proof. reflexivity. Qed.

(** A fence that is never closed: the text is one Markdown cell. *)
Lemma open_fence_is_markdown :
  @Cells.parse_md_to_cells Scene.ascii_texts (Text.of_string "python")
    (fence ++ Text.of_string "py" ++ Text.newline :: Text.of_string "x = 1")
  = Some [Markdown [fence ++ Text.of_string "py" ++ [Text.newline];
                    Text.of_string "x = 1"]].
Proof. reflexivity. Qed.

Lemma extension_of_a_file_witness :
  Utils.get_file_extension ("/r/md/" +:+ "Notes" +:+ "." +:+ "MD") = "md".
Proof.
  apply (NameFacts.extension_of_a_file "/r/md/" "Notes" "MD").
  - right. vm_compute. reflexivity.
  - vm_compute. reflexivity.
  - vm_compute. reflexivity.
  - vm_compute. reflexivity.
Defined.

Lemma checker_and_engine_agree_on_the_mirror_witness :
  ConsistencyChecker.get_corresponding_path
    (PathLib.of_str "/r/md/sub/notes.md") (PathLib.of_str "/r/md")
    (PathLib.of_str "/r/nb") ".ipynb"
  = Ok (PathLib.of_str "/r/nb/sub/notes.ipynb")
  /\ SyncEngine.mirror_path
       (PathLib.of_str "/r/md/sub/notes.md") (PathLib.of_str "/r/md")
       (PathLib.of_str "/r/nb") ".ipynb"
     = Ok (PathLib.of_str "/r/nb/sub/notes.ipynb").
Proof.
  apply (NameFacts.checker_and_engine_agree_on_the_mirror
           (PathLib.of_str "/r/md") (PathLib.of_str "/r/nb")
           ["sub"; "notes.md"] ".ipynb").
  - discriminate.
  - repeat constructor; discriminate.
  - right. reflexivity.
Defined.

(** [/r/nb/sub] below the missing [/r/nb]. *)
Lemma ensure_dir_exists_only_adds_directories_witness :
  FS.exists_
    (fs (Utils.ensure_dir_exists (PathLib.of_str "/r/nb/sub")
           (Sample.world_of Sample.md_only)).1)
    (PathLib.of_str "/r/nb/sub") = true
  /\ Utils.ensure_dir_exists (PathLib.of_str "/r/nb/sub")
       (Utils.ensure_dir_exists (PathLib.of_str "/r/nb/sub")
          (Sample.world_of Sample.md_only)).1
     = ((Utils.ensure_dir_exists (PathLib.of_str "/r/nb/sub")
           (Sample.world_of Sample.md_only)).1, Ok tt).
Proof.
  refine (proj2 (proj2 (ConversionFacts.ensure_dir_exists_only_adds_directories
                          (PathLib.of_str "/r/nb/sub")
                          (Sample.world_of Sample.md_only)
                          (Utils.ensure_dir_exists (PathLib.of_str "/r/nb/sub")
                             (Sample.world_of Sample.md_only)).1
                          (Ok tt) _)) _).
  - vm_compute. reflexivity.
  - reflexivity.
Defined.


(** A notebook of two spaces over an existing [notes.md]. *)
Lemma blank_notebook_blanks_the_target_witness :
  exists w',
    Converter.ipynb_to_md Sample.notes_ipynb (Some Sample.notes_md)
      (Sample.world_of
         (<["/r/nb/notes.ipynb" := File "  " (Sample.stamp 9)]> (Sample.tree 7 7)))
    = (w', Ok Sample.notes_md)
    /\ fs w' = <["/r/md/notes.md" := File "" (Sample.stamp 9)]>
                 (<["/r/nb/notes.ipynb" := File "  " (Sample.stamp 9)]>
                    (Sample.tree 7 7)).
Proof.
  refine (ConversionFacts.blank_notebook_blanks_the_target
            Sample.notes_ipynb Sample.notes_md "  " (Sample.stamp 9)
            (Sample.world_of
               (<["/r/nb/notes.ipynb" := File "  " (Sample.stamp 9)]>
                  (Sample.tree 7 7))) _ _ _ _).
  - vm_compute. reflexivity.
  - vm_compute. reflexivity.
  - vm_compute. reflexivity.
  - intros st'. vm_compute. discriminate.
Defined.


End FurtherExamples.

(** *** Paths, file types and the whole initial synchronisation, evaluated *)

Module Evaluation.

#[local] Existing Instance Sample.externals.

Example extension_is_lower_cased :
  Utils.get_file_extension "/a/b.c/notes.MD" = "md".
Proof. reflexivity. Qed.

Example hidden_file_has_no_extension :
  Utils.get_file_extension "/a/b.c/.md" = "".
Proof. reflexivity. Qed.

Example directory_dot_is_no_extension :
  Utils.get_file_extension "/a/b.c/notes" = "".
Proof. reflexivity. Qed.

Example mirror_keeps_inner_dots :
  ConsistencyChecker.mirror_rel "a/b.x.md" ".ipynb" = "a/b.x.ipynb".
Proof. reflexivity. Qed.

Example mirror_at_top_level :
  ConsistencyChecker.mirror_rel "notes.ipynb" ".md" = "notes.md".
Proof. reflexivity. Qed.

Example relpath_inside :
  PathLib.relpath (PathLib.of_str "/r/md/a/b.md") (PathLib.of_str "/r/md")
  = "a/b.md".
Proof. reflexivity. Qed.

Example relpath_outside :
  PathLib.relpath (PathLib.of_str "/r/x/b.md") (PathLib.of_str "/r/md")
  = "../x/b.md".
Proof. reflexivity. Qed.

Example mirror_of_nested_file :
  SyncEngine.mirror_of (Sample.config "newer" None)
                       (PathLib.of_str "/r/md/a/b.md")
  = Ok (PathLib.of_str "/r/nb/a/b.ipynb").
Proof. reflexivity. Qed.

Example fnmatch_hidden_pattern :
  fnmatch ".git" ".*" = true /\ fnmatch "notes.md" ".*" = false.
Proof. split; reflexivity. Qed.

(** A dangling link is scanned without a modification time; paired with a
    mirror it makes the reconciliation raise. *)
Example dangling_pair_raises :
  (ConsistencyChecker.check_consistency (Sample.config "newer" None)
     (Sample.world_of
        (<["/r/md/notes.md" := Dangling]> (Sample.tree 0 0)))).2
  = Raise TypeError.
Proof. reflexivity. Qed.

(** At the failing input of C2 the initial synchronisation then skips the
    one scheduled action, so neither file is propagated. *)
Example force_ipynb_initial_sync_changes_no_file :
  fs (st_world
        (SyncEngine.perform_initial_sync (Sample.config "ipynb" None)
           (Sample.engine_over
              (Sample.world_of (Sample.tree (20 * second) (10 * second))))).1)
  = Sample.tree (20 * second) (10 * second).
Proof. vm_compute. reflexivity. Qed.

(** The scenario of the specification: [notes.md] alone, 'newer',
    [delete_orphaned] set.  The initial synchronisation creates
    [notes.ipynb] with the times of [notes.md]. *)
Example initial_sync_of_a_lone_file :
  fs (st_world
        (SyncEngine.perform_initial_sync (Sample.config "newer" None)
           (Sample.engine_over (Sample.world_of Sample.md_only))).1)
    !! "/r/nb/notes.ipynb"
  = Some (File "{cells: hello}" (Sample.stamp 7)).
Proof. vm_compute. reflexivity. Qed.

End Evaluation.
